(** * WebDAV client of the n8n WebDAV node: a shallow embedding

    The development follows [src/webdav-client.ts] (class [WebDAVClient]) and
    the MOVE branch of [WebDav.execute] in the node file.  JavaScript values
    are an inductive type, exceptions are a result type, and the HTTP
    exchanges go through a small state monad that records every request
    handed to the network.

    Conventions of the model:
    - strings are byte strings (the UTF-8 encoding of the JavaScript string);
    - a JavaScript number is an integer [Z] of the safe range, of
      magnitude at most 2^53 - 1 (the decimal numerals a server sends for
      a content length); numbers with a fraction and larger numbers are
      not values of the model; [parseInt] can also produce [NaN], and the
      rounding of a numeral that lies beyond the safe range;
    - the XML parser (fast-xml-parser), the clock, the WHATWG [URL]
      constructor and the network are parameters of the sections below. *)

From Stdlib Require Import String Ascii List ZArith Lia Bool.
From Stdlib Require Import DecimalString DecimalPos.
Import ListNotations.
Open Scope string_scope.
Set Warnings "-register-all".

(* ================================================================== *)
(** ** String primitives used by the client *)

Module Str.

(** [s.startsWith(p)] *)
Definition startsWith (s p : string) : bool := String.prefix p s.

(** [s.endsWith(suffix)] *)
Fixpoint endsWith (s suffix : string) : bool :=
  (s =? suffix) ||
  match s with
  | EmptyString => false
  | String _ r => endsWith r suffix
  end.

(** [s.includes(sub)] *)
Fixpoint includes (s sub : string) : bool :=
  String.prefix sub s ||
  match s with
  | EmptyString => false
  | String _ r => includes r sub
  end.

(** [s.slice(0, -1)]: the string without its last character. *)
Fixpoint slice_0_m1 (s : string) : string :=
  match s with
  | EmptyString => EmptyString
  | String c EmptyString => EmptyString
  | String c r => String c (slice_0_m1 r)
  end.

(** [s.replace(/\/$/, '')] *)
Definition stripTrailingSlash (s : string) : string :=
  if endsWith s "/" then slice_0_m1 s else s.

(** [s.replace(/^\//, '')] *)
Definition stripLeadingSlash (s : string) : string :=
  match s with
  | String "/" r => r
  | _ => s
  end.

(** [parts.join(sep)] *)
Fixpoint join (sep : string) (parts : list string) : string :=
  match parts with
  | [] => ""
  | [p] => p
  | p :: rest => p ++ sep ++ join sep rest
  end.

(** [s.split('/')], on the characters of [s]; [cur] is the segment being
    read, in reverse. *)
Fixpoint split_slash_aux (s : string) (cur : list ascii) : list string :=
  match s with
  | EmptyString => [string_of_list_ascii (rev cur)]
  | String c r =>
      if Ascii.eqb c "/"
      then string_of_list_ascii (rev cur) :: split_slash_aux r []
      else split_slash_aux r (c :: cur)
  end.

Definition split_slash (s : string) : list string := split_slash_aux s [].

End Str.

(* ================================================================== *)
(** ** JavaScript values *)

(** The values the XML parser builds and the client inspects.  An object is
    the list of its own properties in insertion order; a property read takes
    the first entry with the key.  [JNum n] is the Number that holds the
    integer [n] of the safe range. *)
Inductive jsval : Type :=
| JUndefined
| JNull
| JBool (b : bool)
| JNum (n : Z)
| JStr (s : string)
| JArr (items : list jsval)
| JObj (fields : list (string * jsval)).

(** Result of [parseInt].  A Number holds an integer exactly only up to
    2^53 - 1 in magnitude (the safe range); of a longer numeral [parseInt]
    returns the Number nearest to it, [Infinity] at the far end.
    [Rounded z] stands for that Number, the rounding of the integer [z]:
    the model does not say which Number it is. *)
Inductive jsnum : Type :=
| NaN
| Num (z : Z)
| Rounded (z : Z).

(** Exceptions that travel through the client. *)
Record WebDAVError : Type := mkWebDAVError {
  message : string;
  statusCode : option Z;
  statusText : option string
}.

Inductive exn : Type :=
| NativeError (name : string) (msg : string)
    (* TypeError, URIError, Error and whatever the XML parser throws *)
| AxiosError (msg : string) (response : option (Z * string))
    (* [response] is [Some (status, statusText)] when the server answered *)
| WebDAVErr (e : WebDAVError)
| NodeOperationError (msg : string).

Definition exn_message (e : exn) : string :=
  match e with
  | NativeError _ m => m
  | AxiosError m _ => m
  | WebDAVErr w => message w
  | NodeOperationError m => m
  end.

Inductive result (A : Type) : Type :=
| Ok (a : A)
| Throw (e : exn).
Arguments Ok {A} a.
Arguments Throw {A} e.

Definition rbind {A B} (r : result A) (k : A -> result B) : result B :=
  match r with
  | Ok a => k a
  | Throw e => Throw e
  end.

Definition try_catch {A} (r : result A) (handler : exn -> result A) : result A :=
  match r with
  | Ok a => Ok a
  | Throw e => handler e
  end.

Declare Scope result_scope.
Delimit Scope result_scope with result.
Notation "'let?' x ':=' r 'in' k" := (rbind r (fun x => k))
  (at level 10, x name, r at level 100, k at level 200) : result_scope.
Open Scope result_scope.

(** [mapM]: [Array.prototype.map] with a callback that may throw. *)
Fixpoint rmap {A B} (f : A -> result B) (l : list A) : result (list B) :=
  match l with
  | [] => Ok []
  | a :: rest =>
      let? b := f a in
      let? bs := rmap f rest in
      Ok (b :: bs)
  end.

Module Js.

(** ToBoolean *)
Definition truthy (v : jsval) : bool :=
  match v with
  | JUndefined | JNull => false
  | JBool b => b
  | JNum n => negb (n =? 0)%Z
  | JStr s => negb (s =? "")
  | JArr _ | JObj _ => true
  end.

(** [a || b] when evaluating [b] cannot throw. *)
Definition or (a b : jsval) : jsval := if truthy a then a else b.

(** [v !== undefined] *)
Definition defined (v : jsval) : bool :=
  match v with
  | JUndefined => false
  | _ => true
  end.

Fixpoint lookup (fields : list (string * jsval)) (key : string) : jsval :=
  match fields with
  | [] => JUndefined
  | (k, v) :: rest => if k =? key then v else lookup rest key
  end.

(** [obj[key]] for the keys the client reads (none of them is a member of a
    built-in prototype): a TypeError on [undefined] and [null], the own
    property of an object, [undefined] on every other value. *)
Definition get (obj : jsval) (key : string) : result jsval :=
  match obj with
  | JUndefined =>
      Throw (NativeError "TypeError"
        ("Cannot read properties of undefined (reading '" ++ key ++ "')"))
  | JNull =>
      Throw (NativeError "TypeError"
        ("Cannot read properties of null (reading '" ++ key ++ "')"))
  | JObj fields => Ok (lookup fields key)
  | _ => Ok JUndefined
  end.

(** [Number.MAX_SAFE_INTEGER], 2^53 - 1. *)
Definition maxSafeInteger : Z := 9007199254740991.

(** An integer that a Number holds exactly. *)
Definition safe (z : Z) : bool := (Z.abs z <=? maxSafeInteger)%Z.

(** Number::toString on the Numbers of the model, the integers of the safe
    range: such a Number prints as its decimal numeral.  A Number with a
    fraction or beyond the safe range, which prints otherwise (in exponent
    form from 10^21), is not a value of the model: [JNum] holds none. *)
Definition numToString (n : Z) : string := NilZero.string_of_int (Z.to_int n).

(** ToString *)
Fixpoint toString (v : jsval) : string :=
  match v with
  | JUndefined => "undefined"
  | JNull => "null"
  | JBool true => "true"
  | JBool false => "false"
  | JNum n => numToString n
  | JStr s => s
  | JArr items =>
      Str.join ","
        (map (fun x => match x with
                       | JUndefined | JNull => ""
                       | _ => toString x
                       end) items)
  | JObj _ => "[object Object]"
  end.

(** Strict equality with a string, as [Array.prototype.includes] uses it
    for a string argument. *)
Definition strictEqStr (v : jsval) (s : string) : bool :=
  match v with
  | JStr t => t =? s
  | _ => false
  end.

(** [status.includes('200')] for a truthy [status]: the substring test on a
    string, membership on an array, and a TypeError on every other value,
    which has no callable [includes]. *)
Definition includes (callee : string) (v : jsval) (needle : string) : result bool :=
  match v with
  | JStr s => Ok (Str.includes s needle)
  | JArr items => Ok (existsb (fun x => strictEqStr x needle) items)
  | _ => Throw (NativeError "TypeError" (callee ++ ".includes is not a function"))
  end.

(** *** [parseInt(string, 10)] *)

(** The white space and the line terminators that [parseInt] skips.  A
    string is the sequence of the octets of its UTF-8 encoding: the six
    characters of ASCII take one octet, U+00A0 two, and U+1680, U+2000 to
    U+200A, U+2028, U+2029, U+202F, U+205F, U+3000 and U+FEFF three. *)
Definition isWhite (c : ascii) : bool :=
  let n := nat_of_ascii c in
  (n =? 9)%nat || (n =? 10)%nat || (n =? 11)%nat || (n =? 12)%nat ||
  (n =? 13)%nat || (n =? 32)%nat.

Definition isWhite2 (a b : ascii) : bool :=
  ((nat_of_ascii a =? 194) && (nat_of_ascii b =? 160))%nat.

Definition isWhite3 (a b c : ascii) : bool :=
  let x := nat_of_ascii a in
  let y := nat_of_ascii b in
  let z := nat_of_ascii c in
  (((x =? 225) && (y =? 154) && (z =? 128)) ||
   ((x =? 226) && (y =? 128) &&
    (((128 <=? z) && (z <=? 138)) || (z =? 168) || (z =? 169) || (z =? 175))) ||
   ((x =? 226) && (y =? 129) && (z =? 159)) ||
   ((x =? 227) && (y =? 128) && (z =? 128)) ||
   ((x =? 239) && (y =? 187) && (z =? 191)))%nat.

Fixpoint skipWhite (s : string) : string :=
  match s with
  | EmptyString => s
  | String a r1 =>
      if isWhite a then skipWhite r1
      else
        match r1 with
        | EmptyString => s
        | String b r2 =>
            if isWhite2 a b then skipWhite r2
            else
              match r2 with
              | EmptyString => s
              | String c r3 => if isWhite3 a b c then skipWhite r3 else s
              end
        end
  end.

Definition digit (c : ascii) : option Z :=
  let n := nat_of_ascii c in
  if ((48 <=? n)%nat && (n <=? 57)%nat) then Some (Z.of_nat n - 48)%Z else None.

(** The longest prefix of decimal digits; [acc] is [None] until a digit has
    been read. *)
Fixpoint digits (s : string) (acc : option Z) : option Z :=
  match s with
  | EmptyString => acc
  | String c r =>
      match digit c with
      | Some d =>
          digits r (Some (10 * match acc with Some a => a | None => 0 end + d)%Z)
      | None => acc
      end
  end.

(** The Number of a mathematical integer: the integer itself in the safe
    range, its rounding beyond. *)
Definition toNumber (z : Z) : jsnum := if safe z then Num z else Rounded z.

Definition parseIntStr (s : string) : jsnum :=
  let s1 := skipWhite s in
  let '(sign, s2) :=
    match s1 with
    | String "-" r => ((-1)%Z, r)
    | String "+" r => (1%Z, r)
    | _ => (1%Z, s1)
    end in
  match digits s2 None with
  | None => NaN
  | Some n => toNumber (sign * n)
  end.

Definition parseInt (v : jsval) : jsnum := parseIntStr (toString v).

End Js.

(* ================================================================== *)
(** ** Built-ins of the platform: [decodeURIComponent] and [path] *)

Module Uri.

Definition hexval (c : ascii) : option N :=
  let n := N_of_ascii c in
  if ((48 <=? n) && (n <=? 57))%N then Some (n - 48)%N
  else if ((65 <=? n) && (n <=? 70))%N then Some (n - 55)%N
  else if ((97 <=? n) && (n <=? 102))%N then Some (n - 87)%N
  else None.

(** One unit of the input: a character taken as it is, or the octet of a
    percent escape. *)
Inductive token : Type :=
| Lit (c : ascii)
| Esc (octet : N).

(** Reading of the escapes; [None] when a [%] is not followed by two
    hexadecimal digits. *)
Fixpoint tokens (s : string) : option (list token) :=
  match s with
  | EmptyString => Some []
  | String "%" (String h1 (String h2 r)) =>
      match hexval h1, hexval h2, tokens r with
      | Some a, Some b, Some ts => Some (Esc (16 * a + b) :: ts)
      | _, _, _ => None
      end
  | String "%" _ => None
  | String c r =>
      match tokens r with
      | Some ts => Some (Lit c :: ts)
      | None => None
      end
  end.

(** What the decoder expects next: any unit, or [more] continuation octets
    of which the first lies in [lo..hi]. *)
Inductive expect : Type :=
| Any
| Continuation (more : nat) (lo hi : N).

(** Lead octet of a well-formed UTF-8 sequence: how many octets follow and
    the range of the first of them (overlong forms, surrogates and code
    points above U+10FFFF are refused). *)
Definition lead (b : N) : option expect :=
  if (b <? 128)%N then Some Any
  else if (b <? 194)%N then None
  else if (b <? 224)%N then Some (Continuation 1 128 191)
  else if (b =? 224)%N then Some (Continuation 2 160 191)
  else if (b =? 237)%N then Some (Continuation 2 128 159)
  else if (b <? 240)%N then Some (Continuation 2 128 191)
  else if (b =? 240)%N then Some (Continuation 3 144 191)
  else if (b <? 244)%N then Some (Continuation 3 128 191)
  else if (b =? 244)%N then Some (Continuation 3 128 143)
  else None.

Fixpoint decodeTokens (ts : list token) (st : expect) : option string :=
  match ts, st with
  | [], Any => Some ""
  | [], Continuation _ _ _ => None
  | Lit c :: rest, Any =>
      option_map (String c) (decodeTokens rest Any)
  | Lit _ :: _, Continuation _ _ _ => None
  | Esc b :: rest, Any =>
      match lead b with
      | Some st' => option_map (String (ascii_of_N b)) (decodeTokens rest st')
      | None => None
      end
  | Esc b :: rest, Continuation more lo hi =>
      if ((lo <=? b) && (b <=? hi))%N
      then option_map (String (ascii_of_N b))
             (decodeTokens rest
                match more with
                | S (S k) => Continuation (S k) 128 191
                | _ => Any
                end)
      else None
  end.

(** [decodeURIComponent(s)]: every percent escape is replaced by its octet;
    a malformed escape, or escapes that do not spell well-formed UTF-8,
    throw a URIError. *)
Definition decodeURIComponent (s : string) : result string :=
  match tokens s with
  | Some ts =>
      match decodeTokens ts Any with
      | Some d => Ok d
      | None => Throw (NativeError "URIError" "URI malformed")
      end
  | None => Throw (NativeError "URIError" "URI malformed")
  end.

End Uri.

Module Path.

Definition isSlash (c : ascii) : bool := Ascii.eqb c "/".

Fixpoint dropWhile {A} (p : A -> bool) (l : list A) : list A :=
  match l with
  | [] => []
  | a :: rest => if p a then dropWhile p rest else l
  end.

Fixpoint takeWhile {A} (p : A -> bool) (l : list A) : list A :=
  match l with
  | [] => []
  | a :: rest => if p a then a :: takeWhile p rest else []
  end.

(** [path.basename(p)] (POSIX): the trailing separators are skipped and the
    characters back to the previous separator are returned. *)
Definition basename (p : string) : string :=
  let r := dropWhile isSlash (rev (list_ascii_of_string p)) in
  string_of_list_ascii (rev (takeWhile (fun c => negb (isSlash c)) r)).

(** [path.dirname(p)] (POSIX).  The scan runs from the last character down
    to index 1; [end] is the index of the separator before the last
    segment. *)
Definition dirname (p : string) : string :=
  match list_ascii_of_string p with
  | [] => "."
  | c0 :: tail =>
      let hasRoot := isSlash c0 in
      let r := dropWhile (fun c => negb (isSlash c))
                 (dropWhile isSlash (rev tail)) in
      match r with
      | [] => if hasRoot then "/" else "."
      | _ :: before =>
          match before with
          | [] => if hasRoot then "//"
                  else string_of_list_ascii [c0]
          | _ => string_of_list_ascii (c0 :: rev before)
          end
      end
  end.

End Path.

(* ================================================================== *)
(** ** Multistatus records and their mapping ([webdav-client.ts]) *)

(** [FileInfo]; the fields that the mapper copies from the property map
    keep the value the parser produced. *)
Inductive FileType : Type := file | directory.

Record FileInfo : Type := mkFileInfo {
  filename : string;
  basename : jsval;
  type : FileType;
  size : jsnum;
  lastmod : jsval;
  mime : jsval;
  etag : jsval
}.

(** The [prop] object of a normalized record. *)
Record Prop6 : Type := mkProp {
  getcontentlength : jsval;
  getlastmodified : jsval;
  getcontenttype : jsval;
  getetag : jsval;
  resourcetype : jsval;
  displayname : jsval
}.

(** [WebDAVResponse] as [normalizeWebDAVResponse] builds it: [propstat] is
    always the single-object alternative of the interface. *)
Record WebDAVResponse : Type := mkResponse {
  href : string;
  prop : Prop6;
  status : jsval
}.

(** The closure [getField(obj, ...keys)] of [normalizeWebDAVResponse]. *)
Fixpoint getField (obj : jsval) (keys : list string) : result jsval :=
  match keys with
  | [] => Ok JUndefined
  | key :: rest =>
      let? v := Js.get obj key in
      if Js.defined v then Ok v else getField obj rest
  end.

(** The three spellings of a DAV: element name, in the order the client
    tries them. *)
Definition dav (name : string) : list string :=
  ["d:" ++ name; "D:" ++ name; name].

(** [propstatArray.find(ps => { const status = getField(ps, ...);
    return status && status.includes('200'); })] *)
Fixpoint findSuccess (propstatArray : list jsval) : result jsval :=
  match propstatArray with
  | [] => Ok JUndefined
  | ps :: rest =>
      let? status := getField ps (dav "status") in
      let? hit := if Js.truthy status
                  then Js.includes "status" status "200"
                  else Ok false in
      if hit then Ok ps else findSuccess rest
  end.

(** [propstatArray[0]] *)
Definition first (l : list jsval) : jsval :=
  match l with
  | [] => JUndefined
  | x :: _ => x
  end.

(** The block the properties are read from:
    [propstatArray.find(...) || propstatArray[0]]. *)
Definition successPropstat (propstat : jsval) : result jsval :=
  let propstatArray :=
    match propstat with
    | JArr items => items
    | _ => [propstat]
    end in
  let? found := findSuccess propstatArray in
  Ok (Js.or found (first propstatArray)).

Definition normalizeWebDAVResponse (response : jsval) : result WebDAVResponse :=
  let? href := getField response (dav "href") in
  let? propstat := getField response (dav "propstat") in
  let? successPropstat := successPropstat propstat in
  let? prop0 := getField successPropstat (dav "prop") in
  let prop := Js.or prop0 (JObj []) in
  let? href' := Uri.decodeURIComponent (Js.toString (Js.or href (JStr ""))) in
  let? getcontentlength := getField prop (dav "getcontentlength") in
  let? getlastmodified := getField prop (dav "getlastmodified") in
  let? getcontenttype := getField prop (dav "getcontenttype") in
  let? getetag := getField prop (dav "getetag") in
  let? resourcetype := getField prop (dav "resourcetype") in
  let? displayname := getField prop (dav "displayname") in
  let? status := getField successPropstat (dav "status") in
  Ok {| href := href';
        prop := {| getcontentlength := getcontentlength;
                   getlastmodified := getlastmodified;
                   getcontenttype := getcontenttype;
                   getetag := getetag;
                   resourcetype := resourcetype;
                   displayname := displayname |};
        status := Js.or status (JStr "HTTP/1.1 200 OK") |}.

(** [prop.resourcetype && (prop.resourcetype.collection !== undefined ||
    prop.resourcetype['d:collection'] !== undefined ||
    prop.resourcetype['D:collection'] !== undefined)], as a boolean: the
    reads are made on a truthy value and cannot throw. *)
Definition isDirectory (resourcetype : jsval) : bool :=
  Js.truthy resourcetype &&
  match resourcetype with
  | JObj fields =>
      Js.defined (Js.lookup fields "collection") ||
      Js.defined (Js.lookup fields "d:collection") ||
      Js.defined (Js.lookup fields "D:collection")
  | _ => false
  end.

Section Mapper.

(** [new Date().toISOString()] at the time of the mapping. *)
Variable now : string.

Definition webdavResponseToFileInfo (response : WebDAVResponse) : FileInfo :=
  let prop := prop response in
  {| filename := href response;
     basename := Js.or (Js.or (JStr (Path.basename (href response)))
                              (displayname prop))
                       (JStr "");
     type := if isDirectory (resourcetype prop) then directory else file;
     size := Js.parseInt (Js.or (getcontentlength prop) (JStr "0"));
     lastmod := Js.or (getlastmodified prop) (JStr now);
     mime := getcontenttype prop;
     etag := getetag prop |}.

End Mapper.

Section Parser.

(** [this.xmlParser.parse(xmlData)]: the tree fast-xml-parser builds, or the
    exception it throws. *)
Variable xmlParse : string -> result jsval.

(** [a || b || c] over three reads of the same object. *)
Definition firstTruthy (obj : jsval) (keys : list string) : result jsval :=
  fold_left
    (fun acc key =>
       let? a := acc in
       if Js.truthy a then Ok a else Js.get obj key)
    keys (Ok JUndefined).

Definition parseWebDAVResponse (xmlData : string) : result (list WebDAVResponse) :=
  try_catch
    (let? parsed := xmlParse xmlData in
     let? multistatus := firstTruthy parsed (dav "multistatus") in
     if negb (Js.truthy multistatus)
     then Throw (NativeError "Error" "Неверный формат WebDAV ответа")
     else
       let? responses := firstTruthy multistatus (dav "response") in
       let responses :=
         match responses with
         | JArr items => items
         | _ => [responses]
         end in
       rmap normalizeWebDAVResponse responses)
    (fun error =>
       Throw (WebDAVErr
         {| message := "Ошибка парсинга XML: " ++ exn_message error;
            statusCode := None;
            statusText := None |})).

End Parser.

(* ================================================================== *)
(** ** Requests, the network and the request monad *)

Inductive Method : Type :=
| HEAD | GET | PUT | DELETE | MKCOL | MOVE | COPY | PROPFIND.

(** A body-size ceiling of the HTTP library: a number of bytes or
    [Infinity]. *)
Inductive limit : Type :=
| Bytes (n : Z)
| Infinity.

(** Payload of a request: nothing, a buffer or string held in memory, or a
    readable stream (given by the bytes it delivers). *)
Inductive payload : Type :=
| NoBody
| Buffered (bytes : string)
| Streamed (bytes : string).

Definition payloadLength (p : payload) : Z :=
  match p with
  | NoBody => 0
  | Buffered b | Streamed b => Z.of_nat (String.length b)
  end.

Record request : Type := mkRequest {
  method : Method;
  url : string;
  headers : list (string * string);
  data : payload;
  maxBodyLength : limit;
  maxContentLength : limit
}.

(** What comes back for a transmitted request: an HTTP response, or no
    response at all (connection, TLS or any other failure). *)
Inductive reply : Type :=
| Response (status : Z) (statusText : string) (body : string)
| Failure (e : exn).

Record response : Type := mkResp {
  resp_status : Z;
  resp_statusText : string;
  resp_data : string
}.

(** A computation of the client: from the requests transmitted so far to a
    value or an exception, and the requests transmitted after it. *)
Definition M (A : Type) : Type := list request -> result A * list request.

Definition ret {A} (a : A) : M A := fun log => (Ok a, log).
Definition throw {A} (e : exn) : M A := fun log => (Throw e, log).
Definition lift {A} (r : result A) : M A := fun log => (r, log).

Definition bind {A B} (m : M A) (k : A -> M B) : M B :=
  fun log =>
    match m log with
    | (Ok a, log') => k a log'
    | (Throw e, log') => (Throw e, log')
    end.

(** [try { m } catch (error) { handler(error) }] *)
Definition tryM {A} (m : M A) (handler : exn -> M A) : M A :=
  fun log =>
    match m log with
    | (Ok a, log') => (Ok a, log')
    | (Throw e, log') => handler e log'
    end.

Declare Scope client_scope.
Delimit Scope client_scope with client.
Notation "x <- m ;; k" := (bind m (fun x => k))
  (at level 61, m at next level, right associativity) : client_scope.
Notation "m ;;; k" := (bind m (fun _ => k))
  (at level 61, right associativity) : client_scope.
Open Scope client_scope.

(** A ceiling is exceeded by a longer payload; a negative ceiling switches
    the check off. *)
Definition exceeds (p : payload) (l : limit) : bool :=
  match l with
  | Bytes n => ((0 <=? n) && (n <? payloadLength p))%Z
  | Infinity => false
  end.

Definition is2xx (status : Z) : bool := ((200 <=? status) && (status <? 300))%Z.

(** Constructor options that matter to the requests. *)
Record WebDAVClientOptions : Type := mkOptions {
  opt_maxBodyLength : option Z;
  opt_maxContentLength : option Z
}.

Record WebDAVClient : Type := mkClient {
  baseURL : string;
  cfg_maxBodyLength : limit;
  cfg_maxContentLength : limit
}.

(** [options.maxBodyLength || 524288000] *)
Definition orDefault (o : option Z) (d : Z) : Z :=
  match o with
  | Some n => if (n =? 0)%Z then d else n
  | None => d
  end.

(** The constructor, [createClient(baseURL, options)]; authentication and
    static headers play no part below and are left out. *)
Definition createClient (baseURL : string) (options : WebDAVClientOptions)
  : WebDAVClient :=
  {| baseURL := baseURL;
     cfg_maxBodyLength := Bytes (orDefault (opt_maxBodyLength options) 524288000);
     cfg_maxContentLength :=
       Bytes (orDefault (opt_maxContentLength options) 524288000) |}.

Definition quote : string := String (ascii_of_nat 34) "".
Definition newline : string := String (ascii_of_nat 10) "".

Fixpoint spaces (n : nat) : string :=
  match n with
  | O => ""
  | S k => String " " (spaces k)
  end.

(** The body of both PROPFIND requests. *)
Definition propfindBody : string :=
  Str.join newline
    [ "<?xml version=" ++ quote ++ "1.0" ++ quote ++ " encoding=" ++ quote
        ++ "utf-8" ++ quote ++ " ?>";
      spaces 22 ++ "<d:propfind xmlns:d=" ++ quote ++ "DAV:" ++ quote ++ ">";
      spaces 26 ++ "<d:prop>";
      spaces 30 ++ "<d:resourcetype/>";
      spaces 30 ++ "<d:getcontentlength/>";
      spaces 30 ++ "<d:getlastmodified/>";
      spaces 30 ++ "<d:getcontenttype/>";
      spaces 30 ++ "<d:getetag/>";
      spaces 30 ++ "<d:displayname/>";
      spaces 26 ++ "</d:prop>";
      spaces 22 ++ "</d:propfind>" ].

(** [handleError(error, context)]: always throws. *)
Definition handleError {A} (error : exn) (context : string) : M A :=
  match error with
  | AxiosError msg resp =>
      let statusCode := option_map fst resp in
      let statusText := option_map snd resp in
      let detail :=
        match statusCode with
        | Some 401%Z => "Ошибка аутентификации. Проверьте учетные данные."
        | Some 403%Z => "Доступ запрещен. Недостаточно прав."
        | Some 404%Z => "Ресурс не найден."
        | Some 405%Z => "Метод не поддерживается сервером."
        | Some 409%Z => "Конфликт. Ресурс уже существует или заблокирован."
        | Some 412%Z => "Предусловие не выполнено."
        | Some 423%Z => "Ресурс заблокирован."
        | Some 507%Z => "Недостаточно места на сервере."
        | _ => msg
        end in
      throw (WebDAVErr {| message := context ++ ": " ++ detail;
                          statusCode := statusCode;
                          statusText := statusText |})
  | _ =>
      throw (WebDAVErr {| message := context ++ ": " ++ exn_message error;
                          statusCode := None;
                          statusText := None |})
  end.

(** The handler of the operations that let a [WebDAVError] through:
    [if (error instanceof WebDAVError) throw error; this.handleError(...)]. *)
Definition rethrowOrHandle {A} (context : string) (error : exn) : M A :=
  match error with
  | WebDAVErr _ => throw error
  | _ => handleError error context
  end.

(* ================================================================== *)
(** ** The operations of [WebDAVClient] *)

Section Client.

(** The answer of the network to a request, given the requests transmitted
    before it. *)
Variable network : list request -> request -> reply.

Variable xmlParse : string -> result jsval.
Variable now : string.

(** [new URL(path, base).toString()], [None] when the constructor throws. *)
Variable newURL : string -> string -> option string.

Variable client : WebDAVClient.

(** Modelled from the spec: the HTTP library behind [this.axios] is not
    among the sources.  Section 4.1: the transport "enforces configured max
    body sizes; requests exceeding them fail locally without transmission",
    makes a single attempt, and raises an error for a failed exchange;
    section 6: success is any 2xx status.  A request is recorded in the log
    when it is transmitted; the response to a HEAD request has no body. *)
Definition send (req : request) : M response :=
  fun log =>
    if exceeds (data req) (maxBodyLength req)
    then (Throw (AxiosError "Request body larger than maxBodyLength limit" None),
          log)
    else
      let log' := (log ++ [req])%list in
      match network log req with
      | Failure e => (Throw e, log')
      | Response status statusText body =>
          let body := match method req with HEAD => "" | _ => body end in
          if exceeds (Buffered body) (maxContentLength req)
          then (Throw (AxiosError "maxContentLength size exceeded" None), log')
          else if is2xx status
          then (Ok {| resp_status := status;
                      resp_statusText := statusText;
                      resp_data := body |}, log')
          else (Throw (AxiosError
                         ("Request failed with status code "
                            ++ Js.numToString status)
                         (Some (status, statusText))), log')
      end.

(** A request with the ceilings of the instance. *)
Definition axiosRequest (m : Method) (url : string)
    (headers : list (string * string)) (data : payload) : request :=
  {| method := m; url := url; headers := headers; data := data;
     maxBodyLength := cfg_maxBodyLength client;
     maxContentLength := cfg_maxContentLength client |}.

Definition exists_ (filePath : string) : M bool :=
  tryM
    (response <- send (axiosRequest HEAD filePath [] NoBody) ;;
     ret (is2xx (resp_status response)))
    (fun error =>
       match error with
       | AxiosError _ (Some (404%Z, _)) => ret false
       | _ => ret false
       end).

(** [!options.overwrite] *)
Definition notOverwrite (overwrite : option bool) : bool :=
  match overwrite with
  | Some true => false
  | _ => true
  end.

Definition conflict (filePath : string) : exn :=
  WebDAVErr {| message := "Файл " ++ filePath ++ " уже существует";
               statusCode := Some 409%Z;
               statusText := Some "Conflict" |}.

Definition octetStream : list (string * string) :=
  [("Content-Type", "application/octet-stream")].

Definition putFileContents (filePath : string) (data : string)
    (overwrite : option bool) : M unit :=
  tryM
    ((if notOverwrite overwrite
      then (found <- exists_ filePath ;;
            if found then throw (conflict filePath) else ret tt)
      else ret tt) ;;;
     send (axiosRequest PUT filePath octetStream (Buffered data)) ;;;
     ret tt)
    (rethrowOrHandle "Не удалось загрузить содержимое файла").

Definition putFileStream (filePath : string) (stream : string)
    (overwrite : option bool) : M unit :=
  tryM
    ((if notOverwrite overwrite
      then (found <- exists_ filePath ;;
            if found then throw (conflict filePath) else ret tt)
      else ret tt) ;;;
     send {| method := PUT; url := filePath; headers := octetStream;
             data := Streamed stream;
             maxBodyLength := Infinity;
             maxContentLength := Infinity |} ;;;
     ret tt)
    (rethrowOrHandle "Не удалось загрузить поток файла").

Definition createDirectory (dirPath : string) : M unit :=
  tryM
    (send (axiosRequest MKCOL dirPath [] NoBody) ;;; ret tt)
    (fun error => handleError error "Не удалось создать директорию").

Definition createAbsoluteUrl (path : string) : string :=
  if Str.startsWith path "http://" || Str.startsWith path "https://"
  then path
  else
    match newURL path (baseURL client) with
    | Some u => u
    | None =>
        Str.stripTrailingSlash (baseURL client) ++ "/"
          ++ Str.stripLeadingSlash path
    end.

(** The headers of MOVE and COPY. *)
Definition transferHeaders (destination : string) (overwrite : option bool)
  : list (string * string) :=
  ("Destination", createAbsoluteUrl destination) ::
  match overwrite with
  | Some b => [("Overwrite", if b then "T" else "F")]
  | None => []
  end.

Definition moveFile (source destination : string) (overwrite : option bool)
  : M unit :=
  tryM
    (send (axiosRequest MOVE source
             (transferHeaders destination overwrite) NoBody) ;;;
     ret tt)
    (fun error => handleError error "Не удалось переместить файл").

Definition copyFile (source destination : string) (overwrite : option bool)
  : M unit :=
  tryM
    (send (axiosRequest COPY source
             (transferHeaders destination overwrite) NoBody) ;;;
     ret tt)
    (fun error => handleError error "Не удалось скопировать файл").

Definition propfind (url depth : string) : request :=
  axiosRequest PROPFIND url
    [("Depth", depth); ("Content-Type", "application/xml; charset=utf-8")]
    (Buffered propfindBody).

Definition notFound : exn :=
  WebDAVErr {| message := "Не удалось получить информацию о ресурсе";
               statusCode := Some 404%Z;
               statusText := Some "Not Found" |}.

Definition stat (filePath : string) : M FileInfo :=
  tryM
    (response <- send (propfind filePath "0") ;;
     webdavResponses <- lift (parseWebDAVResponse xmlParse (resp_data response)) ;;
     match webdavResponses with
     | [] => throw notFound
     | r :: _ => ret (webdavResponseToFileInfo now r)
     end)
    (rethrowOrHandle "Не удалось получить информацию о файле").

(** The test that skips the queried directory itself. *)
Definition isSelf (dirPath normalizedPath href : string) : bool :=
  (href =? normalizedPath) ||
  (href =? dirPath) ||
  (href =? Str.slice_0_m1 normalizedPath) ||
  (href ++ "/" =? normalizedPath).

Definition normalizePath (dirPath : string) : string :=
  if negb (Str.endsWith dirPath "/") then dirPath ++ "/" else dirPath.

(** The loop of [getDirectoryContents] over the parsed records. *)
Fixpoint collect (dirPath normalizedPath : string)
    (webdavResponses : list WebDAVResponse) : list FileInfo :=
  match webdavResponses with
  | [] => []
  | webdavResponse :: rest =>
      if isSelf dirPath normalizedPath (href webdavResponse)
      then collect dirPath normalizedPath rest
      else webdavResponseToFileInfo now webdavResponse
             :: collect dirPath normalizedPath rest
  end.

Definition getDirectoryContents (dirPath : string) (deep : option bool)
  : M (list FileInfo) :=
  tryM
    (let normalizedPath := normalizePath dirPath in
     response <- send (propfind normalizedPath
                         (match deep with
                          | Some true => "infinity"
                          | _ => "1"
                          end)) ;;
     webdavResponses <- lift (parseWebDAVResponse xmlParse (resp_data response)) ;;
     ret (collect dirPath normalizedPath webdavResponses))
    (rethrowOrHandle "Не удалось получить содержимое директории").

(* ---------------------------------------------------------------- *)
(** *** The MOVE branch of the node ([WebDav.execute]) *)

(** The loop of [createParentDirectories] over the path segments. *)
Fixpoint createEach (parts : list string) (currentPath : string) : M unit :=
  match parts with
  | [] => ret tt
  | part :: rest =>
      let currentPath := currentPath ++ "/" ++ part in
      found <- exists_ currentPath ;;
      (if negb found then createDirectory currentPath else ret tt) ;;;
      createEach rest currentPath
  end.

Definition createParentDirectories (dirPath : string) : M unit :=
  createEach
    (filter (fun part => negb (part =? "")) (Str.split_slash dirPath)) "".

(** [responseData] of the branch. *)
Record MoveResult : Type := mkMoveResult {
  sourceFile : string;
  targetFile : string;
  name : string;
  mv_size : jsnum;
  lastModified : jsval
}.

(** The body of [else if (operation === FileOperation.MOVE)], before the
    error handling common to all branches. *)
Definition executeMove (filePath targetPath : string)
    (overwrite createParentFolders : bool) : M MoveResult :=
  sourceExists <- exists_ filePath ;;
  if negb sourceExists
  then throw (NodeOperationError
                ("Исходный файл " ++ filePath ++ " не существует на сервере"))
  else
    targetExists <- exists_ targetPath ;;
    if targetExists && negb overwrite
    then throw (NodeOperationError
                  ("Целевой файл " ++ targetPath
                     ++ " уже существует. Установите флаг "
                     ++ quote ++ "Перезаписать" ++ quote
                     ++ " для перезаписи."))
    else
      (if createParentFolders
       then
         let dirPath := Path.dirname targetPath in
         if negb (dirPath =? "/") && negb (dirPath =? ".")
         then createParentDirectories dirPath
         else ret tt
       else ret tt) ;;;
      moveFile filePath targetPath (Some overwrite) ;;;
      info <- tryM
                (fileInfo <- stat targetPath ;;
                 ret (size fileInfo, lastmod fileInfo))
                (fun _ => ret (Num 0, JStr now)) ;;
      ret {| sourceFile := filePath;
             targetFile := targetPath;
             name := Path.basename targetPath;
             mv_size := fst info;
             lastModified := snd info |}.

End Client.

(* ================================================================== *)
(** ** The remaining operations of the client and branches of the node *)

(** What [getFileContents] returns: a [Buffer] for the binary format, the
    text of the body otherwise. *)
Inductive contents : Type :=
| AsBuffer (bytes : string)
| AsText (text : string).

(** [WebDavServerType] *)
Inductive WebDavServerType : Type :=
| STANDARD | YANDEX_DISK | NEXTCLOUD | OWNCLOUD | SHAREPOINT.

(** The base URL the node hands to [createClient]: the URL of the
    credentials with a separator appended when it has none, replaced for
    Yandex.Disk when it does not name the Yandex host. *)
Definition normalizeWebdavUrl (credentialsUrl : string)
    (serverType : WebDavServerType) : string :=
  let webdavUrl :=
    if negb (Str.endsWith credentialsUrl "/")
    then credentialsUrl ++ "/"
    else credentialsUrl in
  match serverType with
  | YANDEX_DISK =>
      if negb (Str.includes webdavUrl "webdav.yandex.ru")
      then "https://webdav.yandex.ru/"
      else webdavUrl
  | _ => webdavUrl
  end.

(** One entry of the output of the list branch; [li_details] holds the
    size, the modification time and the MIME type of the detailed form. *)
Record ListItem : Type := mkListItem {
  li_path : string;
  li_name : string;
  li_type : FileType;
  li_details : option (jsnum * jsval * jsval)
}.

(** [responseData] of the folder-creation branch. *)
Record CreateResult : Type := mkCreateResult {
  folder : string;
  cr_name : string;
  alreadyExists : bool
}.

(** [responseData] of the upload branch. *)
Record UploadResult : Type := mkUploadResult {
  up_file : string;
  up_name : string;
  up_size : jsnum;
  up_lastModified : jsval
}.

Section Rest.

Variable network : list request -> request -> reply.
Variable xmlParse : string -> result jsval.
Variable now : string.
Variable newURL : string -> string -> option string.
Variable client : WebDAVClient.

Definition getFileContents (filePath : string) (format : option string)
  : M contents :=
  tryM
    (response <- send network (axiosRequest client GET filePath [] NoBody) ;;
     match format with
     | Some f => if f =? "binary"
                 then ret (AsBuffer (resp_data response))
                 else ret (AsText (resp_data response))
     | None => ret (AsText (resp_data response))
     end)
    (fun error => handleError error "Не удалось получить содержимое файла").

(** The stream is given by the bytes it delivers. *)
Definition getFileStream (filePath : string) : M string :=
  tryM
    (response <- send network (axiosRequest client GET filePath [] NoBody) ;;
     ret (resp_data response))
    (fun error => handleError error "Не удалось получить поток файла").

Definition deleteFile (filePath : string) : M unit :=
  tryM
    (send network (axiosRequest client DELETE filePath [] NoBody) ;;; ret tt)
    (fun error => handleError error "Не удалось удалить файл или папку").

(** The step shared by the branches that create parent folders. *)
Definition createParentsOf (path : string) : M unit :=
  let dirPath := Path.dirname path in
  if negb (dirPath =? "/") && negb (dirPath =? ".")
  then createParentDirectories network client dirPath
  else ret tt.

Definition targetExistsMessage (targetPath : string) : string :=
  "Целевой файл " ++ targetPath ++ " уже существует. Установите флаг "
    ++ quote ++ "Перезаписать" ++ quote ++ " для перезаписи.".

(** The body of [else if (operation === FileOperation.COPY)]. *)
Definition executeCopy (filePath targetPath : string)
    (overwrite createParentFolders : bool) : M MoveResult :=
  sourceExists <- exists_ network client filePath ;;
  if negb sourceExists
  then throw (NodeOperationError
                ("Исходный файл " ++ filePath ++ " не существует на сервере"))
  else
    targetExists <- exists_ network client targetPath ;;
    if targetExists && negb overwrite
    then throw (NodeOperationError (targetExistsMessage targetPath))
    else
      (if createParentFolders then createParentsOf targetPath else ret tt) ;;;
      copyFile network newURL client filePath targetPath (Some overwrite) ;;;
      fileInfo <- stat network xmlParse now client targetPath ;;
      ret {| sourceFile := filePath;
             targetFile := targetPath;
             name := Path.basename targetPath;
             mv_size := size fileInfo;
             lastModified := lastmod fileInfo |}.

(** The body of [else if (operation === FileOperation.UPLOAD)], from the
    creation of the parent folders on; [fileContent] and [fileName] are what
    the data source gave. *)
Definition executeUpload (filePath fileContent fileName : string)
    (overwrite createParentFolders : bool) : M UploadResult :=
  (if createParentFolders then createParentsOf filePath else ret tt) ;;;
  (if negb overwrite
   then (found <- exists_ network client filePath ;;
         if found
         then throw (NodeOperationError
                       ("Файл " ++ filePath
                          ++ " уже существует. Установите флаг "
                          ++ quote ++ "Перезаписать" ++ quote
                          ++ " для перезаписи."))
         else ret tt)
   else ret tt) ;;;
  putFileContents network client filePath fileContent (Some overwrite) ;;;
  fileInfo <- stat network xmlParse now client filePath ;;
  ret {| up_file := filePath;
         up_name := fileName;
         up_size := size fileInfo;
         up_lastModified := lastmod fileInfo |}.

(** The body of [else if (operation === FileOperation.DELETE)]; the result
    is the [file] field of [responseData]. *)
Definition executeDelete (filePath : string) : M string :=
  found <- exists_ network client filePath ;;
  if negb found
  then throw (NodeOperationError
                ("Файл " ++ filePath ++ " не существует на сервере"))
  else
    deleteFile filePath ;;;
    ret filePath.

(** The body of [else if (operation === FolderOperation.DELETE)]. *)
Definition executeFolderDelete (filePath : string) : M string :=
  found <- exists_ network client filePath ;;
  if negb found
  then throw (NodeOperationError
                ("Папка " ++ filePath ++ " не существует на сервере"))
  else
    deleteFile filePath ;;;
    ret filePath.

(** The body of [else if (operation === FolderOperation.CREATE)]. *)
Definition executeFolderCreate (filePath : string) (createParentFolders : bool)
  : M CreateResult :=
  found <- exists_ network client filePath ;;
  if found
  then ret {| folder := filePath;
              cr_name := Path.basename filePath;
              alreadyExists := true |}
  else
    (if createParentFolders
     then createParentDirectories network client filePath
     else createDirectory network client filePath) ;;;
    ret {| folder := filePath;
           cr_name := Path.basename filePath;
           alreadyExists := false |}.

(** The loop of the list branch over the entries of the listing. *)
Fixpoint listItems (filePath : string) (details : bool)
    (contents : list FileInfo) : list ListItem :=
  match contents with
  | [] => []
  | item :: rest =>
      if filename item =? filePath
      then listItems filePath details rest
      else
        {| li_path := filename item;
           li_name := Path.basename (filename item);
           li_type := type item;
           li_details :=
             if details
             then Some (size item, lastmod item, mime item)
             else None |}
        :: listItems filePath details rest
  end.

(** The body of [if (operation === FolderOperation.LIST)]. *)
Definition executeList (filePath : string) (recursive details : bool)
  : M (list ListItem) :=
  found <- exists_ network client filePath ;;
  if negb found
  then throw (NodeOperationError
                ("Папка " ++ filePath ++ " не существует на сервере"))
  else
    contents <- getDirectoryContents network xmlParse now client filePath
                  (Some recursive) ;;
    ret (listItems filePath details contents).

End Rest.

(* ================================================================== *)
(** ** Vocabulary of the statements *)

(** The HEAD request [exists] sends. *)
Definition headRequest (client : WebDAVClient) (filePath : string) : request :=
  axiosRequest client HEAD filePath [] NoBody.

(** The value of [exists] as a function of the reply to its HEAD request. *)
Definition existsAnswer (r : reply) : bool :=
  match r with
  | Response status _ _ => is2xx status
  | Failure _ => false
  end.

(** The PUT request of [putFileStream]. *)
Definition streamRequest (filePath stream : string) : request :=
  {| method := PUT; url := filePath; headers := octetStream;
     data := Streamed stream;
     maxBodyLength := Infinity;
     maxContentLength := Infinity |}.

(** Sample configuration and networks for the concrete instances. *)
Definition sampleClient : WebDAVClient :=
  createClient "https://dav.example.com/remote/"
    {| opt_maxBodyLength := None; opt_maxContentLength := None |}.

Definition smallClient : WebDAVClient :=
  createClient "https://dav.example.com/remote/"
    {| opt_maxBodyLength := Some 10%Z; opt_maxContentLength := Some 10%Z |}.

(** A server that answers every request with the same status. *)
Definition answering (status : Z) (statusText : string)
  : list request -> request -> reply :=
  fun _ _ => Response status statusText "".

(** A string that begins with a URI scheme and a colon (RFC 3986:
    [ALPHA *( ALPHA / DIGIT / "+" / "-" / "." ) ":"]): what distinguishes an
    absolute URL from a relative reference. *)
Definition isAlpha (c : ascii) : bool :=
  let n := nat_of_ascii c in
  ((65 <=? n)%nat && (n <=? 90)%nat) || ((97 <=? n)%nat && (n <=? 122)%nat).

Definition isSchemeChar (c : ascii) : bool :=
  let n := nat_of_ascii c in
  isAlpha c || ((48 <=? n)%nat && (n <=? 57)%nat) ||
  (n =? 43)%nat || (n =? 45)%nat || (n =? 46)%nat.

Fixpoint schemeTail (s : string) : bool :=
  match s with
  | EmptyString => false
  | String c r => if Ascii.eqb c ":" then true else isSchemeChar c && schemeTail r
  end.

Definition isAbsoluteURL (s : string) : bool :=
  match s with
  | EmptyString => false
  | String c r => isAlpha c && schemeTail r
  end.

(** The value of a request header. *)
Fixpoint header (name : string) (hs : list (string * string)) : option string :=
  match hs with
  | [] => None
  | (k, v) :: rest => if k =? name then Some v else header name rest
  end.

(** The request of [moveFile] ([MOVE]) and [copyFile] ([COPY]). *)
Definition transferRequest (newURL : string -> string -> option string)
    (client : WebDAVClient) (m : Method) (source destination : string)
    (overwrite : option bool) : request :=
  axiosRequest client m source
    (transferHeaders newURL client destination overwrite) NoBody.

(** A stand-in for the [URL] constructor in the concrete instances, for a
    base that begins with [http://] or [https://] and a path without dot
    segments, query or fragment.  Any other base is refused.  An empty path
    gives the base; a path that begins with the separator is resolved
    against the origin of the base, where it replaces the path of the
    base; any other path replaces what follows the last separator of the
    path of the base. *)
Fixpoint untilSlash (s : string) : string :=
  match s with
  | EmptyString => ""
  | String c r => if Ascii.eqb c "/" then "" else String c (untilSlash r)
  end.

Fixpoint dropChars (n : nat) (s : string) : string :=
  match n, s with
  | S k, String _ r => dropChars k r
  | _, _ => s
  end.

Fixpoint throughLastSlash (s : string) : string :=
  match s with
  | EmptyString => ""
  | String c r =>
      if Str.includes s "/" then String c (throughLastSlash r) else ""
  end.

Definition sampleURL (path base : string) : option string :=
  let scheme :=
    if Str.startsWith base "http://" then Some "http://"
    else if Str.startsWith base "https://" then Some "https://"
    else None in
  match scheme with
  | None => None
  | Some sch =>
      let rest := dropChars (String.length sch) base in
      let origin := sch ++ untilSlash rest in
      let basePath :=
        match dropChars (String.length (untilSlash rest)) rest with
        | EmptyString => "/"
        | p => p
        end in
      Some match path with
           | EmptyString => origin ++ basePath
           | String c _ =>
               if Ascii.eqb c "/" then origin ++ path
               else origin ++ throughLastSlash basePath ++ path
           end
  end.

(** A server on which every resource exists and that refuses to overwrite:
    HEAD gets 200, MOVE and COPY get 412. *)
Definition refusingServer : list request -> request -> reply :=
  fun _ req =>
    match method req with
    | MOVE | COPY => Response 412 "Precondition Failed" ""
    | _ => Response 200 "OK" ""
    end.

(** [s] begins with [http://] or [https://]. *)
Definition isHttpURL (s : string) : bool :=
  Str.startsWith s "http://" || Str.startsWith s "https://".

(** What holds of the request [req] sent for a transfer of [source] to
    [destination] by a client with the base URL [base]; [resolved] is what
    the [URL] constructor makes of the destination and the base URL,
    [None] when it refuses them.  The [Destination] header is the
    destination itself when that begins with [http://] or [https://],
    otherwise what the constructor returns, otherwise the base URL and the
    destination joined by one separator; it is an absolute URL, and not
    the literal relative destination, when the base URL begins with
    [http://] or [https://] and the constructor returns absolute URLs. *)
Definition transferHeadersOk (base : string) (m : Method)
    (source destination : string) (overwrite : option bool)
    (resolved : option string) (req : request) : Prop :=
  method req = m /\
  url req = source /\
  (overwrite = Some true -> header "Overwrite" (headers req) = Some "T") /\
  (overwrite = Some false -> header "Overwrite" (headers req) = Some "F") /\
  exists d,
    header "Destination" (headers req) = Some d /\
    (isHttpURL destination = true -> d = destination) /\
    (isHttpURL destination = false ->
     forall u, resolved = Some u -> d = u) /\
    (isHttpURL destination = false -> resolved = None ->
     d = Str.stripTrailingSlash base ++ "/"
           ++ Str.stripLeadingSlash destination) /\
    (isHttpURL base = true ->
     (forall u, resolved = Some u -> isAbsoluteURL u = true) ->
     isAbsoluteURL d = true /\
     (isAbsoluteURL destination = false -> d <> destination)).

(** A client configured with a base URL that has no scheme. *)
Definition schemelessClient : WebDAVClient :=
  createClient "webdav.example.com/dav/"
    {| opt_maxBodyLength := None; opt_maxContentLength := None |}.

(** The error [parseWebDAVResponse] raises: the parse failure of the
    taxonomy, a [WebDAVError] without status. *)
Definition isParseError (e : exn) : Prop :=
  exists cause,
    e = WebDAVErr {| message := "Ошибка парсинга XML: " ++ cause;
                     statusCode := None;
                     statusText := None |}.

(** A multistatus tree whose response field is an empty sequence.  The XML
    parser never builds it (see [parserTree]: an element without response
    children has no response field at all); it stands for an arbitrary
    value of the parser parameter in the instances about the requests. *)
Definition emptyMultistatus : jsval :=
  JObj [("d:multistatus", JObj [("d:response", JArr [])])].

(** The trees the XML parser of the constructor builds (attributes kept,
    values parsed, no [isArray] option): the text of an element is a
    string, a boolean or a Number; an element with attributes or children
    is an object; an array stands only for an element name repeated under
    one parent, with one member for each repetition, at least two, and no
    member is itself an array.  The parser builds neither [undefined] nor
    [null], and no empty array.  The Numbers are those of the model, the
    integers of the safe range. *)
Fixpoint parserTree (v : jsval) : bool :=
  match v with
  | JUndefined | JNull => false
  | JBool _ | JStr _ => true
  | JNum n => Js.safe n
  | JArr items =>
      (2 <=? length items)%nat &&
      forallb (fun x => match x with
                        | JArr _ => false
                        | _ => parserTree x
                        end) items
  | JObj fields => forallb (fun kv => parserTree (snd kv)) fields
  end.

(** The elements a field of a parsed element stands for: none when the
    field is missing, the members of an array, the value itself
    otherwise. *)
Definition elementsAt (v : jsval) : list jsval :=
  match v with
  | JUndefined => []
  | JArr items => items
  | _ => [v]
  end.

(** The response elements of a parsed multistatus, under each of the three
    spellings. *)
Definition responseElements (multistatus : jsval) : list jsval :=
  flat_map (fun key => match Js.get multistatus key with
                       | Ok v => elementsAt v
                       | Throw _ => []
                       end)
           (dav "response").

(** A multistatus element without response children, as the parser builds
    it: the object of its attributes. *)
Definition bareMultistatus : jsval :=
  JObj [("d:multistatus", JObj [("@_xmlns:d", JStr "DAV:")])].

(** A server that answers every request with a 207 and the given body. *)
Definition multistatusServer (body : string) : list request -> request -> reply :=
  fun _ _ => Response 207 "Multi-Status" body.

Definition sampleNow : string := "2024-01-01T00:00:00.000Z".

(** [dir] written with, and without, its trailing separator. *)
Definition withSeparator (dir : string) : string :=
  if Str.endsWith dir "/" then dir else dir ++ "/".



(** The [Depth] header of a listing. *)
Definition depthOf (deep : option bool) : string :=
  match deep with
  | Some true => "infinity"
  | _ => "1"
  end.



(** The status line of a property-status block, under whichever spelling
    it is found. *)
Definition statusOf (block : jsval) : jsval :=
  match getField block (dav "status") with
  | Ok v => v
  | Throw _ => JUndefined
  end.

(** The status line of the block contains "200". *)
Definition has200 (block : jsval) : bool :=
  match statusOf block with
  | JStr s => Str.includes s "200"
  | _ => false
  end.

(** A property-status block as a server sends it: an element with children,
    whose status, when present, is a line of text. *)
Definition statusLineBlock (block : jsval) : Prop :=
  (exists fields, block = JObj fields) /\
  (statusOf block = JUndefined \/ exists s, statusOf block = JStr s).

(** Two blocks of a partial success: the first reports the properties the
    server does not have, the second those it has. *)
Definition missingBlock : jsval :=
  JObj [("d:prop", JObj [("d:getetag", JStr "")]);
        ("d:status", JStr "HTTP/1.1 404 Not Found")].

Definition foundBlock : jsval :=
  JObj [("d:prop", JObj [("d:getcontentlength", JNum 10240)]);
        ("d:status", JStr "HTTP/1.1 200 OK")].

(** A decimal numeral, given by its digits, and the number it denotes. *)
Definition digitChar (d : nat) : ascii := ascii_of_nat (48 + d).

Definition numeral (ds : list nat) : string :=
  string_of_list_ascii (map digitChar ds).

Definition numeralValue (ds : list nat) : Z :=
  fold_left (fun a d => (10 * a + Z.of_nat d)%Z) ds 0%Z.

(** The record of a resource whose only property is its content length. *)
Definition withLength (v : jsval) : WebDAVResponse :=
  {| href := "/docs/report.pdf";
     prop := {| getcontentlength := v; getlastmodified := JUndefined;
                getcontenttype := JUndefined; getetag := JUndefined;
                resourcetype := JUndefined; displayname := JUndefined |};
     status := JStr "HTTP/1.1 200 OK" |}.

(** *** Documents and the spelling of their element names *)

(** The three ways a server writes a name of the DAV: namespace. *)
Inductive spelling : Type := Lower | Upper | Bare.

Definition spell (sp : spelling) (name : string) : string :=
  match sp with
  | Lower => "d:" ++ name
  | Upper => "D:" ++ name
  | Bare => name
  end.

Definition spelling_eqb (a b : spelling) : bool :=
  match a, b with
  | Lower, Lower | Upper, Upper | Bare, Bare => true
  | _, _ => false
  end.

(** A child element: local name, spelling of the prefix, parsed content. *)
Definition element : Type := (string * spelling * jsval)%type.

Definition elementName (e : element) : string := fst (fst e).

(** The object the parser builds for an element with the given children. *)
Definition object (children : list element) : jsval :=
  JObj (map (fun e : element => (spell (snd (fst e)) (fst (fst e)), snd e))
            children).

(** The content of the child called [name], whatever its spelling. *)
Fixpoint child (name : string) (children : list element) : jsval :=
  match children with
  | [] => JUndefined
  | e :: rest => if elementName e =? name then snd e else child name rest
  end.

(** The content of the child called [name] and spelled [sp]. *)
Fixpoint childSpelled (name : string) (sp : spelling) (children : list element)
  : jsval :=
  match children with
  | [] => JUndefined
  | e :: rest =>
      if (elementName e =? name) && spelling_eqb (snd (fst e)) sp
      then snd e
      else childSpelled name sp rest
  end.

(** A local name: it does not itself begin with one of the prefixes. *)
Definition plain (name : string) : bool :=
  match name with
  | String a (String b _) =>
      negb ((Ascii.eqb a "d" || Ascii.eqb a "D") && Ascii.eqb b ":")
  | _ => true
  end.

Fixpoint distinct (names : list string) : bool :=
  match names with
  | [] => true
  | n :: rest => negb (existsb (String.eqb n) rest) && distinct rest
  end.

(** Children with local names, no two of them with the same name. *)
Definition wellNamed (children : list element) : bool :=
  forallb plain (map elementName children) &&
  distinct (map elementName children).

(** Repeated elements as the parser delivers them: a lone element is not
    wrapped in an array. *)
Definition sequence (items : list jsval) : jsval :=
  match items with
  | [x] => x
  | _ => JArr items
  end.

(** The spelling chosen for each element of a response. *)
Record Spellings : Type := mkSpellings {
  sp_href : spelling;
  sp_propstat : spelling;
  sp_status : spelling;
  sp_prop : spelling;
  sp_length : spelling;
  sp_modified : spelling;
  sp_ctype : spelling;
  sp_etag : spelling;
  sp_rtype : spelling;
  sp_collection : spelling;
  sp_display : spelling
}.

Definition uniform (sp : spelling) : Spellings :=
  mkSpellings sp sp sp sp sp sp sp sp sp sp sp.

(** What a response element says, apart from the spelling: [None] is an
    absent property; [c_collection] is [None] without a resource type,
    [Some false] for an empty resource type and [Some true] for a resource
    type with the collection marker. *)
Record Content : Type := mkContent {
  c_href : string;
  c_status : string;
  c_length : option jsval;
  c_modified : option jsval;
  c_ctype : option jsval;
  c_etag : option jsval;
  c_display : option jsval;
  c_collection : option bool
}.

Definition optional (name : string) (sp : spelling) (v : option jsval)
  : list element :=
  match v with
  | Some x => [(name, sp, x)]
  | None => []
  end.

Definition resourcetypeElement (sp : Spellings) (c : Content) : list element :=
  match c_collection c with
  | None => []
  | Some false => [("resourcetype", sp_rtype sp, JStr "")]
  | Some true =>
      [("resourcetype", sp_rtype sp,
        object [("collection", sp_collection sp, JStr "")])]
  end.

Definition propChildren (sp : Spellings) (c : Content) : list element :=
  (resourcetypeElement sp c
   ++ optional "getcontentlength" (sp_length sp) (c_length c)
   ++ optional "getlastmodified" (sp_modified sp) (c_modified c)
   ++ optional "getcontenttype" (sp_ctype sp) (c_ctype c)
   ++ optional "getetag" (sp_etag sp) (c_etag c)
   ++ optional "displayname" (sp_display sp) (c_display c))%list.

Definition propstatChildren (sp : Spellings) (c : Content) : list element :=
  [("prop", sp_prop sp, object (propChildren sp c));
   ("status", sp_status sp, JStr (c_status c))].

Definition responseChildren (sp : Spellings) (c : Content) : list element :=
  [("href", sp_href sp, JStr (c_href c));
   ("propstat", sp_propstat sp, object (propstatChildren sp c))].

(** The parsed form of one response element. *)
Definition responseElement (i : Spellings * Content) : jsval :=
  object (responseChildren (fst i) (snd i)).

(** The parsed form of a multistatus document whose root is spelled [root]
    and whose response elements are all spelled [resp]. *)
Definition document (root resp : spelling) (items : list (Spellings * Content))
  : jsval :=
  object [("multistatus", root,
           object [("response", resp, sequence (map responseElement items))])].



(** The report of scenario 1. *)
Definition report : Content :=
  {| c_href := "/docs/report.pdf";
     c_status := "HTTP/1.1 200 OK";
     c_length := Some (JNum 10240);
     c_modified := Some (JStr "Mon, 01 Jan 2024 00:00:00 GMT");
     c_ctype := Some (JStr "application/pdf");
     c_etag := None;
     c_display := None;
     c_collection := Some false |}.


(** A listing of two records. *)
Definition lowerItems : list (Spellings * Content) :=
  [(uniform Lower, report); (uniform Bare, report)].

(** *** Documents that differ only in spelling *)

















(** *** Property-status blocks *)

(** A property-status block: the spelling of its [prop] element, the
    children of that element, and the other children of the block, among
    them its status line when it has one. *)
Record Block : Type := mkBlock {
  b_propSpelling : spelling;
  b_properties : list element;
  b_others : list element
}.

Definition blockChildren (b : Block) : list element :=
  ("prop", b_propSpelling b, object (b_properties b)) :: b_others b.

(** The parsed form of a block. *)
Definition blockElement (b : Block) : jsval := object (blockChildren b).

(** The status line of a block, [undefined] when it has none. *)
Definition statusLine (b : Block) : jsval := child "status" (b_others b).

(** A block whose children, and whose properties, are well named, and
    whose status line, when it has one, is text. *)
Definition regularBlock (b : Block) : Prop :=
  wellNamed (blockChildren b) = true /\
  wellNamed (b_properties b) = true /\
  (statusLine b = JUndefined \/ exists s, statusLine b = JStr s).

(** The status line of the block contains "200". *)
Definition lineHas200 (b : Block) : bool :=
  match statusLine b with
  | JStr s => Str.includes s "200"
  | _ => false
  end.

(** The record whose properties are those of the block [b]: each one is
    the content of the child of that name of the [prop] element of [b],
    and the status is the status line of [b], or the default when [b] has
    none. *)
Definition blockRecord (h : string) (b : Block) : WebDAVResponse :=
  {| href := h;
     prop := {| getcontentlength := child "getcontentlength" (b_properties b);
                getlastmodified := child "getlastmodified" (b_properties b);
                getcontenttype := child "getcontenttype" (b_properties b);
                getetag := child "getetag" (b_properties b);
                resourcetype := child "resourcetype" (b_properties b);
                displayname := child "displayname" (b_properties b) |};
     status := Js.or (statusLine b) (JStr "HTTP/1.1 200 OK") |}.

(** The two blocks [missingBlock] and [foundBlock]. *)
Definition missingProperties : Block :=
  {| b_propSpelling := Lower;
     b_properties := [("getetag", Lower, JStr "")];
     b_others := [("status", Lower, JStr "HTTP/1.1 404 Not Found")] |}.

Definition foundProperties : Block :=
  {| b_propSpelling := Lower;
     b_properties := [("getcontentlength", Lower, JNum 10240)];
     b_others := [("status", Lower, JStr "HTTP/1.1 200 OK")] |}.

(** A response whose two blocks are spelled alike, which the parser files
    as an array under one key, and the same response with the second block
    spelled [D:propstat], which the parser files under a key of its
    own. *)
Definition joinedPropstat : jsval :=
  JObj [("d:href", JStr "/docs/report.pdf");
        ("d:propstat", JArr [missingBlock; foundBlock])].

Definition splitPropstat : jsval :=
  JObj [("d:href", JStr "/docs/report.pdf");
        ("d:propstat", missingBlock);
        ("D:propstat", foundBlock)].

(** *** Listings *)





(** *** Vocabulary for the remaining operations *)

(** The operation [op], which sends [req], raises the failure status of the
    server: when the server answers [req] with a status outside 2xx, [op]
    throws a [WebDAVError] with that status and status text, after
    transmitting [req] and nothing else. *)
Definition surfacesStatus {A : Type} (network : list request -> request -> reply)
    (req : request) (op : M A) : Prop :=
  forall log st tx body,
    network log req = Response st tx body ->
    is2xx st = false ->
    exceeds (data req) (maxBodyLength req) = false ->
    exceeds (Buffered body) (maxContentLength req) = false ->
    exists e,
      op log = (Throw (WebDAVErr e), (log ++ [req])%list) /\
      statusCode e = Some st /\
      statusText e = Some tx.

(** The operation [op], which sends [req], reports a failed exchange: when
    no response comes back and the HTTP library rejects with [msg], [op]
    throws a [WebDAVError] without status whose message is [context]
    followed by [msg]. *)
Definition reportsFailure {A : Type} (network : list request -> request -> reply)
    (req : request) (context : string) (op : M A) : Prop :=
  forall log msg,
    network log req = Failure (AxiosError msg None) ->
    exceeds (data req) (maxBodyLength req) = false ->
    op log = (Throw (WebDAVErr {| message := context ++ ": " ++ msg;
                                  statusCode := None;
                                  statusText := None |}),
              (log ++ [req])%list).

(** The statuses [handleError] has a message of its own for. *)
Definition classified : list Z := [401; 403; 404; 405; 409; 412; 423; 507]%Z.

(** The PUT request of [putFileContents]. *)
Definition putRequest (client : WebDAVClient) (filePath bytes : string)
  : request :=
  axiosRequest client PUT filePath octetStream (Buffered bytes).

(** A server on which nothing exists and every upload is accepted: HEAD gets
    404, everything else 201. *)
Definition emptyServer : list request -> request -> reply :=
  fun _ req =>
    match method req with
    | HEAD => Response 404 "Not Found" ""
    | _ => Response 201 "Created" ""
    end.

(** The property map of a record none of whose properties is present. *)
Definition noProperties : Prop6 :=
  {| getcontentlength := JUndefined; getlastmodified := JUndefined;
     getcontenttype := JUndefined; getetag := JUndefined;
     resourcetype := JUndefined; displayname := JUndefined |}.

(** The characters of [s] are all different from [c]. *)
Definition without (c : ascii) (s : string) : bool :=
  forallb (fun x => negb (Ascii.eqb x c)) (list_ascii_of_string s).

(** The characters of [s] are all separators. *)
Definition separatorsOnly (s : string) : bool :=
  forallb Path.isSlash (list_ascii_of_string s).

(** *** Vocabulary for the creation of parent folders *)

(** The segments [createParentDirectories] walks through. *)
Definition segments (dirPath : string) : list string :=
  filter (fun part => negb (part =? "")) (Str.split_slash dirPath).

(** The successive ancestor paths built from [currentPath] and the
    segments. *)
Fixpoint ancestors (currentPath : string) (parts : list string) : list string :=
  match parts with
  | [] => []
  | part :: rest =>
      (currentPath ++ "/" ++ part)
        :: ancestors (currentPath ++ "/" ++ part) rest
  end.

Definition mkcolRequest (client : WebDAVClient) (dirPath : string) : request :=
  axiosRequest client MKCOL dirPath [] NoBody.

(** [req] is the existence check or the creation of one of the paths. *)
Definition ancestorRequest (client : WebDAVClient) (paths : list string)
    (req : request) : Prop :=
  exists u, In u paths /\
            (req = headRequest client u \/ req = mkcolRequest client u).

(** A collection was created at [u] by one of the transmitted requests. *)
Definition created (log : list request) (u : string) : bool :=
  existsb (fun r => match method r with
                    | MKCOL => url r =? u
                    | _ => false
                    end) log.

(** [u] is present on a server that started with the collections
    [initial] and has received the requests of [log]. *)
Definition present (initial : list string) (log : list request) (u : string)
  : bool :=
  existsb (String.eqb u) initial || created log u.

(** A server that remembers the collections it was asked to create: HEAD
    answers 200 for what is present and 404 otherwise, MKCOL answers 201
    for what is not present and 405 otherwise. *)
Definition trackingServer (initial : list string)
  : list request -> request -> reply :=
  fun log req =>
    match method req with
    | HEAD =>
        if present initial log (url req)
        then Response 200 "OK" ""
        else Response 404 "Not Found" ""
    | MKCOL =>
        if present initial log (url req)
        then Response 405 "Method Not Allowed" ""
        else Response 201 "Created" ""
    | _ => Response 200 "OK" ""
    end.

(** *** Vocabulary for the branches of the node *)

(** The output entry the list branch builds for one entry of the listing. *)
Definition toItem (details : bool) (item : FileInfo) : ListItem :=
  {| li_path := filename item;
     li_name := Path.basename (filename item);
     li_type := type item;
     li_details :=
       if details then Some (size item, lastmod item, mime item) else None |}.

(** The operation [op] accepts a 2xx answer to its request [req]: it then
    returns [value] after transmitting [req] and nothing else. *)
Definition succeedsWith {A : Type} (network : list request -> request -> reply)
    (req : request) (op : M A) (value : string -> A) : Prop :=
  forall log st tx body,
    network log req = Response st tx body ->
    is2xx st = true ->
    exceeds (data req) (maxBodyLength req) = false ->
    exceeds (Buffered body) (maxContentLength req) = false ->
    op log = (Ok (value body), (log ++ [req])%list).

(** A server on which a file appears between two existence checks: the
    first HEAD gets 404, every later request 200. *)
Definition racingServer : list request -> request -> reply :=
  fun log _ =>
    match log with
    | [] => Response 404 "Not Found" ""
    | _ => Response 200 "OK" ""
    end.

(** A server that performs transfers but answers no PROPFIND: HEAD gets
    200 for [/a.txt] and 404 for anything else, MOVE and COPY get 201,
    PROPFIND gets 500. *)
Definition transferOnlyServer : list request -> request -> reply :=
  fun _ req =>
    match method req with
    | HEAD => if url req =? "/a.txt"
              then Response 200 "OK" ""
              else Response 404 "Not Found" ""
    | PROPFIND => Response 500 "Internal Server Error" ""
    | _ => Response 201 "Created" ""
    end.

(* ================================================================== *)
(** * Properties *)

(** ** Existence check *)

Lemma exceeds_NoBody : forall l, exceeds NoBody l = false.
Proof.
  intros [n|]; simpl; [|reflexivity].
  destruct (0 <=? n)%Z eqn:E1; simpl; [|reflexivity].
  apply Z.ltb_ge. apply Z.leb_le in E1. exact E1.
Qed.

Lemma exceeds_empty : forall l, exceeds (Buffered "") l = false.
Proof. exact exceeds_NoBody. Qed.

Lemma exists_run : forall network client filePath log,
  exists_ network client filePath log =
  (Ok (existsAnswer (network log (headRequest client filePath))),
   (log ++ [headRequest client filePath])%list).
Proof.
  intros network client filePath log.
  unfold exists_, tryM, bind, send, headRequest.
  cbn [data maxBodyLength maxContentLength method axiosRequest].
  rewrite exceeds_NoBody.
  destruct (network log (axiosRequest client HEAD filePath [] NoBody))
    as [status statusText body | e]; cbn [existsAnswer].
  - rewrite exceeds_empty.
    destruct (is2xx status) eqn:E; cbn.
    + rewrite E. reflexivity.
    + destruct status as [|p|p]; try reflexivity.
      repeat (destruct p as [p|p|]; try reflexivity).
  - destruct e as [n m | m [[st tx]|] | w | m]; try reflexivity.
    destruct st as [|p|p]; try reflexivity.
    repeat (destruct p as [p|p|]; try reflexivity).
Qed.

(** C2.  [exists(path)] transmits one HEAD request for [path] and always
    returns a boolean, never an exception: [true] exactly when the server
    answered with a 2xx status; [false] for a 404 answer and for every
    exchange that produced no answer at all. *)
Theorem exists_true_iff_2xx : forall network client filePath log,
  exists b,
    exists_ network client filePath log =
      (Ok b, (log ++ [headRequest client filePath])%list) /\
    method (headRequest client filePath) = HEAD /\
    url (headRequest client filePath) = filePath /\
    (b = true <->
       exists status statusText body,
         network log (headRequest client filePath)
           = Response status statusText body /\
         (200 <= status < 300)%Z) /\
    (forall statusText body,
       network log (headRequest client filePath)
         = Response 404 statusText body -> b = false) /\
    (forall e,
       network log (headRequest client filePath) = Failure e -> b = false).
Proof.
  intros network client filePath log.
  exists (existsAnswer (network log (headRequest client filePath))).
  split; [apply exists_run|].
  split; [reflexivity|]. split; [reflexivity|].
  split; [|split].
  - destruct (network log (headRequest client filePath))
      as [status statusText body | e]; cbn [existsAnswer]; unfold is2xx.
    + rewrite andb_true_iff, Z.leb_le, Z.ltb_lt. split.
      * intros H. exists status, statusText, body. split; [reflexivity|lia].
      * intros (st & tx & bd & Heq & Hr). injection Heq as -> _ _. lia.
    + split; [discriminate|].
      intros (st & tx & bd & Heq & _). discriminate.
  - intros statusText body ->. reflexivity.
  - intros e ->. reflexivity.
Qed.

(** ** Uploads *)

Lemma send_too_long : forall network req log,
  exceeds (data req) (maxBodyLength req) = true ->
  send network req log =
  (Throw (AxiosError "Request body larger than maxBodyLength limit" None), log).
Proof. intros network req log H. unfold send. rewrite H. reflexivity. Qed.

(** C3.  With [overwrite: false], when the existence check answers [true]
    (its HEAD request got a 2xx status), [putFileContents] and
    [putFileStream] raise the 409 "Conflict" error and the only request
    transmitted is that HEAD request: no PUT leaves the client. *)
Theorem put_conflict_before_transmission :
  forall network client filePath data stream log log',
    exists_ network client filePath log = (Ok true, log') ->
    putFileContents network client filePath data (Some false) log
      = (Throw (conflict filePath), log') /\
    putFileStream network client filePath stream (Some false) log
      = (Throw (conflict filePath), log') /\
    (exists e, conflict filePath = WebDAVErr e /\
               statusCode e = Some 409%Z /\ statusText e = Some "Conflict") /\
    log' = (log ++ [headRequest client filePath])%list /\
    method (headRequest client filePath) <> PUT.
Proof.
  intros network client filePath data stream log log' H.
  repeat split.
  - unfold putFileContents, tryM, bind. cbn [notOverwrite].
    rewrite H. reflexivity.
  - unfold putFileStream, tryM, bind. cbn [notOverwrite].
    rewrite H. reflexivity.
  - eexists. repeat split.
  - rewrite exists_run in H. now injection H as _ <-.
  - discriminate.
Qed.

Lemma put_conflict_before_transmission_witness :
  exists_ (answering 200 "OK") sampleClient "/docs/report.pdf" []
    = (Ok true, [headRequest sampleClient "/docs/report.pdf"]) /\
  putFileContents (answering 200 "OK") sampleClient "/docs/report.pdf"
      "payload" (Some false) []
    = (Throw (conflict "/docs/report.pdf"),
       [headRequest sampleClient "/docs/report.pdf"]).
Proof.
  split; [reflexivity|].
  apply (put_conflict_before_transmission (answering 200 "OK") sampleClient
           "/docs/report.pdf" "payload" "payload" []
           [headRequest sampleClient "/docs/report.pdf"]).
  reflexivity.
Defined.

(** C10, as the specification states it, fails for the streaming upload:
    with a ceiling of 10 bytes configured, [putFileStream] transmits an
    11-byte body. *)
Lemma putFileStream_ignores_ceiling :
  cfg_maxBodyLength smallClient = Bytes 10 /\
  exceeds (Streamed "12345678901") (cfg_maxBodyLength smallClient) = true /\
  putFileStream (answering 201 "Created") smallClient "/big.bin"
      "12345678901" (Some true) []
    = (Ok tt, [streamRequest "/big.bin" "12345678901"]).
Proof. repeat split. Qed.

(** C10, amended.  Every request built by [axiosRequest] carries the
    ceilings of the instance, and a buffered upload whose body exceeds the
    configured [maxBodyLength] fails locally: the error is raised and no
    request other than the HEAD of the existence check is transmitted.
    [putFileStream] replaces both ceilings by [Infinity]: with
    [overwrite: true] its PUT request is transmitted whatever the length
    of the body. *)
Theorem body_ceiling_enforced_except_stream :
  forall network client filePath bytes overwrite log,
    exceeds (Buffered bytes) (cfg_maxBodyLength client) = true ->
    (forall m u h d,
       maxBodyLength (axiosRequest client m u h d) = cfg_maxBodyLength client /\
       maxContentLength (axiosRequest client m u h d)
         = cfg_maxContentLength client) /\
    (exists e log',
       putFileContents network client filePath bytes overwrite log
         = (Throw (WebDAVErr e), log') /\
       (log' = log \/ log' = (log ++ [headRequest client filePath])%list)) /\
    (exists r,
       putFileStream network client filePath bytes (Some true) log
         = (r, (log ++ [streamRequest filePath bytes])%list) /\
       data (streamRequest filePath bytes) = Streamed bytes).
Proof.
  intros network client filePath data0 overwrite log H.
  split; [intros; split; reflexivity|]. split.
  - unfold putFileContents, tryM, bind.
    destruct (notOverwrite overwrite).
    + rewrite exists_run.
      destruct (existsAnswer (network log (headRequest client filePath))).
      * cbn. eexists _, _. split; [reflexivity|]. right. reflexivity.
      * cbn [ret]. rewrite send_too_long by exact H.
        cbn. eexists _, _. split; [reflexivity|]. right. reflexivity.
    + cbn [ret]. rewrite send_too_long by exact H.
      cbn. eexists _, _. split; [reflexivity|]. left. reflexivity.
  - unfold putFileStream, tryM, bind. cbn [notOverwrite ret].
    fold (streamRequest filePath data0).
    unfold send. cbn [data maxBodyLength maxContentLength streamRequest exceeds method].
    destruct (network log _) as [status statusText body | e].
    + destruct (is2xx status).
      * eexists. split; reflexivity.
      * cbn. eexists. split; reflexivity.
    + destruct e as [n m | m r | w | m]; cbn; eexists; split; reflexivity.
Qed.

Lemma body_ceiling_enforced_except_stream_witness :
  exceeds (Buffered "12345678901") (cfg_maxBodyLength smallClient) = true /\
  exists e log',
    putFileContents (answering 201 "Created") smallClient "/big.bin"
        "12345678901" (Some true) []
      = (Throw (WebDAVErr e), log') /\
    (log' = [] \/ log' = [headRequest smallClient "/big.bin"]).
Proof.
  split; [reflexivity|].
  apply (body_ceiling_enforced_except_stream (answering 201 "Created")
           smallClient "/big.bin" "12345678901" (Some true) []).
  reflexivity.
Defined.

(** ** MOVE and COPY *)

Lemma prefix_split : forall p s,
  String.prefix p s = true -> exists r, s = p ++ r.
Proof.
  induction p as [|a p IH]; intros s H.
  - exists s. reflexivity.
  - destruct s as [|b s]; [discriminate|].
    simpl in H. destruct (ascii_dec a b) as [->|]; [|discriminate].
    destruct (IH s H) as [r ->]. exists r. reflexivity.
Qed.

Lemma strip_http : forall r,
  exists z, Str.stripTrailingSlash ("http://" ++ r) = "http:/" ++ z.
Proof.
  intros r. unfold Str.stripTrailingSlash.
  destruct (Str.endsWith ("http://" ++ r) "/").
  - destruct r; simpl; eexists; reflexivity.
  - eexists. reflexivity.
Qed.

Lemma strip_https : forall r,
  exists z, Str.stripTrailingSlash ("https://" ++ r) = "https:/" ++ z.
Proof.
  intros r. unfold Str.stripTrailingSlash.
  destruct (Str.endsWith ("https://" ++ r) "/").
  - destruct r; simpl; eexists; reflexivity.
  - eexists. reflexivity.
Qed.

Lemma createAbsoluteUrl_absolute : forall newURL client path,
  isHttpURL (baseURL client) = true ->
  (forall u, newURL path (baseURL client) = Some u -> isAbsoluteURL u = true) ->
  isAbsoluteURL (createAbsoluteUrl newURL client path) = true.
Proof.
  intros newURL client path Hbase Hurl. unfold createAbsoluteUrl.
  destruct (Str.startsWith path "http://") eqn:E1; cbn [orb].
  { destruct (prefix_split _ _ E1) as [r ->]. reflexivity. }
  destruct (Str.startsWith path "https://") eqn:E2.
  { destruct (prefix_split _ _ E2) as [r ->]. reflexivity. }
  destruct (newURL path (baseURL client)) as [u|] eqn:E3.
  { exact (Hurl _ eq_refl). }
  unfold isHttpURL in Hbase. apply orb_true_iff in Hbase.
  destruct Hbase as [H|H]; destruct (prefix_split _ _ H) as [r ->].
  - destruct (strip_http r) as [z ->]. reflexivity.
  - destruct (strip_https r) as [z ->]. reflexivity.
Qed.

Lemma createAbsoluteUrl_relative : forall newURL client path,
  isHttpURL path = false ->
  createAbsoluteUrl newURL client path =
  match newURL path (baseURL client) with
  | Some u => u
  | None => Str.stripTrailingSlash (baseURL client) ++ "/"
              ++ Str.stripLeadingSlash path
  end.
Proof.
  intros newURL client path H. unfold createAbsoluteUrl.
  unfold isHttpURL in H. now rewrite H.
Qed.

Lemma transfer_run : forall network newURL client m source destination overwrite
    context log,
  exists r,
    tryM
      (send network (transferRequest newURL client m source destination overwrite)
         ;;; ret tt)
      (fun error => handleError error context) log
    = (r, (log ++ [transferRequest newURL client m source destination
                     overwrite])%list).
Proof.
  intros. unfold tryM, bind, send.
  cbn [data maxBodyLength transferRequest axiosRequest].
  rewrite exceeds_NoBody.
  destruct (network log _) as [status statusText body | e].
  - cbn zeta. destruct (exceeds _ _).
    + cbn. eexists. reflexivity.
    + destruct (is2xx status); cbn; eexists; reflexivity.
  - destruct e as [n0 m0 | m0 r0 | w | m0]; cbn; eexists; reflexivity.
Qed.

(** C8, as stated, fails for a client whose base URL has no scheme,
    which neither the constructor nor the node rules out: the [URL]
    constructor refuses such a base, and the [Destination] header of the
    MOVE request is the base URL and the relative destination joined by a
    separator, which is not an absolute URL. *)
Lemma transfer_destination_not_absolute :
  sampleURL "relative/target" (baseURL schemelessClient) = None /\
  exists r,
    moveFile (answering 201 "Created") sampleURL schemelessClient
        "/a.txt" "relative/target" (Some false) []
      = (r, [transferRequest sampleURL schemelessClient MOVE
               "/a.txt" "relative/target" (Some false)]) /\
    header "Destination"
        (headers (transferRequest sampleURL schemelessClient MOVE
                    "/a.txt" "relative/target" (Some false)))
      = Some "webdav.example.com/dav/relative/target" /\
    isAbsoluteURL "webdav.example.com/dav/relative/target" = false.
Proof.
  split; [reflexivity|]. eexists. repeat split.
Qed.

(** C8, amended.  [moveFile] and [copyFile] transmit one MOVE,
    respectively COPY, request for the source.  Its [Overwrite] header is
    [T] for [overwrite: true] and [F] for [overwrite: false].  Its
    [Destination] header is the destination itself when that begins with
    [http://] or [https://]; otherwise it is the destination resolved
    against the base URL by the [URL] constructor; and when the
    constructor refuses them it is the base URL and the destination joined
    by one separator.  For a client whose base URL begins with [http://]
    or [https://] the header is an absolute URL, never the literal
    relative destination.  The [URL] constructor is a parameter; all that
    is used of it is that what it returns for the destination is an
    absolute URL. *)
Theorem transfer_destination_absolute :
  forall network newURL client source destination overwrite log,
    (exists r req,
       moveFile network newURL client source destination overwrite log
         = (r, (log ++ [req])%list) /\
       transferHeadersOk (baseURL client) MOVE source destination overwrite
         (newURL destination (baseURL client)) req) /\
    (exists r req,
       copyFile network newURL client source destination overwrite log
         = (r, (log ++ [req])%list) /\
       transferHeadersOk (baseURL client) COPY source destination overwrite
         (newURL destination (baseURL client)) req).
Proof.
  intros network newURL client source destination overwrite log.
  assert (Hreq : forall m,
    transferHeadersOk (baseURL client) m source destination overwrite
      (newURL destination (baseURL client))
      (transferRequest newURL client m source destination overwrite)).
  { intros m. split; [reflexivity|]. split; [reflexivity|].
    split; [intros ->; reflexivity|]. split; [intros ->; reflexivity|].
    exists (createAbsoluteUrl newURL client destination).
    split; [reflexivity|]. split; [|split; [|split]].
    - intros H. unfold createAbsoluteUrl. unfold isHttpURL in H.
      now rewrite H.
    - intros H u Hu. rewrite (createAbsoluteUrl_relative _ _ _ H).
      now rewrite Hu.
    - intros H Hnone. rewrite (createAbsoluteUrl_relative _ _ _ H).
      now rewrite Hnone.
    - intros Hbase Hurl.
      pose proof (createAbsoluteUrl_absolute newURL client destination
                    Hbase Hurl) as Habs.
      split; [exact Habs|].
      intros H1 H2. rewrite H2 in Habs. congruence. }
  split.
  - destruct (transfer_run network newURL client MOVE source destination
                overwrite "Не удалось переместить файл" log) as [r Hr].
    exists r, (transferRequest newURL client MOVE source destination overwrite).
    split; [exact Hr | apply Hreq].
  - destruct (transfer_run network newURL client COPY source destination
                overwrite "Не удалось скопировать файл" log) as [r Hr].
    exists r, (transferRequest newURL client COPY source destination overwrite).
    split; [exact Hr | apply Hreq].
Qed.

Lemma transfer_destination_absolute_witness :
  exists r req,
    moveFile (answering 201 "Created") sampleURL sampleClient
        "/a.txt" "relative/target" (Some false) []
      = (r, [req]) /\
    header "Overwrite" (headers req) = Some "F" /\
    header "Destination" (headers req)
      = Some "https://dav.example.com/remote/relative/target" /\
    isAbsoluteURL "https://dav.example.com/remote/relative/target" = true.
Proof.
  destruct (proj1 (transfer_destination_absolute (answering 201 "Created")
              sampleURL sampleClient "/a.txt" "relative/target" (Some false)
              []))
    as (r & req & Hrun & _ & _ & _ & Hflag & d & Hd & _ & Hres & _ & _).
  exists r, req. split; [exact Hrun|]. split; [exact (Hflag eq_refl)|].
  split; [|reflexivity].
  rewrite Hd. f_equal. exact (Hres eq_refl _ eq_refl).
Defined.

(** C9, as stated, fails for the client: on a server where the target
    exists and that refuses to overwrite, [moveFile] with
    [overwrite: false] transmits its MOVE request, and the error it raises
    is the 412 of the server, not a 409. *)
Lemma moveFile_transmits_move_to_existing_target :
  exists_ refusingServer sampleClient "/b.txt" []
    = (Ok true, [headRequest sampleClient "/b.txt"]) /\
  exists e,
    moveFile refusingServer sampleURL sampleClient "/a.txt" "/b.txt"
        (Some false) []
      = (Throw (WebDAVErr e),
         [transferRequest sampleURL sampleClient MOVE "/a.txt" "/b.txt"
            (Some false)]) /\
    statusCode e = Some 412%Z.
Proof. split; [reflexivity|]. eexists. split; reflexivity. Qed.

(** C9, amended.  [moveFile] itself never looks at the target: whatever the
    server holds, it transmits its MOVE request, with [Overwrite: F] for
    [overwrite: false], and leaves the refusal to the server.  The check is
    made by the MOVE branch of the node: when both existence checks answer
    [true] and [overwrite] is false, the branch raises a
    [NodeOperationError] after its two HEAD requests and no MOVE request is
    transmitted. *)
Theorem move_conflict_checked_by_node :
  forall network xmlParse now newURL client filePath targetPath
         createParentFolders log log1 log2,
    exists_ network client filePath log = (Ok true, log1) ->
    exists_ network client targetPath log1 = (Ok true, log2) ->
    (exists msg,
       executeMove network xmlParse now newURL client filePath targetPath
         false createParentFolders log
       = (Throw (NodeOperationError msg), log2)) /\
    log2 = (log ++ [headRequest client filePath;
                    headRequest client targetPath])%list /\
    (exists r,
       moveFile network newURL client filePath targetPath (Some false) log
       = (r, (log ++ [transferRequest newURL client MOVE filePath targetPath
                        (Some false)])%list)) /\
    method (transferRequest newURL client MOVE filePath targetPath (Some false))
      = MOVE /\
    header "Overwrite"
      (headers (transferRequest newURL client MOVE filePath targetPath
                  (Some false))) = Some "F".
Proof.
  intros network xmlParse now newURL client filePath targetPath
         createParentFolders log log1 log2 H1 H2.
  split; [|split; [|split; [|split]]].
  - unfold executeMove, bind. rewrite H1. cbn [negb]. rewrite H2.
    cbn [andb negb]. eexists. reflexivity.
  - rewrite exists_run in H1. injection H1 as _ <-.
    rewrite exists_run in H2. injection H2 as _ <-.
    rewrite <- app_assoc. reflexivity.
  - apply transfer_run.
  - reflexivity.
  - reflexivity.
Qed.

Lemma move_conflict_checked_by_node_witness :
  exists msg,
    executeMove refusingServer (fun _ => Ok JUndefined) "2024-01-01T00:00:00.000Z"
      sampleURL sampleClient "/a.txt" "/b.txt" false true []
    = (Throw (NodeOperationError msg),
       [headRequest sampleClient "/a.txt"; headRequest sampleClient "/b.txt"]).
Proof.
  exact (proj1 (move_conflict_checked_by_node refusingServer
           (fun _ => Ok JUndefined) "2024-01-01T00:00:00.000Z" sampleURL
           sampleClient "/a.txt" "/b.txt" true []
           [headRequest sampleClient "/a.txt"]
           [headRequest sampleClient "/a.txt"; headRequest sampleClient "/b.txt"]
           eq_refl eq_refl)).
Defined.

(** ** [stat] and [getDirectoryContents] *)

Lemma handleError_throws : forall A (error : exn) context log,
  exists e, @handleError A error context log = (Throw (WebDAVErr e), log).
Proof.
  intros A error context log.
  destruct error as [n m | m r | w | m]; cbn; eexists; reflexivity.
Qed.

Lemma rethrowOrHandle_throws : forall A context (error : exn) log,
  exists e, @rethrowOrHandle A context error log = (Throw (WebDAVErr e), log).
Proof.
  intros A context error log. unfold rethrowOrHandle.
  destruct error as [n m | m r | w | m];
    try apply handleError_throws.
  eexists. reflexivity.
Qed.

Lemma parse_throws_parse_error : forall xmlParse xmlData e,
  parseWebDAVResponse xmlParse xmlData = Throw e -> isParseError e.
Proof.
  intros xmlParse xmlData e. unfold parseWebDAVResponse, try_catch.
  match goal with |- context [match ?r with _ => _ end] => destruct r end.
  - discriminate.
  - intros H. injection H as <-. eexists. reflexivity.
Qed.

Lemma notFound_not_parse_error : ~ isParseError notFound.
Proof. intros [cause H]. discriminate H. Qed.

Lemma parserTree_lookup : forall fields key,
  forallb (fun kv => parserTree (snd kv)) fields = true ->
  Js.lookup fields key = JUndefined \/
  parserTree (Js.lookup fields key) = true.
Proof.
  induction fields as [|[k v] rest IH]; intros key H; [left; reflexivity|].
  cbn [forallb snd] in H. apply andb_true_iff in H. destruct H as [Hv Hrest].
  cbn [Js.lookup]. destruct (k =? key); [right; exact Hv|].
  apply IH. exact Hrest.
Qed.

Lemma parserTree_get : forall v key,
  parserTree v = true ->
  exists u, Js.get v key = Ok u /\ (u = JUndefined \/ parserTree u = true).
Proof.
  intros v key H.
  destruct v as [| |b|n|t|items|fields]; try discriminate H;
    try (exists JUndefined; split; [reflexivity|left; reflexivity]).
  exists (Js.lookup fields key). split; [reflexivity|].
  apply parserTree_lookup. exact H.
Qed.

Lemma firstTruthy_parserTree : forall v keys,
  parserTree v = true ->
  exists m, firstTruthy v keys = Ok m /\
            (m = JUndefined \/ parserTree m = true).
Proof.
  intros v keys Hv. unfold firstTruthy.
  assert (H : forall acc, acc = JUndefined \/ parserTree acc = true ->
    exists m,
      fold_left (fun acc key => let? a := acc in
                                if Js.truthy a then Ok a else Js.get v key)
                keys (Ok acc) = Ok m /\
      (m = JUndefined \/ parserTree m = true)).
  { induction keys as [|key keys IH]; intros acc Hacc.
    - exists acc. split; [reflexivity|exact Hacc].
    - cbn [fold_left rbind]. destruct (Js.truthy acc).
      + apply IH. exact Hacc.
      + destruct (parserTree_get v key Hv) as (u & -> & Hu).
        apply IH. exact Hu. }
  apply H. left. reflexivity.
Qed.

Lemma rmap_length : forall (A B : Type) (f : A -> result B) l bs,
  rmap f l = Ok bs -> length bs = length l.
Proof.
  intros A B f. induction l as [|a l IH]; intros bs H.
  - injection H as <-. reflexivity.
  - cbn [rmap] in H. destruct (f a) as [b|e]; [|discriminate].
    cbn [rbind] in H. destruct (rmap f l) as [bs'|e]; [|discriminate].
    injection H as <-. cbn [length]. now rewrite (IH bs' eq_refl).
Qed.

(** The list of records is never empty for a tree of the parser: the
    branch of [stat] for a list of length zero is not reached. *)
Lemma parse_records_nonempty : forall xmlParse xmlData parsed records,
  xmlParse xmlData = Ok parsed ->
  parserTree parsed = true ->
  parseWebDAVResponse xmlParse xmlData = Ok records ->
  records <> [].
Proof.
  intros xmlParse xmlData parsed records Hparsed Htree.
  unfold parseWebDAVResponse. rewrite Hparsed. cbn [rbind].
  destruct (firstTruthy_parserTree parsed (dav "multistatus") Htree)
    as (m & -> & Hm).
  cbn [rbind]. destruct (Js.truthy m) eqn:Em; cbn [negb]; [|discriminate].
  destruct Hm as [-> | Hm]; [discriminate Em|].
  destruct (firstTruthy_parserTree m (dav "response") Hm) as (rs & -> & Hrs).
  cbn [rbind].
  match goal with
  | |- context [rmap normalizeWebDAVResponse ?l] =>
      set (responses := l);
      destruct (rmap normalizeWebDAVResponse responses) as [bs|e] eqn:E
  end; [|discriminate].
  cbn [try_catch]. intros H. injection H as <-.
  apply rmap_length in E. intros ->. cbn [length] in E.
  subst responses.
  destruct Hrs as [-> | Hrs]; [discriminate E|].
  destruct rs as [| |b|n|t|items|fields]; try discriminate E.
  cbn [parserTree] in Hrs. apply andb_true_iff in Hrs.
  destruct Hrs as [Hlen _]. destruct items; discriminate.
Qed.

Lemma elementsAt_nil : forall u,
  u = JUndefined \/ parserTree u = true ->
  elementsAt u = [] -> u = JUndefined.
Proof.
  intros u [-> | Hu] H; [reflexivity|].
  destruct u as [| |b|n|t|items|fields];
    try discriminate H; try discriminate Hu.
  cbn [elementsAt] in H. subst items. discriminate Hu.
Qed.

(** A multistatus without response elements does not parse. *)
Lemma parse_without_responses : forall xmlParse xmlData parsed multistatus,
  xmlParse xmlData = Ok parsed ->
  parserTree parsed = true ->
  firstTruthy parsed (dav "multistatus") = Ok multistatus ->
  responseElements multistatus = [] ->
  exists e, parseWebDAVResponse xmlParse xmlData = Throw e.
Proof.
  intros xmlParse xmlData parsed m Hparsed Htree Hroot Hzero.
  unfold parseWebDAVResponse. rewrite Hparsed. cbn [rbind].
  rewrite Hroot. cbn [rbind].
  destruct (Js.truthy m) eqn:Em; cbn [negb]; [|eexists; reflexivity].
  destruct (firstTruthy_parserTree parsed (dav "multistatus") Htree)
    as (m' & Hm' & Hm).
  rewrite Hroot in Hm'. injection Hm' as <-.
  destruct Hm as [-> | Hm]; [discriminate Em|].
  destruct (parserTree_get m "d:response" Hm) as (u1 & G1 & H1).
  destruct (parserTree_get m "D:response" Hm) as (u2 & G2 & H2).
  destruct (parserTree_get m "response" Hm) as (u3 & G3 & H3).
  unfold responseElements, dav in Hzero. cbn [flat_map append] in Hzero.
  rewrite G1, G2, G3 in Hzero.
  apply app_eq_nil in Hzero. destruct Hzero as [Z1 Hzero].
  apply app_eq_nil in Hzero. destruct Hzero as [Z2 Hzero].
  apply app_eq_nil in Hzero. destruct Hzero as [Z3 _].
  apply (elementsAt_nil _ H1) in Z1.
  apply (elementsAt_nil _ H2) in Z2.
  apply (elementsAt_nil _ H3) in Z3. subst u1 u2 u3.
  unfold firstTruthy, dav. cbn [fold_left rbind Js.truthy append].
  rewrite G1. cbn [rbind Js.truthy]. rewrite G2. cbn [rbind Js.truthy].
  rewrite G3. cbn. eexists. reflexivity.
Qed.

(** C7.  Once the PROPFIND exchange has succeeded, [stat] parses the body
    and returns the mapping of the first record.  The XML parser is a
    parameter, of which it is assumed that what it returns is a tree the
    parser of the constructor can build.  Then the list of records, when
    the parsing succeeds, is not empty; every failure of the parsing
    reaches the caller as the parse failure; and a document that yields
    zero records, a multistatus without response element under any
    spelling, fails with the parse failure. *)
Theorem stat_first_record_or_parse_error :
  forall network xmlParse now client filePath log resp log',
    send network (propfind client filePath "0") log = (Ok resp, log') ->
    (forall parsed,
       xmlParse (resp_data resp) = Ok parsed -> parserTree parsed = true) ->
    (forall records,
       parseWebDAVResponse xmlParse (resp_data resp) = Ok records ->
       exists r rest,
         records = r :: rest /\
         stat network xmlParse now client filePath log
           = (Ok (webdavResponseToFileInfo now r), log')) /\
    (forall e,
       parseWebDAVResponse xmlParse (resp_data resp) = Throw e ->
       stat network xmlParse now client filePath log = (Throw e, log') /\
       isParseError e) /\
    (forall parsed multistatus,
       xmlParse (resp_data resp) = Ok parsed ->
       firstTruthy parsed (dav "multistatus") = Ok multistatus ->
       responseElements multistatus = [] ->
       exists e,
         stat network xmlParse now client filePath log = (Throw e, log') /\
         isParseError e).
Proof.
  intros network xmlParse now client filePath log resp log' Hsend Htree.
  assert (Hthrow : forall e,
    parseWebDAVResponse xmlParse (resp_data resp) = Throw e ->
    stat network xmlParse now client filePath log = (Throw e, log') /\
    isParseError e).
  { intros e H. pose proof (parse_throws_parse_error _ _ _ H) as Hp.
    split; [|exact Hp].
    unfold stat, tryM, bind, lift. rewrite Hsend, H.
    destruct Hp as [cause ->]. reflexivity. }
  split; [|split].
  - intros records H.
    assert (Hne : records <> []).
    { destruct (xmlParse (resp_data resp)) as [parsed|e] eqn:Hparsed.
      - exact (parse_records_nonempty _ _ _ _ Hparsed (Htree _ eq_refl) H).
      - unfold parseWebDAVResponse in H. rewrite Hparsed in H.
        discriminate H. }
    destruct records as [|r rest]; [now elim Hne|].
    exists r, rest. split; [reflexivity|].
    unfold stat, tryM, bind, lift. rewrite Hsend, H. reflexivity.
  - exact Hthrow.
  - intros parsed m Hparsed Hroot Hzero.
    destruct (parse_without_responses _ _ _ _ Hparsed (Htree _ Hparsed)
                Hroot Hzero) as [e He].
    exists e. apply Hthrow. exact He.
Qed.

Lemma stat_first_record_or_parse_error_witness :
  (exists r rest,
     parseWebDAVResponse
         (fun _ => Ok (document Lower Lower [(uniform Lower, report)])) ""
       = Ok (r :: rest) /\
     stat (multistatusServer "")
         (fun _ => Ok (document Lower Lower [(uniform Lower, report)]))
         sampleNow sampleClient "/docs/report.pdf" []
       = (Ok (webdavResponseToFileInfo sampleNow r),
          [propfind sampleClient "/docs/report.pdf" "0"])) /\
  responseElements (JObj [("@_xmlns:d", JStr "DAV:")]) = [] /\
  exists e,
    stat (multistatusServer "") (fun _ => Ok bareMultistatus) sampleNow
        sampleClient "/docs/report.pdf" []
      = (Throw e, [propfind sampleClient "/docs/report.pdf" "0"]) /\
    isParseError e.
Proof.
  assert (Htree : forall tree : jsval,
    parserTree tree = true ->
    forall parsed,
      (fun _ : string => Ok tree) "" = Ok parsed -> parserTree parsed = true).
  { intros tree Ht parsed H. injection H as <-. exact Ht. }
  split; [|split; [reflexivity|]].
  - destruct (proj1 (stat_first_record_or_parse_error (multistatusServer "")
               (fun _ => Ok (document Lower Lower [(uniform Lower, report)]))
               sampleNow sampleClient "/docs/report.pdf" []
               {| resp_status := 207; resp_statusText := "Multi-Status";
                  resp_data := "" |}
               [propfind sampleClient "/docs/report.pdf" "0"] eq_refl
               (Htree (document Lower Lower [(uniform Lower, report)])
                  eq_refl))
               _ eq_refl)
      as (r & rest & Hrecords & Hstat).
    exists r, rest. split; [|exact Hstat].
    rewrite <- Hrecords. reflexivity.
  - apply (proj2 (proj2 (stat_first_record_or_parse_error
             (multistatusServer "")
             (fun _ => Ok bareMultistatus) sampleNow sampleClient
             "/docs/report.pdf" []
             {| resp_status := 207; resp_statusText := "Multi-Status";
                resp_data := "" |}
             [propfind sampleClient "/docs/report.pdf" "0"] eq_refl
             (Htree bareMultistatus eq_refl)))
             bareMultistatus (JObj [("@_xmlns:d", JStr "DAV:")])
             eq_refl eq_refl eq_refl).
Defined.

Lemma slice_cons : forall c r,
  r <> "" -> Str.slice_0_m1 (String c r) = String c (Str.slice_0_m1 r).
Proof. intros c [|c' r'] H; [now elim H|reflexivity]. Qed.

Lemma slice_app_slash : forall s, Str.slice_0_m1 (s ++ "/") = s.
Proof.
  induction s as [|c r IH]; [reflexivity|].
  change (String c r ++ "/") with (String c (r ++ "/")).
  rewrite slice_cons, IH; [reflexivity|].
  now destruct r.
Qed.




Lemma collect_filter : forall now dir n records,
  collect now dir n records =
  map (webdavResponseToFileInfo now)
      (filter (fun r => negb (isSelf dir n (href r))) records).
Proof.
  intros now dir n. induction records as [|r rest IH]; [reflexivity|].
  cbn [collect filter]. destruct (isSelf dir n (href r)); cbn [negb map].
  - exact IH.
  - now rewrite IH.
Qed.




(** ** Selection of the property-status block *)

Lemma getField_obj : forall fields keys,
  exists v, getField (JObj fields) keys = Ok v.
Proof.
  intros fields. induction keys as [|k keys [v IH]]; cbn.
  - eexists. reflexivity.
  - destruct (Js.defined (Js.lookup fields k)); eexists; eauto.
Qed.

Lemma statusOf_obj : forall fields,
  getField (JObj fields) (dav "status") = Ok (statusOf (JObj fields)).
Proof.
  intros fields. unfold statusOf.
  destruct (getField_obj fields (dav "status")) as [v ->]. reflexivity.
Qed.

Lemma findSuccess_find : forall blocks,
  Forall statusLineBlock blocks ->
  findSuccess blocks =
  Ok (match find has200 blocks with Some b => b | None => JUndefined end).
Proof.
  induction 1 as [|b blocks [[fields ->] Hs] _ IH]; [reflexivity|].
  cbn [findSuccess find]. rewrite statusOf_obj. unfold has200.
  destruct Hs as [-> | [s ->]]; cbn [rbind Js.truthy Js.includes].
  - exact IH.
  - destruct s as [|c s].
    + cbn. exact IH.
    + cbn [String.eqb negb]. cbn [rbind].
      destruct (Str.includes (String c s) "200"); [reflexivity|exact IH].
Qed.

Lemma find_first : forall (A : Type) (f : A -> bool) l x,
  find f l = Some x ->
  f x = true /\
  exists pre post, l = (pre ++ x :: post)%list /\
                   Forall (fun y => f y = false) pre.
Proof.
  intros A f. induction l as [|a l IH]; intros x H; [discriminate|].
  cbn in H. destruct (f a) eqn:E.
  - injection H as <-. split; [exact E|].
    exists [], l. split; [reflexivity|constructor].
  - destruct (IH x H) as (Hx & pre & post & -> & Hpre).
    split; [exact Hx|].
    exists (a :: pre), post. split; [reflexivity|].
    constructor; assumption.
Qed.

Lemma find_nowhere : forall (A : Type) (f : A -> bool) l,
  find f l = None -> Forall (fun y => f y = false) l.
Proof.
  intros A f. induction l as [|a l IH]; intros H; [constructor|].
  cbn in H. destruct (f a) eqn:E; [discriminate|].
  constructor; auto.
Qed.

Lemma successPropstat_single : forall block,
  statusLineBlock block -> successPropstat block = Ok block.
Proof.
  intros block Hb. pose proof Hb as [[fields ->] _].
  unfold successPropstat.
  rewrite (findSuccess_find [JObj fields]) by (constructor; [exact Hb|constructor]).
  cbn [find]. destruct (has200 (JObj fields)); reflexivity.
Qed.

(** ** The size of a mapped record *)

Lemma toNumber_safe : forall z,
  (Z.abs z <= Js.maxSafeInteger)%Z -> Js.toNumber z = Num z.
Proof.
  intros z H. unfold Js.toNumber, Js.safe.
  apply Z.leb_le in H. now rewrite H.
Qed.

Lemma toNumber_beyond : forall z,
  (Js.maxSafeInteger < Z.abs z)%Z -> Js.toNumber z = Rounded z.
Proof.
  intros z H. unfold Js.toNumber, Js.safe.
  apply Z.leb_gt in H. now rewrite H.
Qed.

Lemma skipWhite_digit : forall c r d,
  Js.digit c = Some d -> Js.skipWhite (String c r) = String c r.
Proof.
  intros c r d H.
  destruct c as [[] [] [] [] [] [] [] []]; cbn in H; try discriminate;
    destruct r as [|b [|c3 r3]]; reflexivity.
Qed.

Lemma parseIntStr_digit_first : forall c r d,
  Js.digit c = Some d ->
  Js.parseIntStr (String c r) =
  match Js.digits r (Some d) with
  | Some n => Js.toNumber n
  | None => NaN
  end.
Proof.
  intros c r d H. unfold Js.parseIntStr.
  rewrite (skipWhite_digit c r d H).
  destruct c as [[] [] [] [] [] [] [] []]; cbn in H; try discriminate;
    injection H as <-; cbv iota beta zeta; cbn [Js.digits];
    match goal with
    | |- context [Js.digit ?c] =>
        let v := eval cbv in (Js.digit c) in change (Js.digit c) with v
    end; cbv iota beta;
    match goal with
    | |- context [Js.digits r (Some ?z)] =>
        let v := eval cbv in z in change z with v
    end;
    destruct (Js.digits r _) as [n|]; try reflexivity;
    now destruct n.
Qed.

Lemma digit_digitChar : forall d,
  (d <= 9)%nat -> Js.digit (digitChar d) = Some (Z.of_nat d).
Proof.
  intros d H.
  do 10 (destruct d as [|d]; [reflexivity|]). lia.
Qed.

Lemma digits_numeral : forall ds a,
  Forall (fun d => (d <= 9)%nat) ds ->
  Js.digits (numeral ds) (Some a) =
  Some (fold_left (fun a d => (10 * a + Z.of_nat d)%Z) ds a).
Proof.
  induction ds as [|d ds IH]; intros a H; [reflexivity|].
  inversion H as [|? ? Hd Hds]; subst.
  change (numeral (d :: ds)) with (String (digitChar d) (numeral ds)).
  cbn [Js.digits fold_left]. rewrite (digit_digitChar d Hd).
  apply IH. exact Hds.
Qed.

Lemma fold_digits_nonneg : forall ds a,
  (0 <= a)%Z ->
  (0 <= fold_left (fun a d => (10 * a + Z.of_nat d)%Z) ds a)%Z.
Proof.
  induction ds as [|d ds IH]; intros a H; cbn [fold_left]; [exact H|].
  apply IH. lia.
Qed.

Lemma parseIntStr_numeral : forall ds,
  ds <> [] ->
  Forall (fun d => (d <= 9)%nat) ds ->
  Js.parseIntStr (numeral ds) = Js.toNumber (numeralValue ds).
Proof.
  intros [|d ds] Hne H; [now elim Hne|].
  inversion H as [|? ? Hd Hds]; subst.
  change (numeral (d :: ds)) with (String (digitChar d) (numeral ds)).
  rewrite (parseIntStr_digit_first _ _ _ (digit_digitChar d Hd)).
  rewrite (digits_numeral ds _ Hds). reflexivity.
Qed.

Lemma digits_uint_pos : forall l acc,
  Js.digits (NilEmpty.string_of_uint l) (Some (Z.pos acc)) =
  Some (Z.pos (Pos.of_uint_acc l acc)).
Proof.
  induction l as [|l IH|l IH|l IH|l IH|l IH|l IH|l IH|l IH|l IH|l IH];
    intros acc; [reflexivity|..];
    cbn [NilEmpty.string_of_uint Js.digits Pos.of_uint_acc];
    match goal with
    | |- context [Js.digit ?c] =>
        let v := eval cbv in (Js.digit c) in change (Js.digit c) with v
    end; cbv iota; rewrite <- IH; do 2 f_equal; lia.
Qed.

Lemma digits_uint_zero : forall l,
  Js.digits (NilEmpty.string_of_uint l) (Some 0%Z) =
  Some (Z.of_N (Pos.of_uint l)).
Proof.
  induction l as [|l IH|l IH|l IH|l IH|l IH|l IH|l IH|l IH|l IH|l IH];
    [reflexivity|exact IH|..];
    cbn [NilEmpty.string_of_uint Js.digits Pos.of_uint];
    match goal with
    | |- context [Js.digit ?c] =>
        let v := eval cbv in (Js.digit c) in change (Js.digit c) with v
    end; cbv iota; apply digits_uint_pos.
Qed.

Lemma parseIntStr_uint : forall d,
  d <> Decimal.Nil ->
  Js.parseIntStr (NilZero.string_of_uint d)
    = Js.toNumber (Z.of_N (Pos.of_uint d)).
Proof.
  intros d Hd.
  destruct d as [|l|l|l|l|l|l|l|l|l|l]; [now elim Hd|..];
    cbn [NilZero.string_of_uint NilEmpty.string_of_uint];
    (erewrite parseIntStr_digit_first by reflexivity);
    match goal with
    | |- context [Js.digits _ (Some ?z)] =>
        let v := eval cbv in z in change z with v
    end;
    [ rewrite digits_uint_zero; reflexivity
    | rewrite digits_uint_pos; reflexivity .. ].
Qed.

Lemma parseInt_nonneg_number : forall n,
  (0 <= n <= Js.maxSafeInteger)%Z ->
  Js.parseInt (Js.or (JNum n) (JStr "0")) = Num n.
Proof.
  intros [|p|p] H; [reflexivity| |lia].
  unfold Js.or. cbn [Js.truthy Z.eqb negb].
  unfold Js.parseInt. cbn [Js.toString].
  unfold Js.numToString. cbn [Z.to_int NilZero.string_of_int].
  rewrite parseIntStr_uint by apply DecimalPos.Unsigned.to_uint_nonnil.
  rewrite DecimalPos.Unsigned.of_to.
  apply toNumber_safe. cbn [Z.of_N Z.abs]. lia.
Qed.

(** C4, as stated, fails: a content length that is not a numeral maps to
    [NaN], not to 0, and a negative one maps to a negative size. *)
Lemma size_of_unparsable_length :
  size (webdavResponseToFileInfo sampleNow (withLength (JStr "abc"))) = NaN /\
  size (webdavResponseToFileInfo sampleNow (withLength (JNum (-5)))) = Num (-5) /\
  ~ (exists n, (0 <= n)%Z /\
       size (webdavResponseToFileInfo sampleNow (withLength (JStr "abc")))
         = Num n).
Proof.
  split; [reflexivity|]. split; [reflexivity|].
  intros (n & _ & H). discriminate H.
Qed.

(** C4, amended.  The size of a mapped record is [parseInt] of its content
    length: 0 when the property is absent, and the content length itself
    when the property is a Number or a decimal numeral that denotes a
    non-negative integer of the safe range, at most 2^53 - 1.  A numeral
    never denotes a negative integer; of a numeral beyond the safe range
    the size is the Number the platform rounds it to, which need not be
    the integer the numeral denotes. *)
Theorem size_from_content_length :
  forall now r,
    (getcontentlength (prop r) = JUndefined ->
     size (webdavResponseToFileInfo now r) = Num 0) /\
    (forall n, (0 <= n <= Js.maxSafeInteger)%Z ->
       getcontentlength (prop r) = JNum n ->
       size (webdavResponseToFileInfo now r) = Num n) /\
    (forall ds, ds <> [] -> Forall (fun d => (d <= 9)%nat) ds ->
       getcontentlength (prop r) = JStr (numeral ds) ->
       (0 <= numeralValue ds)%Z /\
       ((numeralValue ds <= Js.maxSafeInteger)%Z ->
        size (webdavResponseToFileInfo now r) = Num (numeralValue ds)) /\
       ((Js.maxSafeInteger < numeralValue ds)%Z ->
        size (webdavResponseToFileInfo now r) = Rounded (numeralValue ds))).
Proof.
  intros now r. unfold webdavResponseToFileInfo. cbn [size].
  split; [|split].
  - intros ->. reflexivity.
  - intros n Hn ->. apply parseInt_nonneg_number. exact Hn.
  - intros ds Hne Hds ->.
    assert (Hpos : (0 <= numeralValue ds)%Z)
      by (apply fold_digits_nonneg; lia).
    assert (Hsize :
      Js.parseInt (Js.or (JStr (numeral ds)) (JStr "0"))
        = Js.toNumber (numeralValue ds)).
    { destruct ds as [|d ds]; [now elim Hne|].
      unfold Js.or, Js.parseInt. cbn [Js.truthy].
      change (numeral (d :: ds) =? "") with false. cbn [negb Js.toString].
      apply parseIntStr_numeral; assumption. }
    rewrite Hsize. split; [exact Hpos|]. split; intros Hbound.
    + apply toNumber_safe. lia.
    + apply toNumber_beyond. lia.
Qed.

Lemma size_from_content_length_witness :
  size (webdavResponseToFileInfo sampleNow (withLength (JNum 10240)))
    = Num 10240 /\
  size (webdavResponseToFileInfo sampleNow (withLength (JStr (numeral [1; 0; 2]))))
    = Num 102.
Proof.
  split.
  - apply (proj1 (proj2 (size_from_content_length sampleNow
                           (withLength (JNum 10240)))) 10240%Z);
      [unfold Js.maxSafeInteger; lia|reflexivity].
  - apply (proj2 (proj2 (size_from_content_length sampleNow
                           (withLength (JStr (numeral [1; 0; 2])))))
             [1; 0; 2]%nat);
      [discriminate|repeat constructor|reflexivity|].
    change (numeralValue [1; 0; 2]%nat) with 102%Z.
    unfold Js.maxSafeInteger. lia.
Defined.

(** ** Spelling of the element names *)

Lemma dav_spell : forall name,
  dav name = [spell Lower name; spell Upper name; spell Bare name].
Proof. reflexivity. Qed.

Lemma prefixed_not_plain : forall a n name,
  plain name = true ->
  (a = "d"%char \/ a = "D"%char) ->
  (String a (String ":" n) =? name) = false.
Proof.
  intros a n name Hp Ha.
  destruct (String a (String ":" n) =? name) eqn:E; [|reflexivity].
  apply String.eqb_eq in E. subst name.
  destruct Ha as [-> | ->]; discriminate Hp.
Qed.

Lemma spell_eqb : forall s n s' n',
  plain n = true -> plain n' = true ->
  (spell s n =? spell s' n') = (n =? n') && spelling_eqb s s'.
Proof.
  intros s n s' n' Hn Hn'.
  destruct s, s'; cbn [spell spelling_eqb];
    rewrite ?andb_true_r, ?andb_false_r;
    try reflexivity;
    try (cbn; rewrite ?Ascii.eqb_refl; reflexivity).
  - apply prefixed_not_plain; auto.
  - apply prefixed_not_plain; auto.
  - rewrite String.eqb_sym. apply prefixed_not_plain; auto.
  - rewrite String.eqb_sym. apply prefixed_not_plain; auto.
Qed.

Lemma lookup_object : forall children name sp,
  plain name = true ->
  forallb plain (map elementName children) = true ->
  match object children with
  | JObj fields => Js.lookup fields (spell sp name)
  | _ => JUndefined
  end = childSpelled name sp children.
Proof.
  intros children name sp Hname. unfold object.
  induction children as [|[[n s] v] rest IH]; intros Hall; [reflexivity|].
  cbn in Hall. apply andb_true_iff in Hall. destruct Hall as [Hn Hrest].
  cbn [map Js.lookup childSpelled elementName fst snd].
  rewrite (spell_eqb s n sp name Hn Hname).
  destruct ((n =? name) && spelling_eqb s sp); [reflexivity|].
  apply IH. exact Hrest.
Qed.

Lemma childSpelled_absent : forall name sp children,
  existsb (String.eqb name) (map elementName children) = false ->
  childSpelled name sp children = JUndefined.
Proof.
  intros name sp. induction children as [|[[n s] v] rest IH]; intros H;
    [reflexivity|].
  cbn in H. apply orb_false_iff in H. destruct H as [H1 H2].
  cbn [childSpelled elementName fst snd].
  rewrite String.eqb_sym, H1. cbn [andb]. apply IH. exact H2.
Qed.

(** The read of a DAV: name on an element with well-named children finds
    the child of that name, however it is spelled. *)
Lemma getField_object : forall children name,
  plain name = true ->
  wellNamed children = true ->
  getField (object children) (dav name) = Ok (child name children).
Proof.
  intros children name Hname Hwell. unfold wellNamed in Hwell.
  apply andb_true_iff in Hwell. destruct Hwell as [Hall Hdist].
  rewrite dav_spell. cbn [getField].
  pose proof (fun sp => lookup_object children name sp Hname Hall) as Hl.
  unfold object in *. cbn [Js.get rbind].
  rewrite (Hl Lower), (Hl Upper), (Hl Bare). clear Hl.
  induction children as [|[[n s] v] rest IH]; [reflexivity|].
  cbn in Hall, Hdist.
  apply andb_true_iff in Hall. destruct Hall as [_ Hall].
  apply andb_true_iff in Hdist. destruct Hdist as [Hfresh Hdist].
  apply negb_true_iff in Hfresh.
  cbn [childSpelled child elementName fst snd].
  destruct (n =? name) eqn:E.
  - apply String.eqb_eq in E. subst n.
    rewrite !(childSpelled_absent name _ rest Hfresh).
    destruct s, v; reflexivity.
  - cbn [andb]. apply IH; assumption.
Qed.







Lemma get_object : forall children name sp,
  plain name = true ->
  forallb plain (map elementName children) = true ->
  Js.get (object children) (spell sp name) = Ok (childSpelled name sp children).
Proof.
  intros children name sp Hname Hall.
  rewrite <- (lookup_object children name sp Hname Hall). reflexivity.
Qed.

(** [a || b || c] over the three spellings of [name] finds the only child,
    when its content is truthy. *)
Lemma firstTruthy_object : forall name sp v,
  plain name = true ->
  Js.truthy v = true ->
  firstTruthy (object [(name, sp, v)]) (dav name) = Ok v.
Proof.
  intros name sp v Hname Hv.
  assert (Hall : forallb plain (map elementName [(name, sp, v)]) = true).
  { cbn. now rewrite Hname. }
  unfold firstTruthy. rewrite dav_spell. cbn [fold_left rbind Js.truthy].
  rewrite !(get_object _ name _ Hname Hall).
  cbn [childSpelled elementName fst snd]. rewrite String.eqb_refl.
  destruct sp; cbn [andb spelling_eqb rbind Js.truthy];
    repeat (rewrite Hv; cbn [rbind Js.truthy]); reflexivity.
Qed.



(** ** The properties of the selected block *)

Lemma statusOf_blockElement : forall b,
  wellNamed (blockChildren b) = true ->
  statusOf (blockElement b) = statusLine b.
Proof.
  intros b Hw. unfold statusOf, blockElement.
  rewrite getField_object by (reflexivity || exact Hw). reflexivity.
Qed.

Lemma blockElement_statusLine : forall b,
  regularBlock b -> statusLineBlock (blockElement b).
Proof.
  intros b (Hw & _ & Hs). split; [eexists; reflexivity|].
  rewrite (statusOf_blockElement b Hw). exact Hs.
Qed.

Lemma has200_blockElement : forall b,
  regularBlock b -> has200 (blockElement b) = lineHas200 b.
Proof.
  intros b (Hw & _ & _). unfold has200, lineHas200.
  now rewrite (statusOf_blockElement b Hw).
Qed.

Lemma find_blockElement : forall blocks,
  Forall regularBlock blocks ->
  find has200 (map blockElement blocks) =
  option_map blockElement (find lineHas200 blocks).
Proof.
  induction 1 as [|b rest Hb _ IH]; [reflexivity|].
  cbn [map find]. rewrite (has200_blockElement b Hb).
  destruct (lineHas200 b); [reflexivity|exact IH].
Qed.

(** The block selected among the blocks filed under one key. *)
Lemma successPropstat_blocks : forall blocks,
  blocks <> [] ->
  Forall regularBlock blocks ->
  exists sel,
    successPropstat (sequence (map blockElement blocks))
      = Ok (blockElement sel) /\
    ((lineHas200 sel = true /\
      exists pre post, blocks = (pre ++ sel :: post)%list /\
                       Forall (fun b => lineHas200 b = false) pre)
     \/
     (Forall (fun b => lineHas200 b = false) blocks /\
      exists rest, blocks = sel :: rest)).
Proof.
  intros blocks Hne Hall.
  assert (Harr : successPropstat (sequence (map blockElement blocks)) =
    let? found := findSuccess (map blockElement blocks) in
    Ok (Js.or found (first (map blockElement blocks)))).
  { destruct blocks as [|b [|b' rest]]; [now elim Hne| |reflexivity].
    reflexivity. }
  rewrite Harr. clear Harr.
  rewrite findSuccess_find
    by (apply Forall_map; revert Hall; apply Forall_impl;
        exact blockElement_statusLine).
  rewrite (find_blockElement blocks Hall). cbn [rbind].
  destruct (find lineHas200 blocks) as [b|] eqn:E.
  - destruct (find_first _ _ _ _ E) as (Hb & pre & post & Hsplit & Hpre).
    exists b. split; [reflexivity|].
    left. split; [exact Hb|]. exists pre, post. auto.
  - destruct blocks as [|b rest]; [now elim Hne|].
    exists b. split; [reflexivity|].
    right. split; [apply find_nowhere; exact E|].
    exists rest. reflexivity.
Qed.

(** The properties of a block, read as [normalizeWebDAVResponse] reads
    them. *)
Lemma normalize_block : forall response h d b,
  getField response (dav "href") = Ok h ->
  Uri.decodeURIComponent (Js.toString (Js.or h (JStr ""))) = Ok d ->
  regularBlock b ->
  forall propstat,
    getField response (dav "propstat") = Ok propstat ->
    successPropstat propstat = Ok (blockElement b) ->
    normalizeWebDAVResponse response = Ok (blockRecord d b).
Proof.
  intros response h d b Hh Hd (Hw & Hwell & _) propstat Hps Hsel.
  unfold normalizeWebDAVResponse.
  rewrite Hh, Hps. cbn [rbind]. rewrite Hsel. cbn [rbind].
  unfold blockElement.
  rewrite !(getField_object (blockChildren b)) by (reflexivity || exact Hw).
  cbn [rbind].
  change (child "prop" (blockChildren b)) with (object (b_properties b)).
  change (child "status" (blockChildren b)) with (statusLine b).
  change (Js.or (object (b_properties b)) (JObj []))
    with (object (b_properties b)).
  rewrite Hd. cbn [rbind].
  rewrite !(getField_object (b_properties b)) by (reflexivity || exact Hwell).
  reflexivity.
Qed.

(** C6, as stated, fails when the blocks of a record are spelled
    differently: the parser files them under different keys, only the
    block under the first key that is present is looked at, and the
    properties are read from the 404 block although the record has a block
    whose status line contains "200". *)
Lemma propstat_spellings_not_merged :
  Js.get splitPropstat "D:propstat" = Ok foundBlock /\
  has200 foundBlock = true /\
  normalizeWebDAVResponse splitPropstat
    = Ok (blockRecord "/docs/report.pdf" missingProperties) /\
  status (blockRecord "/docs/report.pdf" missingProperties)
    = JStr "HTTP/1.1 404 Not Found" /\
  size (webdavResponseToFileInfo sampleNow
          (blockRecord "/docs/report.pdf" missingProperties)) = Num 0 /\
  normalizeWebDAVResponse joinedPropstat
    = Ok (blockRecord "/docs/report.pdf" foundProperties) /\
  size (webdavResponseToFileInfo sampleNow
          (blockRecord "/docs/report.pdf" foundProperties)) = Num 10240.
Proof. repeat split. Qed.

(** C6, amended.  For a record whose property-status blocks are spelled
    alike, so that the parser files them under one key, the block the
    properties are read from is the first block whose status line
    contains "200"; when no block has such a status line it is the first
    block.  The normalized record holds the properties of that block:
    every property is the content of the child of that name of its [prop]
    element, and the status is its status line. *)
Theorem propstat_block_selection :
  forall response h d blocks,
    getField response (dav "href") = Ok h ->
    Uri.decodeURIComponent (Js.toString (Js.or h (JStr ""))) = Ok d ->
    getField response (dav "propstat")
      = Ok (sequence (map blockElement blocks)) ->
    blocks <> [] ->
    Forall regularBlock blocks ->
    exists sel,
      ((lineHas200 sel = true /\
        exists pre post, blocks = (pre ++ sel :: post)%list /\
                         Forall (fun b => lineHas200 b = false) pre)
       \/
       (Forall (fun b => lineHas200 b = false) blocks /\
        exists rest, blocks = sel :: rest)) /\
      normalizeWebDAVResponse response = Ok (blockRecord d sel).
Proof.
  intros response h d blocks Hh Hd Hps Hne Hall.
  destruct (successPropstat_blocks blocks Hne Hall) as (sel & Hsel & Hwhich).
  exists sel. split; [exact Hwhich|].
  assert (Hin : In sel blocks).
  { destruct Hwhich as [(_ & pre & post & -> & _) | (_ & rest & ->)].
    - apply in_or_app. right. left. reflexivity.
    - left. reflexivity. }
  apply (normalize_block response h d sel Hh Hd
           (proj1 (Forall_forall _ _) Hall sel Hin) _ Hps Hsel).
Qed.

Lemma propstat_block_selection_witness :
  exists sel,
    ((lineHas200 sel = true /\
      exists pre post,
        [missingProperties; foundProperties] = (pre ++ sel :: post)%list /\
        Forall (fun b => lineHas200 b = false) pre)
     \/
     (Forall (fun b => lineHas200 b = false)
             [missingProperties; foundProperties] /\
      exists rest, [missingProperties; foundProperties] = sel :: rest)) /\
    normalizeWebDAVResponse joinedPropstat
      = Ok (blockRecord "/docs/report.pdf" sel).
Proof.
  apply (propstat_block_selection joinedPropstat (JStr "/docs/report.pdf")
           "/docs/report.pdf" [missingProperties; foundProperties]);
    try reflexivity; [discriminate|].
  constructor; [|constructor; [|constructor]];
    (split; [reflexivity|split; [reflexivity|right; eexists; reflexivity]]).
Defined.

(* ================================================================== *)
(** * Further properties of the client and of the node *)

(** ** Error classification *)

Lemma prefix_app : forall a b, String.prefix a (a ++ b) = true.
Proof.
  induction a as [|c a IH]; intros b; [now destruct b|].
  cbn. destruct (ascii_dec c c) as [_|n]; [apply IH|now elim n].
Qed.

Lemma startsWith_context : forall c d,
  Str.startsWith (c ++ ": " ++ d) (c ++ ": ") = true.
Proof.
  intros c d. unfold Str.startsWith.
  induction c as [|a c IH]; [now destruct d|].
  cbn. destruct (ascii_dec a a) as [_|n]; [exact IH|now elim n].
Qed.

(** X1.  [handleError] always throws a [WebDAVError] whose message begins
    with the context.  The status code and text are those of the response
    of the Axios error, and are absent for every other error, whose own
    message follows the context.  For the eight statuses that have a
    message of their own the message does not depend on the one of the
    HTTP library; for every other status that message follows the
    context. *)
Theorem handleError_classification :
  forall (A : Type) (error : exn) (context : string) (log : list request),
    exists e,
      @handleError A error context log = (Throw (WebDAVErr e), log) /\
      Str.startsWith (message e) (context ++ ": ") = true /\
      (forall msg st tx,
         error = AxiosError msg (Some (st, tx)) ->
         statusCode e = Some st /\ statusText e = Some tx /\
         (In st classified ->
          forall msg',
            @handleError A (AxiosError msg' (Some (st, tx))) context log
              = (Throw (WebDAVErr e), log)) /\
         (~ In st classified -> message e = context ++ ": " ++ msg)) /\
      ((forall msg st tx, error <> AxiosError msg (Some (st, tx))) ->
       statusCode e = None /\ statusText e = None /\
       message e = context ++ ": " ++ exn_message error).
Proof.
  intros A error context log.
  destruct error as [n m | m [[st tx]|] | w | m];
    (eexists; split; [reflexivity|]; split; [apply startsWith_context|]).
  - split; [discriminate|]. intros _. repeat split.
  - split.
    + intros msg st0 tx0 H. injection H as -> -> ->.
      split; [reflexivity|]. split; [reflexivity|]. split.
      * intros Hin msg'. unfold classified in Hin. cbn in Hin.
        repeat (destruct Hin as [<- | Hin]; [reflexivity|]). now elim Hin.
      * intros Hn. unfold classified in Hn. cbn in Hn. cbn.
        destruct st0 as [|q|q]; try reflexivity.
        repeat (destruct q as [q|q|]; try reflexivity);
          exfalso; apply Hn; tauto.
    + intros H. now elim (H m st tx).
  - split; [discriminate|]. intros _. repeat split.
  - split; [discriminate|]. intros _. repeat split.
  - split; [discriminate|]. intros _. repeat split.
Qed.

Lemma send_rejected_status : forall network req log st tx body,
  method req <> HEAD ->
  network log req = Response st tx body ->
  is2xx st = false ->
  exceeds (data req) (maxBodyLength req) = false ->
  exceeds (Buffered body) (maxContentLength req) = false ->
  send network req log =
  (Throw (AxiosError ("Request failed with status code " ++ Js.numToString st)
            (Some (st, tx))),
   (log ++ [req])%list).
Proof.
  intros network req log st tx body Hm Hr Hs Hb Hc.
  unfold send. rewrite Hb, Hr.
  destruct (method req); try (now elim Hm); cbv zeta; rewrite Hc, Hs;
    reflexivity.
Qed.

Lemma send_accepted : forall network req log st tx body,
  method req <> HEAD ->
  network log req = Response st tx body ->
  is2xx st = true ->
  exceeds (data req) (maxBodyLength req) = false ->
  exceeds (Buffered body) (maxContentLength req) = false ->
  send network req log =
  (Ok {| resp_status := st; resp_statusText := tx; resp_data := body |},
   (log ++ [req])%list).
Proof.
  intros network req log st tx body Hm Hr Hs Hb Hc.
  unfold send. rewrite Hb, Hr.
  destruct (method req); try (now elim Hm); cbv zeta; rewrite Hc, Hs;
    reflexivity.
Qed.

Lemma send_failed : forall network req log e,
  network log req = Failure e ->
  exceeds (data req) (maxBodyLength req) = false ->
  send network req log = (Throw e, (log ++ [req])%list).
Proof.
  intros network req log e Hr Hb. unfold send. rewrite Hb, Hr. reflexivity.
Qed.

Ltac surface_status :=
  let log := fresh "log" in
  let st := fresh "st" in
  let tx := fresh "tx" in
  let body := fresh "body" in
  let Hr := fresh "Hr" in
  let Hs := fresh "Hs" in
  let Hb := fresh "Hb" in
  let Hc := fresh "Hc" in
  intros log st tx body Hr Hs Hb Hc;
  unfold createDirectory, deleteFile, getFileContents, getFileStream,
    putFileContents, putFileStream, moveFile, copyFile, stat,
    getDirectoryContents;
  unfold tryM, bind, lift; cbn [notOverwrite ret];
  match goal with
  | |- context [send ?n ?r log] =>
      rewrite (send_rejected_status n r log st tx body
                 ltac:(discriminate) Hr Hs Hb Hc)
  end;
  cbn; eexists; split; [reflexivity|split; reflexivity].

(** X2.  Every operation other than [exists] raises the failure status of
    the server: when the request of the operation is answered with a status
    outside 2xx, the operation throws a [WebDAVError] carrying that status
    and status text, and that request is the only one transmitted. *)
Theorem operations_surface_status :
  forall network xmlParse now newURL client path destination bytes format
         deep overwrite,
    surfacesStatus network (axiosRequest client MKCOL path [] NoBody)
      (createDirectory network client path) /\
    surfacesStatus network (axiosRequest client DELETE path [] NoBody)
      (deleteFile network client path) /\
    surfacesStatus network (axiosRequest client GET path [] NoBody)
      (getFileContents network client path format) /\
    surfacesStatus network (axiosRequest client GET path [] NoBody)
      (getFileStream network client path) /\
    surfacesStatus network (putRequest client path bytes)
      (putFileContents network client path bytes (Some true)) /\
    surfacesStatus network (streamRequest path bytes)
      (putFileStream network client path bytes (Some true)) /\
    surfacesStatus network
      (transferRequest newURL client MOVE path destination overwrite)
      (moveFile network newURL client path destination overwrite) /\
    surfacesStatus network
      (transferRequest newURL client COPY path destination overwrite)
      (copyFile network newURL client path destination overwrite) /\
    surfacesStatus network (propfind client path "0")
      (stat network xmlParse now client path) /\
    surfacesStatus network
      (propfind client (normalizePath path) (depthOf deep))
      (getDirectoryContents network xmlParse now client path deep).
Proof.
  intros network xmlParse now newURL client path destination bytes format
         deep overwrite.
  repeat split; try surface_status.
Qed.

Lemma operations_surface_status_witness :
  exists e,
    stat (answering 404 "Not Found") (fun _ => Ok JUndefined) sampleNow
        sampleClient "/missing.txt" []
      = (Throw (WebDAVErr e), [propfind sampleClient "/missing.txt" "0"]) /\
    statusCode e = Some 404%Z /\
    statusText e = Some "Not Found".
Proof.
  destruct (operations_surface_status (answering 404 "Not Found")
              (fun _ => Ok JUndefined) sampleNow sampleURL sampleClient
              "/missing.txt" "" "" None None None)
    as (_ & _ & _ & _ & _ & _ & _ & _ & H & _).
  exact (H [] 404%Z "Not Found" "" eq_refl eq_refl eq_refl eq_refl).
Defined.

Ltac report_failure :=
  let log := fresh "log" in
  let msg := fresh "msg" in
  let Hr := fresh "Hr" in
  let Hb := fresh "Hb" in
  intros log msg Hr Hb;
  unfold createDirectory, deleteFile, getFileContents, getFileStream,
    putFileContents, putFileStream, moveFile, copyFile, stat,
    getDirectoryContents;
  unfold tryM, bind, lift; cbn [notOverwrite ret];
  match goal with
  | |- context [send ?n ?r log] =>
      rewrite (send_failed n r log _ Hr Hb)
  end;
  reflexivity.

(** X3.  When no response comes back for the request of an operation, the
    operation throws a [WebDAVError] that has no status code and whose
    message is the context of the operation followed by the message of the
    HTTP library. *)
Theorem operations_report_failure :
  forall network xmlParse now newURL client path destination bytes format
         deep overwrite,
    reportsFailure network (axiosRequest client MKCOL path [] NoBody)
      "Не удалось создать директорию"
      (createDirectory network client path) /\
    reportsFailure network (axiosRequest client DELETE path [] NoBody)
      "Не удалось удалить файл или папку"
      (deleteFile network client path) /\
    reportsFailure network (axiosRequest client GET path [] NoBody)
      "Не удалось получить содержимое файла"
      (getFileContents network client path format) /\
    reportsFailure network (axiosRequest client GET path [] NoBody)
      "Не удалось получить поток файла"
      (getFileStream network client path) /\
    reportsFailure network (putRequest client path bytes)
      "Не удалось загрузить содержимое файла"
      (putFileContents network client path bytes (Some true)) /\
    reportsFailure network (streamRequest path bytes)
      "Не удалось загрузить поток файла"
      (putFileStream network client path bytes (Some true)) /\
    reportsFailure network
      (transferRequest newURL client MOVE path destination overwrite)
      "Не удалось переместить файл"
      (moveFile network newURL client path destination overwrite) /\
    reportsFailure network
      (transferRequest newURL client COPY path destination overwrite)
      "Не удалось скопировать файл"
      (copyFile network newURL client path destination overwrite) /\
    reportsFailure network (propfind client path "0")
      "Не удалось получить информацию о файле"
      (stat network xmlParse now client path) /\
    reportsFailure network
      (propfind client (normalizePath path) (depthOf deep))
      "Не удалось получить содержимое директории"
      (getDirectoryContents network xmlParse now client path deep).
Proof.
  intros network xmlParse now newURL client path destination bytes format
         deep overwrite.
  repeat split; report_failure.
Qed.

Lemma operations_report_failure_witness :
  deleteFile (fun _ _ => Failure (AxiosError "connect ECONNREFUSED" None))
      sampleClient "/docs/report.pdf" []
    = (Throw (WebDAVErr
         {| message := "Не удалось удалить файл или папку: connect ECONNREFUSED";
            statusCode := None;
            statusText := None |}),
       [axiosRequest sampleClient DELETE "/docs/report.pdf" [] NoBody]).
Proof.
  destruct (operations_report_failure
              (fun _ _ => Failure (AxiosError "connect ECONNREFUSED" None))
              (fun _ => Ok JUndefined) sampleNow sampleURL sampleClient
              "/docs/report.pdf" "" "" None None None)
    as (_ & H & _).
  exact (H [] "connect ECONNREFUSED" eq_refl eq_refl).
Defined.

(** ** The requests of an upload *)

Lemma send_transmits : forall network req log,
  exceeds (data req) (maxBodyLength req) = false ->
  exists r, send network req log = (r, (log ++ [req])%list).
Proof.
  intros network req log Hb. unfold send. rewrite Hb.
  destruct (network log req) as [st tx body | e]; [|eexists; reflexivity].
  cbv zeta.
  destruct (exceeds (Buffered match method req with HEAD => "" | _ => body end)
              (maxContentLength req)); [eexists; reflexivity|].
  destruct (is2xx st); eexists; reflexivity.
Qed.

(** X4.  For a body within the configured ceiling: with [overwrite: true]
    [putFileContents] transmits its PUT request and nothing else, and
    succeeds when the server accepts it; leaving [overwrite] out is the same
    as [overwrite: false]; and with [overwrite: false], whenever the
    existence check answers [false] (a 404, any other failure status or no
    response at all), the HEAD request is followed by the PUT request. *)
Theorem upload_request_sequence :
  forall network client filePath bytes log,
    exceeds (Buffered bytes) (cfg_maxBodyLength client) = false ->
    (exists r,
       putFileContents network client filePath bytes (Some true) log
         = (r, (log ++ [putRequest client filePath bytes])%list)) /\
    (forall st tx body,
       network log (putRequest client filePath bytes) = Response st tx body ->
       is2xx st = true ->
       exceeds (Buffered body) (cfg_maxContentLength client) = false ->
       putFileContents network client filePath bytes (Some true) log
         = (Ok tt, (log ++ [putRequest client filePath bytes])%list)) /\
    putFileContents network client filePath bytes None log
      = putFileContents network client filePath bytes (Some false) log /\
    (existsAnswer (network log (headRequest client filePath)) = false ->
     exists r,
       putFileContents network client filePath bytes (Some false) log
         = (r, (log ++ [headRequest client filePath;
                        putRequest client filePath bytes])%list)).
Proof.
  intros network client filePath bytes log Hb.
  assert (Hput : forall l,
    exists r,
      tryM (send network (putRequest client filePath bytes) ;;; ret tt)
           (rethrowOrHandle "Не удалось загрузить содержимое файла") l
      = (r, (l ++ [putRequest client filePath bytes])%list)).
  { intros l. unfold tryM, bind.
    destruct (send_transmits network (putRequest client filePath bytes) l Hb)
      as [[resp|e] ->].
    - eexists. reflexivity.
    - destruct (rethrowOrHandle_throws unit
                  "Не удалось загрузить содержимое файла" e
                  (l ++ [putRequest client filePath bytes])%list) as [w ->].
      eexists. reflexivity. }
  split; [|split; [|split]].
  - unfold putFileContents. cbn [notOverwrite].
    destruct (Hput log) as [r Hr]. exists r. rewrite <- Hr. reflexivity.
  - intros st tx body Hr Hs Hc.
    unfold putFileContents, tryM, bind. cbn [notOverwrite ret].
    fold (putRequest client filePath bytes).
    rewrite (send_accepted network (putRequest client filePath bytes) log
               st tx body ltac:(discriminate) Hr Hs Hb Hc).
    reflexivity.
  - reflexivity.
  - intros Hx. unfold putFileContents, tryM, bind. cbn [notOverwrite].
    rewrite exists_run, Hx. cbn [ret].
    fold (putRequest client filePath bytes).
    destruct (Hput (log ++ [headRequest client filePath])%list) as [r Hr].
    unfold tryM, bind in Hr.
    exists r. rewrite <- app_assoc in Hr. cbn [app] in Hr.
    rewrite <- Hr. reflexivity.
Qed.

Lemma upload_request_sequence_witness :
  exists r,
    putFileContents emptyServer sampleClient "/new.txt" "payload" (Some false) []
      = (r, [headRequest sampleClient "/new.txt";
             putRequest sampleClient "/new.txt" "payload"]).
Proof.
  destruct (upload_request_sequence emptyServer sampleClient "/new.txt"
              "payload" [] eq_refl) as (_ & _ & _ & H).
  exact (H eq_refl).
Defined.

(** ** Destination URLs *)

Lemma endsWith_app_slash : forall s, Str.endsWith (s ++ "/") "/" = true.
Proof.
  induction s as [|c r IH]; [reflexivity|].
  change (String c r ++ "/") with (String c (r ++ "/")).
  cbn [Str.endsWith]. rewrite IH. apply orb_true_r.
Qed.

Lemma stripTrailingSlash_app : forall s, Str.stripTrailingSlash (s ++ "/") = s.
Proof.
  intros s. unfold Str.stripTrailingSlash.
  rewrite endsWith_app_slash. apply slice_app_slash.
Qed.

Lemma stripLeadingSlash_none : forall p,
  Str.startsWith p "/" = false -> Str.stripLeadingSlash p = p.
Proof.
  intros [|c r] H; [reflexivity|].
  destruct c as [[] [] [] [] [] [] [] []]; try reflexivity.
  unfold Str.startsWith in H. cbn in H. now destruct r.
Qed.

(** X5.  [createAbsoluteUrl] returns a destination that begins with
    [http://] or [https://] unchanged, whatever the base URL.  When the
    [URL] constructor refuses the destination, the base URL and the
    destination are joined by exactly one separator, whether or not the
    base ends with one and the destination begins with one. *)
Theorem createAbsoluteUrl_join :
  forall newURL client,
    (forall path,
       Str.startsWith path "http://" = true \/
       Str.startsWith path "https://" = true ->
       createAbsoluteUrl newURL client path = path) /\
    (forall b p path,
       (baseURL client = b \/ baseURL client = b ++ "/") ->
       Str.endsWith b "/" = false ->
       (path = p \/ path = "/" ++ p) ->
       Str.startsWith p "/" = false ->
       Str.startsWith p "http://" = false ->
       Str.startsWith p "https://" = false ->
       newURL path (baseURL client) = None ->
       createAbsoluteUrl newURL client path = b ++ "/" ++ p).
Proof.
  intros newURL client. split.
  - intros path [H|H]; unfold createAbsoluteUrl; rewrite H;
      [reflexivity|now rewrite orb_true_r].
  - intros b p path Hbase Hb Hpath Hp H1 H2 Hurl.
    unfold createAbsoluteUrl. rewrite Hurl.
    assert (Hstrip : Str.stripTrailingSlash (baseURL client) = b).
    { destruct Hbase as [-> | ->]; [|apply stripTrailingSlash_app].
      unfold Str.stripTrailingSlash. now rewrite Hb. }
    rewrite Hstrip.
    destruct Hpath as [-> | ->].
    + rewrite H1, H2. cbn [orb].
      now rewrite (stripLeadingSlash_none p Hp).
    + reflexivity.
Qed.

Lemma createAbsoluteUrl_join_witness :
  createAbsoluteUrl (fun _ _ => None)
      (createClient "webdav.example.com/dav/"
         {| opt_maxBodyLength := None; opt_maxContentLength := None |})
      "/docs/a.txt"
    = "webdav.example.com/dav" ++ "/" ++ "docs/a.txt".
Proof.
  apply (proj2 (createAbsoluteUrl_join (fun _ _ => None)
                  (createClient "webdav.example.com/dav/"
                     {| opt_maxBodyLength := None;
                        opt_maxContentLength := None |}))
           "webdav.example.com/dav" "docs/a.txt" "/docs/a.txt");
    try reflexivity; right; reflexivity.
Defined.

(** ** The path of a listing *)

Lemma isSelf_separator : forall d h,
  isSelf (d ++ "/") (d ++ "/") h = isSelf d (d ++ "/") h.
Proof.
  intros d h. unfold isSelf. rewrite slice_app_slash.
  destruct (h =? d ++ "/"), (h =? d), (h ++ "/" =? d ++ "/"); reflexivity.
Qed.

Lemma collect_separator : forall now d records,
  collect now (d ++ "/") (d ++ "/") records = collect now d (d ++ "/") records.
Proof.
  intros now d. induction records as [|r rest IH]; [reflexivity|].
  cbn [collect]. rewrite isSelf_separator, IH. reflexivity.
Qed.

(** X6.  The path a listing is requested for always ends with a
    separator, and normalizing it twice changes nothing more; listing a
    directory given with its trailing separator transmits the same request
    and returns the same result as listing it given without. *)
Theorem listing_path_normalization :
  forall network xmlParse now client dirPath deep log,
    Str.endsWith (normalizePath dirPath) "/" = true /\
    normalizePath (normalizePath dirPath) = normalizePath dirPath /\
    (Str.endsWith dirPath "/" = false ->
     getDirectoryContents network xmlParse now client (dirPath ++ "/") deep log
       = getDirectoryContents network xmlParse now client dirPath deep log).
Proof.
  intros network xmlParse now client dirPath deep log.
  assert (H1 : Str.endsWith (normalizePath dirPath) "/" = true).
  { unfold normalizePath. destruct (Str.endsWith dirPath "/") eqn:E;
      [exact E|apply endsWith_app_slash]. }
  split; [exact H1|]. split.
  - unfold normalizePath at 1. now rewrite H1.
  - intros Hd. unfold getDirectoryContents, normalizePath.
    rewrite endsWith_app_slash, Hd. cbn [negb].
    unfold tryM, bind, lift.
    destruct (send network _ log) as [[resp|e] l1]; [|reflexivity].
    destruct (parseWebDAVResponse xmlParse (resp_data resp)); [|reflexivity].
    cbn [ret]. now rewrite collect_separator.
Qed.

Lemma listing_path_normalization_witness :
  getDirectoryContents (multistatusServer "") (fun _ => Ok emptyMultistatus)
      sampleNow sampleClient ("/photos" ++ "/") (Some true) []
    = getDirectoryContents (multistatusServer "")
        (fun _ => Ok emptyMultistatus) sampleNow sampleClient "/photos"
        (Some true) [].
Proof.
  apply (proj2 (proj2 (listing_path_normalization (multistatusServer "")
                         (fun _ => Ok emptyMultistatus) sampleNow sampleClient
                         "/photos" (Some true) []))).
  reflexivity.
Defined.

(** X7.  When the PROPFIND body is within the configured ceiling, [stat]
    and [getDirectoryContents] each transmit exactly one request, whatever
    the server answers and whatever the parsing gives: a PROPFIND carrying
    the fixed body, with [Depth: 0] for [stat] and, for a listing, [Depth:
    infinity] when [deep] is true and [Depth: 1] otherwise. *)
Theorem propfind_single_request :
  forall network xmlParse now client path deep log,
    exceeds (Buffered propfindBody) (cfg_maxBodyLength client) = false ->
    (exists r,
       stat network xmlParse now client path log
         = (r, (log ++ [propfind client path "0"])%list)) /\
    (exists r,
       getDirectoryContents network xmlParse now client path deep log
         = (r, (log ++ [propfind client (normalizePath path)
                          (depthOf deep)])%list)) /\
    (depthOf deep = "infinity" <-> deep = Some true) /\
    (depthOf deep = "1" <-> deep <> Some true) /\
    (forall url depth,
       method (propfind client url depth) = PROPFIND /\
       header "Depth" (headers (propfind client url depth)) = Some depth /\
       data (propfind client url depth) = Buffered propfindBody).
Proof.
  intros network xmlParse now client path deep log Hb.
  split; [|split; [|split; [|split]]].
  - unfold stat, tryM, bind, lift.
    destruct (send_transmits network (propfind client path "0") log Hb)
      as [[resp|e] ->].
    + destruct (parseWebDAVResponse xmlParse (resp_data resp))
        as [[|r rest]|e] eqn:Hp.
      * eexists. reflexivity.
      * eexists. reflexivity.
      * destruct (parse_throws_parse_error _ _ _ Hp) as [cause ->].
        eexists. reflexivity.
    + destruct (rethrowOrHandle_throws FileInfo
                  "Не удалось получить информацию о файле" e
                  (log ++ [propfind client path "0"])%list) as [w ->].
      eexists. reflexivity.
  - unfold getDirectoryContents, tryM, bind, lift. fold (depthOf deep).
    destruct (send_transmits network
                (propfind client (normalizePath path) (depthOf deep)) log Hb)
      as [[resp|e] ->].
    + destruct (parseWebDAVResponse xmlParse (resp_data resp))
        as [records|e] eqn:Hp.
      * eexists. reflexivity.
      * destruct (parse_throws_parse_error _ _ _ Hp) as [cause ->].
        eexists. reflexivity.
    + destruct (rethrowOrHandle_throws (list FileInfo)
                  "Не удалось получить содержимое директории" e
                  (log ++ [propfind client (normalizePath path)
                             (depthOf deep)])%list) as [w ->].
      eexists. reflexivity.
  - destruct deep as [[|]|]; cbn; split; congruence.
  - destruct deep as [[|]|]; cbn; split; congruence.
  - intros url depth. repeat split.
Qed.

Lemma propfind_single_request_witness :
  exists r,
    stat (answering 500 "Internal Server Error") (fun _ => Ok JUndefined)
        sampleNow sampleClient "/docs/report.pdf" []
      = (r, [propfind sampleClient "/docs/report.pdf" "0"]).
Proof.
  exact (proj1 (propfind_single_request (answering 500 "Internal Server Error")
                  (fun _ => Ok JUndefined) sampleNow sampleClient
                  "/docs/report.pdf" None [] eq_refl)).
Defined.

(** ** Failures of the parsing *)

Lemma rmap_fails : forall (A B : Type) (f : A -> result B) l x e,
  In x l -> f x = Throw e -> exists e', rmap f l = Throw e'.
Proof.
  intros A B f. induction l as [|a l IH]; intros x e Hin Hx; [now elim Hin|].
  cbn [rmap]. destruct (f a) as [b|e0] eqn:Ea; [|eexists; reflexivity].
  destruct Hin as [-> | Hin]; [congruence|].
  destruct (IH x e Hin Hx) as [e' ->]. eexists. reflexivity.
Qed.

Lemma normalize_without_propstat : forall fields,
  (forall key, In key (dav "propstat") -> Js.lookup fields key = JUndefined) ->
  exists msg,
    normalizeWebDAVResponse (JObj fields) = Throw (NativeError "TypeError" msg).
Proof.
  intros fields H. unfold normalizeWebDAVResponse.
  destruct (getField_obj fields (dav "href")) as [h ->]. cbn [rbind].
  unfold dav at 1. cbn [getField Js.get rbind].
  rewrite !H by (cbn; auto). cbn. eexists. reflexivity.
Qed.

(** X8.  Every failure of [parseWebDAVResponse] is a [WebDAVError] without
    status whose message begins with the parsing prefix: an exception of the
    XML parser keeps its message behind the prefix, and a document without a
    truthy multistatus root under any of the three spellings is reported as
    "Неверный формат WebDAV ответа". *)
Theorem parse_failure_shape :
  forall xmlParse xmlData,
    (forall e, parseWebDAVResponse xmlParse xmlData = Throw e ->
               isParseError e) /\
    (forall e,
       xmlParse xmlData = Throw e ->
       parseWebDAVResponse xmlParse xmlData =
       Throw (WebDAVErr
                {| message := "Ошибка парсинга XML: " ++ exn_message e;
                   statusCode := None;
                   statusText := None |})) /\
    (forall fields,
       xmlParse xmlData = Ok (JObj fields) ->
       (forall key, In key (dav "multistatus") ->
                    Js.truthy (Js.lookup fields key) = false) ->
       parseWebDAVResponse xmlParse xmlData =
       Throw (WebDAVErr
                {| message :=
                     "Ошибка парсинга XML: Неверный формат WebDAV ответа";
                   statusCode := None;
                   statusText := None |})).
Proof.
  intros xmlParse xmlData. split; [|split].
  - apply parse_throws_parse_error.
  - intros e H. unfold parseWebDAVResponse. rewrite H. reflexivity.
  - intros fields H Hroot. unfold parseWebDAVResponse. rewrite H.
    cbn [rbind]. unfold firstTruthy, dav.
    cbn [fold_left rbind Js.truthy Js.get].
    rewrite !Hroot by (cbn; auto). cbn [rbind].
    rewrite !Hroot by (cbn; auto). cbn [rbind].
    rewrite !Hroot by (cbn; auto). reflexivity.
Qed.

Lemma parse_failure_shape_witness :
  parseWebDAVResponse (fun _ => Ok (JObj [("html", JStr "Not a DAV server")])) ""
    = Throw (WebDAVErr
               {| message :=
                    "Ошибка парсинга XML: Неверный формат WebDAV ответа";
                  statusCode := None;
                  statusText := None |}).
Proof.
  apply (proj2 (proj2 (parse_failure_shape
                         (fun _ => Ok (JObj [("html", JStr "Not a DAV server")]))
                         "")) [("html", JStr "Not a DAV server")] eq_refl).
  intros key [<-|[<-|[<-|[]]]]; reflexivity.
Defined.

(** X9.  A lone response element, which the XML parser does not wrap in an
    array, is parsed as the one-element sequence: the result is the same as
    for the document in which the same element is the only member of an
    array. *)
Theorem parse_lone_response :
  forall xmlParse lone wrapped p1 p2 m1 m2 response,
    xmlParse lone = Ok p1 ->
    xmlParse wrapped = Ok p2 ->
    firstTruthy p1 (dav "multistatus") = Ok m1 ->
    firstTruthy p2 (dav "multistatus") = Ok m2 ->
    Js.truthy m1 = true ->
    Js.truthy m2 = true ->
    firstTruthy m1 (dav "response") = Ok response ->
    firstTruthy m2 (dav "response") = Ok (JArr [response]) ->
    (forall items, response <> JArr items) ->
    parseWebDAVResponse xmlParse lone = parseWebDAVResponse xmlParse wrapped.
Proof.
  intros xmlParse lone wrapped p1 p2 m1 m2 response
         H1 H2 Hm1 Hm2 Ht1 Ht2 Hr1 Hr2 Hna.
  unfold parseWebDAVResponse.
  rewrite H1, H2. cbn [rbind]. rewrite Hm1, Hm2. cbn [rbind].
  rewrite Ht1, Ht2. cbn [negb]. rewrite Hr1, Hr2. cbn [rbind].
  destruct response; try reflexivity. now elim (Hna items).
Qed.

Lemma parse_lone_response_witness :
  parseWebDAVResponse
    (fun data =>
       if data =? "lone"
       then Ok (JObj [("d:multistatus",
                       JObj [("d:response",
                              responseElement (uniform Lower, report))])])
       else Ok (JObj [("d:multistatus",
                       JObj [("d:response",
                              JArr [responseElement (uniform Lower, report)])])]))
    "lone"
  = parseWebDAVResponse
      (fun data =>
         if data =? "lone"
         then Ok (JObj [("d:multistatus",
                         JObj [("d:response",
                                responseElement (uniform Lower, report))])])
         else Ok (JObj [("d:multistatus",
                         JObj [("d:response",
                                JArr [responseElement (uniform Lower, report)])])]))
      "wrapped".
Proof.
  eapply parse_lone_response; try reflexivity.
  intros items. discriminate.
Defined.

(** X10.  The parsing gives all the records or none: when one response
    element of the sequence cannot be normalized, the whole parsing fails
    with the parse error.  A response element without a property-status
    block under any spelling is such an element. *)
Theorem parse_all_or_nothing :
  forall xmlParse xmlData parsed multistatus items,
    xmlParse xmlData = Ok parsed ->
    firstTruthy parsed (dav "multistatus") = Ok multistatus ->
    Js.truthy multistatus = true ->
    firstTruthy multistatus (dav "response") = Ok (JArr items) ->
    (forall x e,
       In x items -> normalizeWebDAVResponse x = Throw e ->
       exists e', parseWebDAVResponse xmlParse xmlData = Throw e' /\
                  isParseError e') /\
    (forall fields,
       In (JObj fields) items ->
       (forall key, In key (dav "propstat") ->
                    Js.lookup fields key = JUndefined) ->
       exists e', parseWebDAVResponse xmlParse xmlData = Throw e' /\
                  isParseError e').
Proof.
  intros xmlParse xmlData parsed multistatus items Hp Hm Ht Hr.
  assert (Hfail : forall x e,
    In x items -> normalizeWebDAVResponse x = Throw e ->
    exists e', parseWebDAVResponse xmlParse xmlData = Throw e' /\
               isParseError e').
  { intros x e Hin Hx.
    destruct (rmap_fails _ _ normalizeWebDAVResponse items x e Hin Hx)
      as [e0 He0].
    assert (Hrun : exists e', parseWebDAVResponse xmlParse xmlData = Throw e').
    { unfold parseWebDAVResponse. rewrite Hp. cbn [rbind].
      rewrite Hm. cbn [rbind]. rewrite Ht. cbn [negb].
      rewrite Hr. cbn [rbind]. rewrite He0. eexists. reflexivity. }
    destruct Hrun as [e' He']. exists e'. split; [exact He'|].
    exact (parse_throws_parse_error _ _ _ He'). }
  split; [exact Hfail|].
  intros fields Hin Hnone.
  destruct (normalize_without_propstat fields Hnone) as [msg Hmsg].
  exact (Hfail _ _ Hin Hmsg).
Qed.

Lemma parse_all_or_nothing_witness :
  exists e',
    parseWebDAVResponse
      (fun _ => Ok (JObj [("multistatus",
                           JObj [("response",
                                  JArr [responseElement (uniform Bare, report);
                                        JObj [("href", JStr "/broken")]])])]))
      "" = Throw e' /\
    isParseError e'.
Proof.
  eapply (proj2 (parse_all_or_nothing
                   (fun _ => Ok (JObj [("multistatus",
                        JObj [("response",
                               JArr [responseElement (uniform Bare, report);
                                     JObj [("href", JStr "/broken")]])])]))
                   "" _ _ _ eq_refl eq_refl eq_refl eq_refl)
            [("href", JStr "/broken")]).
  - right. left. reflexivity.
  - intros key [<-|[<-|[<-|[]]]]; reflexivity.
Defined.

(** ** Defaults of the normalization *)

Lemma tokens_plain : forall s,
  without "%" s = true ->
  Uri.tokens s = Some (map Uri.Lit (list_ascii_of_string s)).
Proof.
  induction s as [|c r IH]; intros H; [reflexivity|].
  unfold without in H. cbn [list_ascii_of_string forallb] in H.
  apply andb_true_iff in H. destruct H as [Hc Hr].
  specialize (IH Hr).
  destruct c as [[] [] [] [] [] [] [] []]; try discriminate Hc;
    cbn [Uri.tokens]; rewrite IH; reflexivity.
Qed.

Lemma decodeTokens_plain : forall l,
  Uri.decodeTokens (map Uri.Lit l) Uri.Any = Some (string_of_list_ascii l).
Proof.
  induction l as [|c l IH]; [reflexivity|].
  cbn [map Uri.decodeTokens]. rewrite IH. reflexivity.
Qed.

Lemma decode_plain : forall s,
  without "%" s = true -> Uri.decodeURIComponent s = Ok s.
Proof.
  intros s H. unfold Uri.decodeURIComponent.
  rewrite (tokens_plain s H), decodeTokens_plain.
  now rewrite string_of_list_ascii_of_string.
Qed.

Lemma getField_truthy : forall v keys,
  Js.truthy v = true -> exists x, getField v keys = Ok x.
Proof.
  intros v keys Hv. induction keys as [|k keys [x IH]].
  - eexists. reflexivity.
  - cbn [getField].
    destruct v; try discriminate Hv; cbn [Js.get rbind];
      try (cbn [Js.defined]; eexists; exact IH).
    destruct (Js.defined (Js.lookup fields k)); eexists; eauto.
Qed.

Lemma getField_empty : forall keys, getField (JObj []) keys = Ok JUndefined.
Proof. induction keys as [|k keys IH]; [reflexivity|exact IH]. Qed.

(** X11.  A response element with a single property-status block whose
    [href] decodes is normalized without error.  The [href] of the record
    is the decoded text: the empty string when the element has no [href],
    and the text itself when it contains no percent sign.  The status is
    the status line of the block, and "HTTP/1.1 200 OK" when the block has
    none; without a [prop] element every property of the record is
    undefined. *)
Theorem normalize_defaults :
  forall response block h d,
    getField response (dav "href") = Ok h ->
    getField response (dav "propstat") = Ok block ->
    statusLineBlock block ->
    Uri.decodeURIComponent (Js.toString (Js.or h (JStr ""))) = Ok d ->
    exists r,
      normalizeWebDAVResponse response = Ok r /\
      href r = d /\
      (h = JUndefined -> href r = "") /\
      (forall s, h = JStr s -> without "%" s = true -> href r = s) /\
      status r = Js.or (statusOf block) (JStr "HTTP/1.1 200 OK") /\
      (statusOf block = JUndefined -> status r = JStr "HTTP/1.1 200 OK") /\
      (getField block (dav "prop") = Ok JUndefined -> prop r = noProperties).
Proof.
  intros response block h d Hh Hp Hb Hd.
  pose proof Hb as [[bf Hbf] _].
  destruct (getField_obj bf (dav "prop")) as [p0 Hp0].
  assert (Htruthy : Js.truthy (Js.or p0 (JObj [])) = true).
  { unfold Js.or. destruct (Js.truthy p0) eqn:E; [exact E|reflexivity]. }
  pose proof (fun keys => getField_truthy _ keys Htruthy) as Hget.
  destruct (Hget (dav "getcontentlength")) as [v1 H1].
  destruct (Hget (dav "getlastmodified")) as [v2 H2].
  destruct (Hget (dav "getcontenttype")) as [v3 H3].
  destruct (Hget (dav "getetag")) as [v4 H4].
  destruct (Hget (dav "resourcetype")) as [v5 H5].
  destruct (Hget (dav "displayname")) as [v6 H6].
  assert (Hrun : normalizeWebDAVResponse response =
    Ok {| href := d;
          prop := {| getcontentlength := v1; getlastmodified := v2;
                     getcontenttype := v3; getetag := v4;
                     resourcetype := v5; displayname := v6 |};
          status := Js.or (statusOf block) (JStr "HTTP/1.1 200 OK") |}).
  { unfold normalizeWebDAVResponse. rewrite Hh, Hp. cbn [rbind].
    rewrite (successPropstat_single block Hb). cbn [rbind].
    subst block. rewrite Hp0. cbn [rbind]. rewrite Hd. cbn [rbind].
    rewrite H1, H2, H3, H4, H5, H6. cbn [rbind].
    rewrite statusOf_obj. reflexivity. }
  eexists. split; [exact Hrun|]. cbn [href status prop].
  split; [reflexivity|]. split; [|split; [|split; [|split]]].
  - intros ->. cbn in Hd. now injection Hd as <-.
  - intros s -> Hs.
    assert (Hsame : Js.toString (Js.or (JStr s) (JStr "")) = s)
      by now destruct s.
    rewrite Hsame, (decode_plain s Hs) in Hd. now injection Hd as <-.
  - reflexivity.
  - intros ->. reflexivity.
  - intros Hnone. subst block. rewrite Hp0 in Hnone. injection Hnone as ->.
    cbn [Js.or Js.truthy] in H1, H2, H3, H4, H5, H6.
    rewrite getField_empty in H1, H2, H3, H4, H5, H6.
    injection H1 as <-. injection H2 as <-. injection H3 as <-.
    injection H4 as <-. injection H5 as <-. injection H6 as <-.
    reflexivity.
Qed.

Lemma normalize_defaults_witness :
  exists r,
    normalizeWebDAVResponse (JObj [("propstat", JObj [])]) = Ok r /\
    href r = "" /\
    status r = JStr "HTTP/1.1 200 OK" /\
    prop r = noProperties.
Proof.
  destruct (normalize_defaults (JObj [("propstat", JObj [])]) (JObj [])
              JUndefined "" eq_refl eq_refl)
    as (r & H1 & H2 & _ & _ & _ & H3 & H4).
  - split; [eexists; reflexivity|left; reflexivity].
  - reflexivity.
  - exists r. split; [exact H1|]. split; [exact H2|].
    split; [apply H3; reflexivity|apply H4; reflexivity].
Defined.

(** ** The name of a mapped record *)

Lemma list_ascii_app : forall a b,
  list_ascii_of_string (a ++ b)
  = (list_ascii_of_string a ++ list_ascii_of_string b)%list.
Proof.
  induction a as [|c a IH]; intros b; [reflexivity|].
  cbn. now rewrite IH.
Qed.

Lemma dropWhile_all : forall (A : Type) (p : A -> bool) l x,
  Forall (fun c => p c = true) l ->
  Path.dropWhile p (l ++ x) = Path.dropWhile p x.
Proof.
  intros A p l x. induction 1 as [|c l Hc _ IH]; [reflexivity|].
  cbn. now rewrite Hc.
Qed.

Lemma dropWhile_none : forall (A : Type) (p : A -> bool) l x,
  Forall (fun c => p c = false) l -> l <> [] ->
  Path.dropWhile p (l ++ x) = (l ++ x)%list.
Proof.
  intros A p l x H Hne. destruct H as [|c l Hc _]; [now elim Hne|].
  cbn. now rewrite Hc.
Qed.

Lemma takeWhile_until : forall (A : Type) (p : A -> bool) l c x,
  Forall (fun a => p a = true) l -> p c = false ->
  Path.takeWhile p (l ++ c :: x) = l.
Proof.
  intros A p l c x. induction 1 as [|a l Ha _ IH]; intros Hc.
  - cbn. now rewrite Hc.
  - cbn. rewrite Ha, IH by exact Hc. reflexivity.
Qed.

Lemma basename_segment : forall dir nm tail,
  nm <> "" -> without "/" nm = true -> separatorsOnly tail = true ->
  Path.basename (dir ++ "/" ++ nm ++ tail) = nm.
Proof.
  intros dir nm tail Hne Hnm Ht. unfold Path.basename.
  rewrite !list_ascii_app. cbn [list_ascii_of_string app].
  rewrite rev_app_distr. cbn [rev]. rewrite rev_app_distr.
  rewrite <- !app_assoc. cbn [app].
  assert (Htail : Forall (fun c => Path.isSlash c = true)
                    (rev (list_ascii_of_string tail))).
  { apply Forall_rev. apply Forall_forall. intros c Hc.
    exact (proj1 (forallb_forall _ _) Ht c Hc). }
  assert (Hname : Forall (fun c => Path.isSlash c = false)
                    (rev (list_ascii_of_string nm))).
  { apply Forall_rev. apply Forall_forall. intros c Hc.
    pose proof (proj1 (forallb_forall _ _) Hnm c Hc) as H.
    now apply negb_true_iff in H. }
  rewrite (dropWhile_all _ _ _ _ Htail).
  rewrite dropWhile_none; [|exact Hname|].
  - rewrite takeWhile_until.
    + now rewrite rev_involutive, string_of_list_ascii_of_string.
    + apply Forall_forall. intros c Hc.
      pose proof (proj1 (Forall_forall _ _) Hname c Hc) as H.
      cbn. now rewrite H.
    + reflexivity.
  - intros H. apply (f_equal (@rev ascii)) in H.
    rewrite rev_involutive in H. cbn in H.
    apply Hne. rewrite <- (string_of_list_ascii_of_string nm), H.
    reflexivity.
Qed.

Lemma basename_separators : forall h,
  separatorsOnly h = true -> Path.basename h = "".
Proof.
  intros h H. unfold Path.basename.
  assert (Hall : Forall (fun c => Path.isSlash c = true)
                   (rev (list_ascii_of_string h))).
  { apply Forall_rev. apply Forall_forall. intros c Hc.
    exact (proj1 (forallb_forall _ _) H c Hc). }
  rewrite <- (app_nil_r (rev (list_ascii_of_string h))).
  rewrite (dropWhile_all _ _ _ _ Hall). reflexivity.
Qed.

(** X12.  The [basename] of a mapped record is the last segment of its
    [href], also when the [href] of a collection ends with separators, and
    then the display name plays no part; the display name, or the empty
    string when there is none, is used only when the [href] has no segment
    at all (it is empty or made of separators). *)
Theorem mapped_basename :
  forall now r,
    (forall dir nm tail,
       nm <> "" -> without "/" nm = true -> separatorsOnly tail = true ->
       href r = dir ++ "/" ++ nm ++ tail ->
       basename (webdavResponseToFileInfo now r) = JStr nm) /\
    (separatorsOnly (href r) = true ->
     basename (webdavResponseToFileInfo now r)
       = Js.or (displayname (prop r)) (JStr "")).
Proof.
  intros now r. unfold webdavResponseToFileInfo. cbn [basename]. split.
  - intros dir nm tail Hne Hnm Ht ->.
    rewrite (basename_segment dir nm tail Hne Hnm Ht).
    destruct nm; [now elim Hne|reflexivity].
  - intros H. rewrite (basename_separators _ H). reflexivity.
Qed.

Lemma mapped_basename_witness :
  basename (webdavResponseToFileInfo sampleNow
              {| href := "/photos" ++ "/" ++ "2024" ++ "/";
                 prop := noProperties;
                 status := JStr "HTTP/1.1 200 OK" |})
    = JStr "2024".
Proof.
  apply (proj1 (mapped_basename sampleNow
                  {| href := "/photos" ++ "/" ++ "2024" ++ "/";
                     prop := noProperties;
                     status := JStr "HTTP/1.1 200 OK" |})
           "/photos" "2024" "/");
    (discriminate || reflexivity).
Defined.

(** ** Creation of the parent folders *)

Lemma split_aux_app : forall a b cur,
  Str.split_slash_aux (a ++ "/" ++ b) cur
  = (Str.split_slash_aux a cur ++ Str.split_slash b)%list.
Proof.
  induction a as [|c a IH]; intros b cur; [reflexivity|].
  change (String c a ++ "/" ++ b) with (String c (a ++ "/" ++ b)).
  cbn [Str.split_slash_aux]. destruct (Ascii.eqb c "/").
  - rewrite IH. reflexivity.
  - apply IH.
Qed.

Lemma segments_app : forall a b,
  segments (a ++ "/" ++ b) = (segments a ++ segments b)%list.
Proof.
  intros a b. unfold segments, Str.split_slash.
  rewrite split_aux_app. apply filter_app.
Qed.

(** X13.  [createParentDirectories] ignores empty segments: a separator at
    the beginning or at the end of the path and a doubled separator inside
    it change neither the requests nor the result. *)
Theorem createParentDirectories_separators :
  forall network client a b log,
    createParentDirectories network client ("/" ++ b) log
      = createParentDirectories network client b log /\
    createParentDirectories network client (a ++ "/") log
      = createParentDirectories network client a log /\
    createParentDirectories network client (a ++ "/" ++ "/" ++ b) log
      = createParentDirectories network client (a ++ "/" ++ b) log.
Proof.
  intros network client a b log. unfold createParentDirectories.
  fold (segments ("/" ++ b)) (segments b) (segments (a ++ "/")) (segments a)
       (segments (a ++ "/" ++ "/" ++ b)) (segments (a ++ "/" ++ b)).
  assert (H1 : segments ("/" ++ b) = segments b).
  { exact (segments_app "" b). }
  assert (H2 : segments (a ++ "/") = segments a).
  { rewrite <- (app_nil_r (segments a)). exact (segments_app a ""). }
  split; [now rewrite H1|]. split; [now rewrite H2|].
  now rewrite !segments_app, H1.
Qed.

Lemma createDirectory_run : forall network client dirPath log,
  exists r,
    createDirectory network client dirPath log
      = (r, (log ++ [mkcolRequest client dirPath])%list).
Proof.
  intros network client dirPath log. unfold createDirectory, tryM, bind.
  fold (mkcolRequest client dirPath).
  destruct (send_transmits network (mkcolRequest client dirPath) log
              (exceeds_NoBody _)) as [[resp|e] ->].
  - eexists. reflexivity.
  - destruct (handleError_throws unit e "Не удалось создать директорию"
                (log ++ [mkcolRequest client dirPath])%list) as [w ->].
    eexists. reflexivity.
Qed.

Lemma ancestorRequest_later : forall client u paths req,
  ancestorRequest client paths req -> ancestorRequest client (u :: paths) req.
Proof.
  intros client u paths req (v & Hin & H). exists v. split; [now right|exact H].
Qed.

Lemma createEach_requests : forall network client parts currentPath log,
  exists r new,
    createEach network client parts currentPath log = (r, (log ++ new)%list) /\
    Forall (ancestorRequest client (ancestors currentPath parts)) new.
Proof.
  intros network client. induction parts as [|part rest IH];
    intros currentPath log.
  - exists (Ok tt), []. rewrite app_nil_r. split; [reflexivity|constructor].
  - cbn [createEach ancestors]. unfold bind at 1. rewrite exists_run.
    set (u := currentPath ++ "/" ++ part).
    assert (Hhead : ancestorRequest client (u :: ancestors u rest)
                      (headRequest client u)).
    { exists u. split; [now left|now left]. }
    assert (Hmk : ancestorRequest client (u :: ancestors u rest)
                    (mkcolRequest client u)).
    { exists u. split; [now left|now right]. }
    destruct (existsAnswer (network log (headRequest client u))).
    + cbn [negb]. unfold bind, ret.
      destruct (IH u (log ++ [headRequest client u])%list)
        as (r & new & Hrun & Hnew).
      exists r, (headRequest client u :: new).
      rewrite Hrun, <- app_assoc. split; [reflexivity|].
      constructor; [exact Hhead|].
      eapply Forall_impl; [|exact Hnew].
      intros req. apply ancestorRequest_later.
    + cbn [negb]. unfold bind.
      destruct (createDirectory_run network client u
                  (log ++ [headRequest client u])%list) as [[[]|e] ->].
      * destruct (IH u ((log ++ [headRequest client u])
                          ++ [mkcolRequest client u])%list)
          as (r & new & Hrun & Hnew).
        exists r, (headRequest client u :: mkcolRequest client u :: new).
        rewrite Hrun, <- !app_assoc. split; [reflexivity|].
        constructor; [exact Hhead|]. constructor; [exact Hmk|].
        eapply Forall_impl; [|exact Hnew].
        intros req. apply ancestorRequest_later.
      * exists (Throw e), [headRequest client u; mkcolRequest client u].
        rewrite <- app_assoc. split; [reflexivity|].
        constructor; [exact Hhead|]. constructor; [exact Hmk|constructor].
Qed.

Lemma createEach_all_present : forall network client parts currentPath log,
  (forall l u, existsAnswer (network l (headRequest client u)) = true) ->
  createEach network client parts currentPath log
    = (Ok tt,
       (log ++ map (headRequest client) (ancestors currentPath parts))%list).
Proof.
  intros network client parts currentPath log Hall. revert currentPath log.
  induction parts as [|part rest IH]; intros currentPath log.
  - cbn. now rewrite app_nil_r.
  - cbn [createEach ancestors map]. unfold bind at 1.
    rewrite exists_run, Hall. cbn [negb]. unfold bind, ret.
    rewrite IH, <- app_assoc. reflexivity.
Qed.

(** X14.  Whatever the server answers, [createParentDirectories] transmits
    nothing but existence checks (HEAD) and creations (MKCOL) of the
    ancestor paths built from the segments of its argument; on a server
    where every existence check answers [true] it transmits exactly one
    HEAD per ancestor, from the shallowest to the deepest, no MKCOL, and
    succeeds. *)
Theorem createParentDirectories_requests :
  forall network client dirPath log,
    (exists r new,
       createParentDirectories network client dirPath log
         = (r, (log ++ new)%list) /\
       Forall (ancestorRequest client (ancestors "" (segments dirPath))) new) /\
    ((forall l u, existsAnswer (network l (headRequest client u)) = true) ->
     createParentDirectories network client dirPath log
       = (Ok tt,
          (log ++ map (headRequest client)
                    (ancestors "" (segments dirPath)))%list)).
Proof.
  intros network client dirPath log. unfold createParentDirectories.
  fold (segments dirPath). split.
  - apply createEach_requests.
  - apply createEach_all_present.
Qed.

Lemma createParentDirectories_requests_witness :
  createParentDirectories (answering 200 "OK") sampleClient "/new/sub" []
    = (Ok tt, [headRequest sampleClient "/new";
               headRequest sampleClient "/new/sub"]).
Proof.
  apply (proj2 (createParentDirectories_requests (answering 200 "OK")
                  sampleClient "/new/sub" [])).
  intros l u. reflexivity.
Defined.

Lemma created_app : forall log new u,
  created (log ++ new) u = created log u || created new u.
Proof. intros log new u. unfold created. apply existsb_app. Qed.

Lemma present_later : forall initial log new u,
  present initial log u = true -> present initial (log ++ new) u = true.
Proof.
  intros initial log new u. unfold present. rewrite created_app.
  destruct (existsb (String.eqb u) initial), (created log u); cbn;
    intros H; try reflexivity; discriminate.
Qed.

Lemma tracking_exists : forall initial client u log,
  exists_ (trackingServer initial) client u log
    = (Ok (present initial log u), (log ++ [headRequest client u])%list).
Proof.
  intros initial client u log. rewrite exists_run. unfold trackingServer.
  cbn [method headRequest axiosRequest url].
  destruct (present initial log u); reflexivity.
Qed.

Lemma tracking_create : forall initial client u log,
  present initial log u = false ->
  createDirectory (trackingServer initial) client u log
    = (Ok tt, (log ++ [mkcolRequest client u])%list).
Proof.
  intros initial client u log Hp. unfold createDirectory, tryM, bind.
  fold (mkcolRequest client u).
  rewrite (send_accepted (trackingServer initial) (mkcolRequest client u) log
             201 "Created" "").
  - reflexivity.
  - discriminate.
  - unfold trackingServer. cbn [method mkcolRequest axiosRequest url].
    now rewrite Hp.
  - reflexivity.
  - apply exceeds_NoBody.
  - apply exceeds_empty.
Qed.

Lemma present_after_create : forall initial client u log,
  present initial (log ++ [mkcolRequest client u]) u = true.
Proof.
  intros initial client u log. unfold present. rewrite created_app.
  cbn. rewrite String.eqb_refl. cbn. now rewrite !orb_true_r.
Qed.

Lemma tracking_first_run : forall initial client parts currentPath log,
  exists new,
    createEach (trackingServer initial) client parts currentPath log
      = (Ok tt, (log ++ new)%list) /\
    Forall (fun u => present initial (log ++ new) u = true)
           (ancestors currentPath parts).
Proof.
  intros initial client. induction parts as [|part rest IH];
    intros currentPath log.
  - exists []. rewrite app_nil_r. split; [reflexivity|constructor].
  - cbn [createEach ancestors]. unfold bind at 1. rewrite tracking_exists.
    set (u := currentPath ++ "/" ++ part).
    destruct (present initial log u) eqn:Hp; cbn [negb]; unfold bind.
    + unfold ret.
      destruct (IH u (log ++ [headRequest client u])%list)
        as (new & Hrun & Hall).
      exists (headRequest client u :: new).
      rewrite Hrun, <- app_assoc. split; [reflexivity|].
      rewrite <- app_assoc in Hall. cbn [app] in Hall.
      constructor; [|exact Hall].
      apply present_later. exact Hp.
    + rewrite tracking_create.
      * destruct (IH u ((log ++ [headRequest client u])
                          ++ [mkcolRequest client u])%list)
          as (new & Hrun & Hall).
        exists (headRequest client u :: mkcolRequest client u :: new).
        rewrite Hrun, <- !app_assoc. split; [reflexivity|].
        rewrite <- !app_assoc in Hall. cbn [app] in Hall.
        constructor; [|exact Hall].
        change (log ++ headRequest client u :: mkcolRequest client u :: new)%list
          with (log ++ [headRequest client u]
                    ++ [mkcolRequest client u] ++ new)%list.
        rewrite !app_assoc. apply present_later.
        rewrite <- app_assoc. rewrite app_assoc.
        apply present_after_create.
      * unfold present in *. rewrite created_app. cbn.
        rewrite orb_false_r. exact Hp.
Qed.

Lemma tracking_second_run : forall initial client parts currentPath log,
  Forall (fun u => present initial log u = true) (ancestors currentPath parts) ->
  createEach (trackingServer initial) client parts currentPath log
    = (Ok tt,
       (log ++ map (headRequest client) (ancestors currentPath parts))%list).
Proof.
  intros initial client. induction parts as [|part rest IH];
    intros currentPath log Hall.
  - cbn. now rewrite app_nil_r.
  - cbn [createEach ancestors map] in *. unfold bind at 1.
    rewrite tracking_exists.
    pose proof (Forall_inv Hall) as Hu.
    pose proof (Forall_inv_tail Hall) as Hrest.
    cbv beta in Hu. rewrite Hu. cbn [negb]. unfold bind, ret.
    rewrite IH, <- app_assoc; [reflexivity|].
    eapply Forall_impl; [|exact Hrest].
    intros v. apply present_later.
Qed.

(** X15.  On a server that remembers the collections it was asked to
    create, [createParentDirectories] succeeds, and invoked a second time
    for the same path it creates nothing: the second run transmits one
    HEAD per ancestor and no MKCOL. *)
Theorem createParentDirectories_idempotent :
  forall initial client dirPath log,
    exists new,
      createParentDirectories (trackingServer initial) client dirPath log
        = (Ok tt, (log ++ new)%list) /\
      createParentDirectories (trackingServer initial) client dirPath
          (log ++ new)%list
        = (Ok tt,
           ((log ++ new)
              ++ map (headRequest client)
                   (ancestors "" (segments dirPath)))%list) /\
      Forall (fun r => method r = HEAD)
             (map (headRequest client) (ancestors "" (segments dirPath))).
Proof.
  intros initial client dirPath log. unfold createParentDirectories.
  fold (segments dirPath).
  destruct (tracking_first_run initial client (segments dirPath) "" log)
    as (new & Hrun & Hall).
  exists new. split; [exact Hrun|]. split.
  - apply tracking_second_run. exact Hall.
  - apply Forall_forall. intros r Hr. apply in_map_iff in Hr.
    destruct Hr as (u & <- & _). reflexivity.
Qed.

(** ** Operations that succeed *)

Ltac succeed_with :=
  let log := fresh "log" in
  let st := fresh "st" in
  let tx := fresh "tx" in
  let body := fresh "body" in
  let Hr := fresh "Hr" in
  let Hs := fresh "Hs" in
  let Hb := fresh "Hb" in
  let Hc := fresh "Hc" in
  intros log st tx body Hr Hs Hb Hc;
  unfold createDirectory, deleteFile, getFileContents, getFileStream,
    putFileContents, putFileStream, moveFile, copyFile;
  unfold tryM, bind, lift; cbn [notOverwrite ret];
  match goal with
  | |- context [send ?n ?r log] =>
      rewrite (send_accepted n r log st tx body
                 ltac:(discriminate) Hr Hs Hb Hc)
  end;
  reflexivity.

(** X16.  When the server accepts the request of an operation with a 2xx
    status, the operation succeeds after that single request: the creation,
    the deletion, the transfers and the uploads with [overwrite: true]
    return nothing, [getFileStream] returns the body, and [getFileContents]
    returns the body as a buffer for the format "binary" and as text for
    any other format or none. *)
Theorem operations_accept_2xx :
  forall network newURL client path destination bytes overwrite,
    succeedsWith network (mkcolRequest client path)
      (createDirectory network client path) (fun _ => tt) /\
    succeedsWith network (axiosRequest client DELETE path [] NoBody)
      (deleteFile network client path) (fun _ => tt) /\
    succeedsWith network
      (transferRequest newURL client MOVE path destination overwrite)
      (moveFile network newURL client path destination overwrite)
      (fun _ => tt) /\
    succeedsWith network
      (transferRequest newURL client COPY path destination overwrite)
      (copyFile network newURL client path destination overwrite)
      (fun _ => tt) /\
    succeedsWith network (putRequest client path bytes)
      (putFileContents network client path bytes (Some true)) (fun _ => tt) /\
    succeedsWith network (streamRequest path bytes)
      (putFileStream network client path bytes (Some true)) (fun _ => tt) /\
    succeedsWith network (axiosRequest client GET path [] NoBody)
      (getFileStream network client path) (fun body => body) /\
    succeedsWith network (axiosRequest client GET path [] NoBody)
      (getFileContents network client path (Some "binary")) AsBuffer /\
    succeedsWith network (axiosRequest client GET path [] NoBody)
      (getFileContents network client path None) AsText /\
    (forall format,
       format <> "binary" ->
       succeedsWith network (axiosRequest client GET path [] NoBody)
         (getFileContents network client path (Some format)) AsText).
Proof.
  intros network newURL client path destination bytes overwrite.
  repeat split; try succeed_with.
  intros format Hf log st tx body Hr Hs Hb Hc.
  unfold getFileContents, tryM, bind.
  rewrite (send_accepted network (axiosRequest client GET path [] NoBody) log
             st tx body ltac:(discriminate) Hr Hs Hb Hc).
  destruct (format =? "binary") eqn:E; [|reflexivity].
  apply String.eqb_eq in E. now elim Hf.
Qed.

Lemma operations_accept_2xx_witness :
  getFileContents (fun _ _ => Response 200 "OK" "hello") sampleClient
      "/docs/a.txt" (Some "binary") []
    = (Ok (AsBuffer "hello"),
       [axiosRequest sampleClient GET "/docs/a.txt" [] NoBody]).
Proof.
  destruct (operations_accept_2xx (fun _ _ => Response 200 "OK" "hello")
              sampleURL sampleClient "/docs/a.txt" "" "" None)
    as (_ & _ & _ & _ & _ & _ & _ & H & _).
  exact (H [] 200%Z "OK" "hello" eq_refl eq_refl eq_refl eq_refl).
Defined.

(** ** Branches of the node *)

(** X17.  The move, copy, delete, folder-delete and list branches of the
    node require the resource to exist: when the existence check of the
    path answers [false], the branch raises a [NodeOperationError] and the
    only request transmitted is that HEAD request, so that no MOVE, COPY,
    DELETE or PROPFIND leaves the client. *)
Theorem node_requires_existing_resource :
  forall network xmlParse now newURL client filePath targetPath overwrite
         createParentFolders recursive details log,
    existsAnswer (network log (headRequest client filePath)) = false ->
    (exists msg,
       executeMove network xmlParse now newURL client filePath targetPath
         overwrite createParentFolders log
       = (Throw (NodeOperationError msg),
          (log ++ [headRequest client filePath])%list)) /\
    (exists msg,
       executeCopy network xmlParse now newURL client filePath targetPath
         overwrite createParentFolders log
       = (Throw (NodeOperationError msg),
          (log ++ [headRequest client filePath])%list)) /\
    (exists msg,
       executeDelete network client filePath log
       = (Throw (NodeOperationError msg),
          (log ++ [headRequest client filePath])%list)) /\
    (exists msg,
       executeFolderDelete network client filePath log
       = (Throw (NodeOperationError msg),
          (log ++ [headRequest client filePath])%list)) /\
    (exists msg,
       executeList network xmlParse now client filePath recursive details log
       = (Throw (NodeOperationError msg),
          (log ++ [headRequest client filePath])%list)).
Proof.
  intros network xmlParse now newURL client filePath targetPath overwrite
         createParentFolders recursive details log H.
  repeat split;
    unfold executeMove, executeCopy, executeDelete, executeFolderDelete,
      executeList, bind;
    rewrite exists_run, H; eexists; reflexivity.
Qed.

Lemma node_requires_existing_resource_witness :
  exists msg,
    executeDelete emptyServer sampleClient "/missing.txt" []
      = (Throw (NodeOperationError msg),
         [headRequest sampleClient "/missing.txt"]).
Proof.
  destruct (node_requires_existing_resource emptyServer
              (fun _ => Ok JUndefined) sampleNow sampleURL sampleClient
              "/missing.txt" "" false false false false [] eq_refl)
    as (_ & _ & H & _).
  exact H.
Defined.

(** X18.  After a transfer that the server performed, the move branch
    tolerates a failure of the final [stat] and the copy branch does not:
    when [stat] throws, the move branch still succeeds, reporting size 0
    and the current time, while the copy branch throws that error; when
    [stat] succeeds, both report its size and modification time. *)
Theorem transfer_then_stat :
  forall network xmlParse now newURL client filePath targetPath overwrite
         (createParentFolders : bool) targetExists log l1 l2 l3 l4 l5,
    exists_ network client filePath log = (Ok true, l1) ->
    exists_ network client targetPath l1 = (Ok targetExists, l2) ->
    targetExists && negb overwrite = false ->
    (if createParentFolders
     then createParentsOf network client targetPath
     else ret tt) l2 = (Ok tt, l3) ->
    (moveFile network newURL client filePath targetPath (Some overwrite) l3
       = (Ok tt, l4) ->
     (forall e,
        stat network xmlParse now client targetPath l4 = (Throw e, l5) ->
        executeMove network xmlParse now newURL client filePath targetPath
          overwrite createParentFolders log
        = (Ok {| sourceFile := filePath; targetFile := targetPath;
                 name := Path.basename targetPath;
                 mv_size := Num 0; lastModified := JStr now |}, l5)) /\
     (forall info,
        stat network xmlParse now client targetPath l4 = (Ok info, l5) ->
        executeMove network xmlParse now newURL client filePath targetPath
          overwrite createParentFolders log
        = (Ok {| sourceFile := filePath; targetFile := targetPath;
                 name := Path.basename targetPath;
                 mv_size := size info; lastModified := lastmod info |}, l5))) /\
    (copyFile network newURL client filePath targetPath (Some overwrite) l3
       = (Ok tt, l4) ->
     (forall e,
        stat network xmlParse now client targetPath l4 = (Throw e, l5) ->
        executeCopy network xmlParse now newURL client filePath targetPath
          overwrite createParentFolders log
        = (Throw e, l5)) /\
     (forall info,
        stat network xmlParse now client targetPath l4 = (Ok info, l5) ->
        executeCopy network xmlParse now newURL client filePath targetPath
          overwrite createParentFolders log
        = (Ok {| sourceFile := filePath; targetFile := targetPath;
                 name := Path.basename targetPath;
                 mv_size := size info; lastModified := lastmod info |}, l5))).
Proof.
  intros network xmlParse now newURL client filePath targetPath overwrite
         createParentFolders targetExists log l1 l2 l3 l4 l5 H1 H2 Ht H3.
  split; intros H4; split; intros x H5;
    unfold executeMove, executeCopy, bind, tryM;
    rewrite H1; cbn [negb]; rewrite H2, Ht;
    unfold createParentsOf in H3; unfold createParentsOf;
    unfold bind in H3 |- *; rewrite H3, H4, H5; reflexivity.
Qed.

Lemma transfer_then_stat_witness :
  executeMove transferOnlyServer (fun _ => Ok JUndefined) sampleNow sampleURL
      sampleClient "/a.txt" "/b.txt" false false []
    = (Ok {| sourceFile := "/a.txt"; targetFile := "/b.txt";
             name := Path.basename "/b.txt";
             mv_size := Num 0; lastModified := JStr sampleNow |},
       [headRequest sampleClient "/a.txt"; headRequest sampleClient "/b.txt";
        transferRequest sampleURL sampleClient MOVE "/a.txt" "/b.txt"
          (Some false);
        propfind sampleClient "/b.txt" "0"]).
Proof.
  eapply (proj1 (proj1 (transfer_then_stat transferOnlyServer
                          (fun _ => Ok JUndefined) sampleNow sampleURL
                          sampleClient "/a.txt" "/b.txt" false false false
                          [] _ _ _ _ _ eq_refl eq_refl eq_refl eq_refl)
                   eq_refl)).
  reflexivity.
Defined.

(** X19.  The folder-creation branch creates nothing for a folder that
    exists: when the existence check answers [true] it reports
    [alreadyExists] after that single HEAD request.  Otherwise, without
    parent creation it transmits one MKCOL for the path and reports
    [alreadyExists: false] when that succeeds; with parent creation its
    further requests are the existence checks and creations of the
    ancestors built from the segments of the path, the folder itself being
    the last of them. *)
Theorem folder_create_branch :
  forall network client filePath log,
    (existsAnswer (network log (headRequest client filePath)) = true ->
     forall createParentFolders,
       executeFolderCreate network client filePath createParentFolders log
       = (Ok {| folder := filePath;
                cr_name := Path.basename filePath;
                alreadyExists := true |},
          (log ++ [headRequest client filePath])%list)) /\
    (existsAnswer (network log (headRequest client filePath)) = false ->
     (exists r,
        executeFolderCreate network client filePath false log
        = (r, (log ++ [headRequest client filePath;
                       mkcolRequest client filePath])%list) /\
        (forall v, r = Ok v -> alreadyExists v = false)) /\
     (exists r new,
        executeFolderCreate network client filePath true log
        = (r, (log ++ headRequest client filePath :: new)%list) /\
        Forall (ancestorRequest client (ancestors "" (segments filePath)))
               new /\
        (forall v, r = Ok v -> alreadyExists v = false))).
Proof.
  intros network client filePath log. split.
  - intros H cpf. unfold executeFolderCreate, bind.
    rewrite exists_run, H. reflexivity.
  - intros H. split.
    + unfold executeFolderCreate, bind. rewrite exists_run, H.
      destruct (createDirectory_run network client filePath
                  (log ++ [headRequest client filePath])%list) as [[[]|e] ->];
        rewrite <- app_assoc; eexists; (split; [reflexivity|]).
      * intros v Hv. injection Hv as <-. reflexivity.
      * discriminate.
    + unfold executeFolderCreate, bind. rewrite exists_run, H.
      unfold createParentDirectories. fold (segments filePath).
      destruct (createEach_requests network client (segments filePath) ""
                  (log ++ [headRequest client filePath])%list)
        as ([[]|e] & new & -> & Hnew);
        rewrite <- app_assoc; eexists _, new;
        (split; [reflexivity|split; [exact Hnew|]]).
      * intros v Hv. injection Hv as <-. reflexivity.
      * discriminate.
Qed.

Lemma folder_create_branch_witness :
  executeFolderCreate (answering 200 "OK") sampleClient "/photos" true []
    = (Ok {| folder := "/photos";
             cr_name := Path.basename "/photos";
             alreadyExists := true |},
       [headRequest sampleClient "/photos"]).
Proof.
  apply (proj1 (folder_create_branch (answering 200 "OK") sampleClient
                  "/photos" [])).
  reflexivity.
Defined.

Lemma send_extends : forall network req log,
  exists r rest, send network req log = (r, (log ++ rest)%list).
Proof.
  intros network req log.
  destruct (exceeds (data req) (maxBodyLength req)) eqn:E.
  - rewrite (send_too_long network req log E).
    eexists _, []. now rewrite app_nil_r.
  - destruct (send_transmits network req log E) as [r ->].
    eexists _, _. reflexivity.
Qed.

Lemma stat_extends : forall network xmlParse now client path log,
  exists r rest,
    stat network xmlParse now client path log = (r, (log ++ rest)%list).
Proof.
  intros network xmlParse now client path log. unfold stat, tryM, bind, lift.
  destruct (send_extends network (propfind client path "0") log)
    as ([resp|e] & rest & ->).
  - destruct (parseWebDAVResponse xmlParse (resp_data resp))
      as [[|r rs]|e] eqn:Hp.
    + eexists _, _. reflexivity.
    + eexists _, _. reflexivity.
    + destruct (parse_throws_parse_error _ _ _ Hp) as [cause ->].
      eexists _, _. reflexivity.
  - destruct (rethrowOrHandle_throws FileInfo
                "Не удалось получить информацию о файле" e
                (log ++ rest)%list) as [w ->].
    eexists _, _. reflexivity.
Qed.

Lemma put_overwrite_run : forall network client filePath bytes log,
  exceeds (Buffered bytes) (cfg_maxBodyLength client) = false ->
  exists r,
    putFileContents network client filePath bytes (Some true) log
      = (r, (log ++ [putRequest client filePath bytes])%list).
Proof.
  intros network client filePath bytes log Hb.
  unfold putFileContents, tryM, bind. cbn [notOverwrite ret].
  fold (putRequest client filePath bytes).
  destruct (send_transmits network (putRequest client filePath bytes) log Hb)
    as [[resp|e] ->].
  - eexists. reflexivity.
  - destruct (rethrowOrHandle_throws unit
                "Не удалось загрузить содержимое файла" e
                (log ++ [putRequest client filePath bytes])%list) as [w ->].
    eexists. reflexivity.
Qed.

(** X20.  The upload branch without parent creation.  With
    [overwrite: false] the path is checked twice, by the node and by the
    client: when the first check answers [true] the branch raises a
    [NodeOperationError] after one HEAD; when the first answers [false] and
    the second [true], it raises the 409 "Conflict" error of the client
    after two HEAD requests; in both cases no PUT is transmitted.  With
    [overwrite: true] and a body within the ceiling no check is made: the
    first request transmitted is the PUT. *)
Theorem upload_branch_checks :
  forall network xmlParse now client filePath fileContent fileName log,
    (existsAnswer (network log (headRequest client filePath)) = true ->
     exists msg,
       executeUpload network xmlParse now client filePath fileContent fileName
         false false log
       = (Throw (NodeOperationError msg),
          (log ++ [headRequest client filePath])%list)) /\
    (existsAnswer (network log (headRequest client filePath)) = false ->
     existsAnswer (network (log ++ [headRequest client filePath])%list
                     (headRequest client filePath)) = true ->
     executeUpload network xmlParse now client filePath fileContent fileName
       false false log
     = (Throw (conflict filePath),
        (log ++ [headRequest client filePath;
                 headRequest client filePath])%list)) /\
    (exceeds (Buffered fileContent) (cfg_maxBodyLength client) = false ->
     exists r rest,
       executeUpload network xmlParse now client filePath fileContent fileName
         true false log
       = (r, (log ++ putRequest client filePath fileContent :: rest)%list)).
Proof.
  intros network xmlParse now client filePath fileContent fileName log.
  split; [|split].
  - intros H. unfold executeUpload, bind, ret. cbn [negb].
    rewrite exists_run, H. eexists. reflexivity.
  - intros H1 H2. unfold executeUpload, bind, ret. cbn [negb].
    rewrite exists_run, H1.
    unfold putFileContents, tryM, bind. cbn [notOverwrite].
    rewrite exists_run, H2. cbn. rewrite <- app_assoc. reflexivity.
  - intros Hb. unfold executeUpload, bind, ret. cbn [negb].
    destruct (put_overwrite_run network client filePath fileContent log Hb)
      as [[[]|e] ->].
    + destruct (stat_extends network xmlParse now client filePath
                  (log ++ [putRequest client filePath fileContent])%list)
        as ([info|e] & rest & ->);
        rewrite <- app_assoc; eexists _, rest; reflexivity.
    + eexists _, []. reflexivity.
Qed.

Lemma upload_branch_checks_witness :
  executeUpload racingServer (fun _ => Ok JUndefined) sampleNow sampleClient
      "/new.txt" "payload" "new.txt" false false []
    = (Throw (conflict "/new.txt"),
       [headRequest sampleClient "/new.txt";
        headRequest sampleClient "/new.txt"]).
Proof.
  apply (proj1 (proj2 (upload_branch_checks racingServer
                         (fun _ => Ok JUndefined) sampleNow sampleClient
                         "/new.txt" "payload" "new.txt" [])));
    reflexivity.
Defined.


Lemma getDirectoryContents_collect :
  forall network xmlParse now client dirPath deep log contents log',
    getDirectoryContents network xmlParse now client dirPath deep log
      = (Ok contents, log') ->
    exists records,
      contents = collect now dirPath (normalizePath dirPath) records.
Proof.
  intros network xmlParse now client dirPath deep log contents log'.
  unfold getDirectoryContents, tryM, bind, lift.
  destruct (send network _ log) as [[resp|e] l1].
  - destruct (parseWebDAVResponse xmlParse (resp_data resp))
      as [records|e] eqn:Hp.
    + cbn. intros H. injection H as <- _. exists records. reflexivity.
    + destruct (parse_throws_parse_error _ _ _ Hp) as [cause ->].
      cbn. discriminate.
  - destruct (rethrowOrHandle_throws (list FileInfo)
                "Не удалось получить содержимое директории" e l1) as [w ->].
    discriminate.
Qed.

Lemma listItems_all : forall filePath details contents,
  Forall (fun item => (filename item =? filePath) = false) contents ->
  listItems filePath details contents = map (toItem details) contents.
Proof.
  intros filePath details. induction 1 as [|item rest Hi _ IH]; [reflexivity|].
  cbn [listItems map]. rewrite Hi, IH. reflexivity.
Qed.

(** X21.  The list branch returns one entry for every entry of the
    listing, in order: the listing never contains the queried path, so the
    additional comparison of each entry with that path removes nothing.
    The entries carry size, modification time and MIME type exactly when
    [details] is set. *)
Theorem list_branch_keeps_every_entry :
  forall network xmlParse now client filePath recursive details log
         contents log',
    existsAnswer (network log (headRequest client filePath)) = true ->
    getDirectoryContents network xmlParse now client filePath (Some recursive)
        (log ++ [headRequest client filePath])%list
      = (Ok contents, log') ->
    executeList network xmlParse now client filePath recursive details log
      = (Ok (map (toItem details) contents), log') /\
    length (map (toItem details) contents) = length contents /\
    Forall (fun i => li_path i <> filePath /\
                     (li_details i <> None <-> details = true))
           (map (toItem details) contents).
Proof.
  intros network xmlParse now client filePath recursive details log
         contents log' Hx Hl.
  assert (Hnot : Forall (fun item => (filename item =? filePath) = false)
                   contents).
  { destruct (getDirectoryContents_collect _ _ _ _ _ _ _ _ _ Hl)
      as [records ->].
    rewrite collect_filter. apply Forall_forall. intros f Hf.
    apply in_map_iff in Hf. destruct Hf as (r & <- & Hr).
    apply filter_In in Hr. destruct Hr as [_ Hk].
    unfold isSelf in Hk. cbn [filename webdavResponseToFileInfo].
    destruct (href r =? filePath); [|reflexivity].
    rewrite orb_true_r in Hk. discriminate Hk. }
  split; [|split].
  - unfold executeList, bind. rewrite exists_run, Hx. cbn [negb].
    rewrite Hl. unfold ret. now rewrite (listItems_all _ _ _ Hnot).
  - apply length_map.
  - apply Forall_forall. intros i Hi. apply in_map_iff in Hi.
    destruct Hi as (f & <- & Hf). cbn [toItem li_path li_details]. split.
    + intros Heq.
      pose proof (proj1 (Forall_forall _ _) Hnot f Hf) as H.
      cbv beta in H. rewrite Heq, String.eqb_refl in H. discriminate.
    + destruct details; split; congruence.
Qed.

Lemma list_branch_keeps_every_entry_witness :
  executeList (multistatusServer "") (fun _ => Ok (document Lower Lower lowerItems))
      sampleNow sampleClient "/docs" false true []
    = (Ok (map (toItem true)
             [webdavResponseToFileInfo sampleNow
                {| href := "/docs/report.pdf";
                   prop := {| getcontentlength := JNum 10240;
                              getlastmodified :=
                                JStr "Mon, 01 Jan 2024 00:00:00 GMT";
                              getcontenttype := JStr "application/pdf";
                              getetag := JUndefined;
                              resourcetype := JStr "";
                              displayname := JUndefined |};
                   status := JStr "HTTP/1.1 200 OK" |};
              webdavResponseToFileInfo sampleNow
                {| href := "/docs/report.pdf";
                   prop := {| getcontentlength := JNum 10240;
                              getlastmodified :=
                                JStr "Mon, 01 Jan 2024 00:00:00 GMT";
                              getcontenttype := JStr "application/pdf";
                              getetag := JUndefined;
                              resourcetype := JStr "";
                              displayname := JUndefined |};
                   status := JStr "HTTP/1.1 200 OK" |}]),
       [headRequest sampleClient "/docs"; propfind sampleClient "/docs/" "1"]).
Proof.
  apply (list_branch_keeps_every_entry (multistatusServer "")
           (fun _ => Ok (document Lower Lower lowerItems)) sampleNow
           sampleClient "/docs" false true []);
    reflexivity.
Defined.

(** ** The base URL and the ceilings *)

(** X22.  The base URL the node gives to the client always ends with a
    separator, and normalizing it again changes nothing.  For every server
    type other than Yandex.Disk it is the URL of the credentials, with a
    separator appended when it has none; for Yandex.Disk a URL that does
    not name the Yandex host is replaced by the Yandex endpoint. *)
Theorem normalizeWebdavUrl_separator :
  forall credentialsUrl serverType,
    Str.endsWith (normalizeWebdavUrl credentialsUrl serverType) "/" = true /\
    normalizeWebdavUrl (normalizeWebdavUrl credentialsUrl serverType) serverType
      = normalizeWebdavUrl credentialsUrl serverType /\
    (serverType <> YANDEX_DISK ->
     normalizeWebdavUrl credentialsUrl serverType = withSeparator credentialsUrl) /\
    (serverType = YANDEX_DISK ->
     Str.includes (withSeparator credentialsUrl) "webdav.yandex.ru" = false ->
     normalizeWebdavUrl credentialsUrl serverType = "https://webdav.yandex.ru/").
Proof.
  intros credentialsUrl serverType.
  assert (Hw : (if negb (Str.endsWith credentialsUrl "/")
                then credentialsUrl ++ "/" else credentialsUrl)
               = withSeparator credentialsUrl).
  { unfold withSeparator. now destruct (Str.endsWith credentialsUrl "/"). }
  assert (He : Str.endsWith (withSeparator credentialsUrl) "/" = true).
  { unfold withSeparator. destruct (Str.endsWith credentialsUrl "/") eqn:E;
      [exact E|apply endsWith_app_slash]. }
  assert (Hi : forall u, Str.endsWith u "/" = true ->
               (if negb (Str.endsWith u "/") then u ++ "/" else u) = u).
  { intros u Hu. now rewrite Hu. }
  unfold normalizeWebdavUrl. rewrite Hw.
  split; [|split; [|split]].
  - destruct serverType; try exact He.
    destruct (Str.includes (withSeparator credentialsUrl) "webdav.yandex.ru");
      [exact He|reflexivity].
  - destruct serverType; try (now rewrite (Hi _ He)).
    destruct (Str.includes (withSeparator credentialsUrl) "webdav.yandex.ru")
      eqn:E; cbn [negb].
    + now rewrite (Hi _ He), E.
    + reflexivity.
  - intros Hn. destruct serverType; try reflexivity. now elim Hn.
  - intros -> Hn. now rewrite Hn.
Qed.

Lemma normalizeWebdavUrl_separator_witness :
  normalizeWebdavUrl "https://dav.example.com/remote" YANDEX_DISK
    = "https://webdav.yandex.ru/".
Proof.
  apply (proj2 (proj2 (proj2 (normalizeWebdavUrl_separator
                                "https://dav.example.com/remote"
                                YANDEX_DISK))));
    reflexivity.
Defined.

(** X23.  The constructor keeps the base URL as it is given and never
    configures a ceiling of 0: a configured ceiling other than 0 is kept, an
    absent one and 0 both give 524288000 bytes, so that with a ceiling of 0
    configured a body of up to 524288000 bytes is within the ceiling. *)
Theorem createClient_ceilings :
  forall baseUrl options,
    baseURL (createClient baseUrl options) = baseUrl /\
    (exists n, cfg_maxBodyLength (createClient baseUrl options) = Bytes n /\
               n <> 0%Z /\
               (forall m, opt_maxBodyLength options = Some m -> m <> 0%Z ->
                          n = m) /\
               (opt_maxBodyLength options = None \/
                opt_maxBodyLength options = Some 0%Z -> n = 524288000%Z)) /\
    (exists n, cfg_maxContentLength (createClient baseUrl options) = Bytes n /\
               n <> 0%Z /\
               (forall m, opt_maxContentLength options = Some m -> m <> 0%Z ->
                          n = m) /\
               (opt_maxContentLength options = None \/
                opt_maxContentLength options = Some 0%Z -> n = 524288000%Z)) /\
    (opt_maxBodyLength options = Some 0%Z ->
     forall bytes,
       (Z.of_nat (String.length bytes) <= 524288000)%Z ->
       exceeds (Buffered bytes) (cfg_maxBodyLength (createClient baseUrl options))
         = false).
Proof.
  intros baseUrl [ob oc]. cbn [createClient baseURL cfg_maxBodyLength
    cfg_maxContentLength opt_maxBodyLength opt_maxContentLength].
  assert (Hor : forall o, exists n, orDefault o 524288000 = n /\
                 n <> 0%Z /\
                 (forall m, o = Some m -> m <> 0%Z -> n = m) /\
                 (o = None \/ o = Some 0%Z -> n = 524288000%Z)).
  { intros [m|]; unfold orDefault.
    - destruct (m =? 0)%Z eqn:E; eexists; (split; [reflexivity|]).
      + apply Z.eqb_eq in E. subst m. split; [discriminate|]. split.
        * intros m Hm Hn. injection Hm as <-. now elim Hn.
        * reflexivity.
      + apply Z.eqb_neq in E. split; [exact E|]. split.
        * intros m' Hm _. now injection Hm as <-.
        * intros [H|H]; [discriminate|]. injection H as ->. now elim E.
    - eexists. split; [reflexivity|]. split; [discriminate|]. split.
      + discriminate.
      + reflexivity. }
  split; [reflexivity|]. split; [|split].
  - destruct (Hor ob) as (n & <- & H). eexists. split; [reflexivity|exact H].
  - destruct (Hor oc) as (n & <- & H). eexists. split; [reflexivity|exact H].
  - intros -> bytes Hlen. cbn [orDefault Z.eqb exceeds payloadLength].
    apply andb_false_iff. right. apply Z.ltb_ge. exact Hlen.
Qed.

Lemma createClient_ceilings_witness :
  exceeds (Buffered "12345678901")
    (cfg_maxBodyLength
       (createClient "https://dav.example.com/"
          {| opt_maxBodyLength := Some 0%Z; opt_maxContentLength := None |}))
    = false.
Proof.
  apply (proj2 (proj2 (proj2 (createClient_ceilings "https://dav.example.com/"
           {| opt_maxBodyLength := Some 0%Z; opt_maxContentLength := None |})))
           eq_refl "12345678901").
  cbn. lia.
Defined.

(** ** The kind of a mapped record *)

Lemma defined_spellings : forall name children,
  distinct (map elementName children) = true ->
  Js.defined (childSpelled name Bare children)
    || Js.defined (childSpelled name Lower children)
    || Js.defined (childSpelled name Upper children)
  = Js.defined (child name children).
Proof.
  intros name. induction children as [|[[n s] v] rest IH]; intros Hd;
    [reflexivity|].
  cbn in Hd. apply andb_true_iff in Hd. destruct Hd as [Hfresh Hd].
  apply negb_true_iff in Hfresh.
  cbn [childSpelled child elementName fst snd].
  destruct (n =? name) eqn:E.
  - apply String.eqb_eq in E. subst n.
    rewrite !(childSpelled_absent name _ rest Hfresh).
    destruct s; cbn [andb spelling_eqb Js.defined];
      rewrite ?orb_false_r; reflexivity.
  - cbn [andb]. apply IH. exact Hd.
Qed.

(** X24.  A mapped record is a directory exactly when its resource type is
    an element that has a collection child, spelled [collection],
    [d:collection] or [D:collection], whatever other children it has; a
    record without resource type, or whose resource type is empty or a
    text, is a file. *)
Theorem mapped_type :
  forall now r,
    (forall children,
       wellNamed children = true ->
       resourcetype (prop r) = object children ->
       (type (webdavResponseToFileInfo now r) = directory <->
        Js.defined (child "collection" children) = true)) /\
    (resourcetype (prop r) = JUndefined ->
     type (webdavResponseToFileInfo now r) = file) /\
    (forall text, resourcetype (prop r) = JStr text ->
     type (webdavResponseToFileInfo now r) = file).
Proof.
  intros now r. unfold webdavResponseToFileInfo. cbn [type].
  split; [|split].
  - intros children Hw ->.
    unfold wellNamed in Hw. apply andb_true_iff in Hw.
    destruct Hw as [Hall Hdist].
    assert (Hdir : isDirectory (object children)
                   = Js.defined (child "collection" children)).
    { rewrite <- (defined_spellings "collection" children Hdist).
      rewrite <- (lookup_object children "collection" Bare eq_refl Hall).
      rewrite <- (lookup_object children "collection" Lower eq_refl Hall).
      rewrite <- (lookup_object children "collection" Upper eq_refl Hall).
      reflexivity. }
    rewrite Hdir.
    destruct (Js.defined (child "collection" children)); split;
      congruence.
  - intros ->. reflexivity.
  - intros text ->. unfold isDirectory. now rewrite andb_false_r.
Qed.

Lemma mapped_type_witness :
  type (webdavResponseToFileInfo sampleNow
          {| href := "/photos/";
             prop := {| getcontentlength := JUndefined;
                        getlastmodified := JUndefined;
                        getcontenttype := JUndefined;
                        getetag := JUndefined;
                        resourcetype :=
                          object [("principal", Upper, JStr "");
                                  ("collection", Upper, JStr "")];
                        displayname := JUndefined |};
             status := JStr "HTTP/1.1 200 OK" |})
    = directory.
Proof.
  apply (proj1 (mapped_type sampleNow _)
           [("principal", Upper, JStr ""); ("collection", Upper, JStr "")]);
    reflexivity.
Defined.

(** ** Malformed escapes *)

Lemma tokens_dangling : forall p,
  without "%" p = true -> Uri.tokens (p ++ "%") = None.
Proof.
  induction p as [|c r IH]; intros H; [reflexivity|].
  unfold without in H. cbn [list_ascii_of_string forallb] in H.
  apply andb_true_iff in H. destruct H as [Hc Hr].
  specialize (IH Hr).
  change (String c r ++ "%") with (String c (r ++ "%")).
  destruct c as [[] [] [] [] [] [] [] []]; try discriminate Hc;
    cbn [Uri.tokens]; rewrite IH; reflexivity.
Qed.

(** X25.  A response element whose [href] does not decode cannot be
    normalized: the URIError "URI malformed" is thrown, and the parsing of
    a document that contains the element fails with "Ошибка парсинга XML:
    URI malformed".  An [href] that ends with a lone percent sign is such
    an [href]. *)
Theorem malformed_href_fails :
  forall response block h,
    getField response (dav "href") = Ok (JStr h) ->
    getField response (dav "propstat") = Ok block ->
    statusLineBlock block ->
    (forall e,
       Uri.decodeURIComponent h = Throw e ->
       e = NativeError "URIError" "URI malformed" /\
       normalizeWebDAVResponse response = Throw e /\
       (forall xmlParse xmlData parsed multistatus,
          xmlParse xmlData = Ok parsed ->
          firstTruthy parsed (dav "multistatus") = Ok multistatus ->
          Js.truthy multistatus = true ->
          firstTruthy multistatus (dav "response") = Ok (JArr [response]) ->
          parseWebDAVResponse xmlParse xmlData =
          Throw (WebDAVErr
                   {| message := "Ошибка парсинга XML: URI malformed";
                      statusCode := None;
                      statusText := None |}))) /\
    (forall p, h = p ++ "%" -> without "%" p = true ->
               Uri.decodeURIComponent h
                 = Throw (NativeError "URIError" "URI malformed")).
Proof.
  intros response block h Hh Hp Hb. split.
  - intros e He.
    assert (Hsame : Js.toString (Js.or (JStr h) (JStr "")) = h)
      by now destruct h.
    assert (Hnorm : normalizeWebDAVResponse response = Throw e).
    { unfold normalizeWebDAVResponse. rewrite Hh, Hp. cbn [rbind].
      rewrite (successPropstat_single block Hb). cbn [rbind].
      destruct Hb as [[bf ->] _].
      destruct (getField_obj bf (dav "prop")) as [p0 ->]. cbn [rbind].
      rewrite Hsame, He. reflexivity. }
    assert (Hkind : e = NativeError "URIError" "URI malformed").
    { unfold Uri.decodeURIComponent in He.
      destruct (Uri.tokens h) as [ts|]; [|congruence].
      destruct (Uri.decodeTokens ts Uri.Any); congruence. }
    split; [exact Hkind|]. split; [exact Hnorm|].
    intros xmlParse xmlData parsed multistatus H1 H2 H3 H4.
    unfold parseWebDAVResponse. rewrite H1. cbn [rbind].
    rewrite H2. cbn [rbind]. rewrite H3. cbn [negb]. rewrite H4.
    cbn [rbind rmap]. rewrite Hnorm, Hkind. reflexivity.
  - intros p -> Hw. unfold Uri.decodeURIComponent.
    now rewrite (tokens_dangling p Hw).
Qed.

Lemma malformed_href_fails_witness :
  normalizeWebDAVResponse
    (JObj [("href", JStr ("/docs/100" ++ "%")); ("propstat", JObj [])])
  = Throw (NativeError "URIError" "URI malformed").
Proof.
  destruct (malformed_href_fails
              (JObj [("href", JStr ("/docs/100" ++ "%")); ("propstat", JObj [])])
              (JObj []) ("/docs/100" ++ "%") eq_refl eq_refl)
    as [H1 H2].
  - split; [eexists; reflexivity|left; reflexivity].
  - apply (H1 _ (H2 "/docs/100" eq_refl eq_refl)).
Defined.

(* ================================================================== *)
(** * Documents that differ only in spelling *)












































